(** * common_neural_preprocessing: h5_handling.py and bnpm/plotting_helpers.py

    A shallow embedding of the hierarchical-file helpers ([show_group_items],
    [show_item_tree], [make_h5_tree], [write_dict_to_h5],
    [h5py_dataset_iterator]), of [get_subplot_indices], [plot_image_grid],
    [plot_to_image] and [simple_cmap], and of the [Select_ROI] click-driven
    state machine, together with the properties the specification states
    about them and further properties read off the code.

    Conventions.
    - Python exceptions are values of [exn]; code that both mutates state and
      may raise lives in the monad [M S], whose state survives a raise (a
      Python exception does not roll back earlier mutations).
    - Python floats are modelled as exact rationals ([Q]).
    - h5py, matplotlib, numpy, cv2 and skimage are external: the parts of them
      the code relies on are modelled from their documented behaviour, or are
      taken as parameters where only their interface matters. *)

From Stdlib Require Import String Ascii List ZArith QArith Qround Lia Bool Sorted.
From stdpp Require Import base option list strings gmap pretty.
Import ListNotations.

Set Warnings "-register-all".

Open Scope string_scope.
Open Scope list_scope.

(** ** Exceptions and the state-and-exception monad *)

Inductive exn_class :=
| KeyError | ValueError | TypeError | IndexError | AttributeError
| FileExistsError | FileNotFoundError.

Record exn := Exn { exn_cls : exn_class; exn_msg : string }.

Inductive outcome (A : Type) :=
| Ok (a : A)
| Raise (e : exn).
Arguments Ok {A} a.
Arguments Raise {A} e.

Definition obind {A B} (o : outcome A) (k : A -> outcome B) : outcome B :=
  match o with
  | Ok a => k a
  | Raise e => Raise e
  end.

Definition is_ok {A} (o : outcome A) : bool :=
  match o with Ok _ => true | Raise _ => false end.

(** A computation over a mutable state [S]: it returns a value or raises, and
    in both cases leaves a state behind. *)
Definition M (S A : Type) : Type := S -> outcome A * S.

Definition ret {S A} (a : A) : M S A := fun s => (Ok a, s).
Definition raise {S A} (c : exn_class) (msg : string) : M S A :=
  fun s => (Raise (Exn c msg), s).
Definition bind {S A B} (m : M S A) (k : A -> M S B) : M S B :=
  fun s => match m s with
           | (Ok a, s') => k a s'
           | (Raise e, s') => (Raise e, s')
           end.
Definition get {S} : M S S := fun s => (Ok s, s).
Definition modify {S} (f : S -> S) : M S unit := fun s => (Ok tt, f s).

Declare Scope py_scope.
Delimit Scope py_scope with py.
Notation "'let!' x ':=' m 'in' k" := (bind m (fun x => k))
  (at level 10, x name, m at level 100, k at level 200) : py_scope.
Notation "m ';;' k" := (bind m (fun _ => k))
  (at level 100, k at level 200, right associativity) : py_scope.
Notation "'try!' x ':=' o 'in' k" := (obind o (fun x => k))
  (at level 10, x name, o at level 100, k at level 200) : py_scope.
Open Scope py_scope.

(** ** h5_handling.py *)

Module h5_handling.

(** *** Data model *)

(** A value h5py stores natively as a dataset: a string or a numeric array. *)
Inductive leaf :=
| LStr (s : string)
| LArray (shape : list nat) (dtype : string) (data : list Z).

(** The Python values a nested mapping holds: a serialisable leaf, any other
    Python object (named by its type), or a further [dict].  A [dict] is the
    list of its items in insertion order; its keys are pairwise distinct
    ([dict_ok] below). *)
Inductive pyval :=
| PyLeaf (l : leaf)
| PyObject (tyname : string)
| PyDict (items : list (string * pyval)).

Abbreviation pydict := (list (string * pyval)).

(** The contents of an HDF5 container: datasets and groups.  A dataset holds
    the data it was created from; a group carries attributes (its metadata)
    and named members, kept here in creation order. *)
Inductive h5node :=
| H5Dataset (d : leaf)
| H5Group (attrs : list (string * leaf)) (members : list (string * h5node)).

Abbreviation members_t := (list (string * h5node)).

(** An open [h5py.File]: the root group and whether it was opened for writing. *)
Record h5file := H5File { root : h5node; writable : bool }.

(** An h5py object ([File], [Group] or [Dataset]) is a handle on a place in
    the open file, identified by its absolute path from the root. *)
Definition handle := list string.

Definition hf : handle := [].

(** *** HDF5 link names and paths *)

Definition slash : ascii := "/"%char.

(** Splits at every ["/"]; the result is never empty. *)
Fixpoint split_slash (s : string) : list string :=
  match s with
  | EmptyString => [""]
  | String c s' =>
      if Ascii.eqb c slash then "" :: split_slash s'
      else match split_slash s' with
           | [] => [String c ""]
           | w :: ws => String c w :: ws
           end
  end.

Definition is_component (w : string) : bool :=
  negb (w =? "") && negb (w =? ".").

(** HDF5 treats runs of slashes as one separator and ["."] as the current
    group. *)
Definition path_components (s : string) : list string :=
  List.filter is_component (split_slash s).

Definition is_absolute (s : string) : bool :=
  match s with
  | String c _ => Ascii.eqb c slash
  | EmptyString => false
  end.

(** The place a name denotes when looked up from the group at [base]: a name
    with a leading slash is resolved from the root. *)
Definition resolve (base : handle) (name : string) : handle :=
  if is_absolute name then path_components name
  else base ++ path_components name.

Fixpoint has_slash (s : string) : bool :=
  match s with
  | EmptyString => false
  | String c s' => Ascii.eqb c slash || has_slash s'
  end.

(** A plain link name: one path component. *)
Definition simple_name (k : string) : bool :=
  negb (has_slash k) && is_component k.

(** *** The container operations of h5py used by the code *)

Fixpoint get_member (k : string) (ms : members_t) : option h5node :=
  match ms with
  | [] => None
  | (k', n) :: rest => if k' =? k then Some n else get_member k rest
  end.

Fixpoint set_member (k : string) (n : h5node) (ms : members_t) : members_t :=
  match ms with
  | [] => []
  | (k', n') :: rest =>
      if k' =? k then (k', n) :: rest else (k', n') :: set_member k n rest
  end.

Fixpoint lookup_path (p : handle) (n : h5node) : option h5node :=
  match p with
  | [] => Some n
  | k :: p' =>
      match n with
      | H5Group _ ms =>
          match get_member k ms with
          | Some c => lookup_path p' c
          | None => None
          end
      | H5Dataset _ => None
      end
  end.

(** Creates a link to [new] at path [p] below [n].  As h5py asks of HDF5,
    missing intermediate groups are created; the last name must be free. *)
Fixpoint link_new (p : handle) (new : h5node) (n : h5node) : option h5node :=
  match n with
  | H5Dataset _ => None
  | H5Group a ms =>
      match p with
      | [] => None
      | [k] =>
          match get_member k ms with
          | Some _ => None
          | None => Some (H5Group a (ms ++ [(k, new)]))
          end
      | k :: p' =>
          match get_member k ms with
          | Some c =>
              match link_new p' new c with
              | Some c' => Some (H5Group a (set_member k c' ms))
              | None => None
              end
          | None =>
              match link_new p' new (H5Group [] []) with
              | Some c' => Some (H5Group a (ms ++ [(k, c')]))
              | None => None
              end
          end
      end
  end.

Definition is_group_at (p : handle) (f : h5file) : bool :=
  match lookup_path p (root f) with
  | Some (H5Group _ _) => true
  | _ => false
  end.

(** [obj[name]]: opens the object a name denotes. *)
Definition getitem (obj : handle) (name : string) : M h5file handle :=
  fun f =>
    if negb (is_group_at obj f) then
      (Raise (Exn ValueError "Field names only allowed for compound types"), f)
    else if name =? "" then
      (Raise (Exn KeyError "Unable to open object (no name)"), f)
    else
      match lookup_path (resolve obj name) (root f) with
      | Some _ => (Ok (resolve obj name), f)
      | None => (Raise (Exn KeyError "Unable to open object"), f)
      end.

(** [obj.create_group(name)]. *)
Definition create_group (obj : handle) (name : string) : M h5file handle :=
  fun f =>
    if negb (is_group_at obj f) then
      (Raise (Exn AttributeError "'Dataset' object has no attribute 'create_group'"), f)
    else if negb (writable f) then
      (Raise (Exn ValueError "Unable to create group (no write intent on file)"), f)
    else
      match link_new (resolve obj name) (H5Group [] []) (root f) with
      | Some r => (Ok (resolve obj name), H5File r (writable f))
      | None => (Raise (Exn ValueError "Unable to create group (name already exists)"), f)
      end.

(** [obj.create_dataset(name, data=val)]. *)
Definition create_dataset (obj : handle) (name : string) (data : pyval)
  : M h5file handle :=
  fun f =>
    if negb (is_group_at obj f) then
      (Raise (Exn AttributeError "'Dataset' object has no attribute 'create_dataset'"), f)
    else
      match data with
      | PyLeaf d =>
          if negb (writable f) then
            (Raise (Exn ValueError "Unable to create dataset (no write intent on file)"), f)
          else
            match link_new (resolve obj name) (H5Dataset d) (root f) with
            | Some r => (Ok (resolve obj name), H5File r (writable f))
            | None =>
                (Raise (Exn ValueError "Unable to create dataset (name already exists)"), f)
            end
      | _ => (Raise (Exn TypeError "Object dtype has no native HDF5 equivalent"), f)
      end.

(** *** make_h5_tree *)

(** The body of the loop of [make_h5_tree] for one [(key, val)] item; the
    inner [fix] is the recursive call of [make_h5_tree] on [val]. *)
Fixpoint make_h5_tree_item (key : string) (val : pyval) (h5_obj : handle)
    (group_string : string) {struct val} : M h5file unit :=
  match val with
  | PyDict items =>
      let! g := getitem h5_obj group_string in
      create_group g key ;;
      let! g' := getitem h5_obj group_string in
      (fix make_h5_tree (dict_obj : pydict) (group_string : string)
         : M h5file unit :=
         match dict_obj with
         | [] => ret tt
         | (key, val) :: rest =>
             let group_string := if group_string =? "" then "/" else group_string in
             make_h5_tree_item key val g' group_string ;;
             make_h5_tree rest group_string
         end) items (group_string +:+ "/" +:+ key)
  | _ =>
      let! g := getitem h5_obj group_string in
      create_dataset g key val ;;
      ret tt
  end.

Fixpoint make_h5_tree (dict_obj : pydict) (h5_obj : handle) (group_string : string)
  : M h5file unit :=
  match dict_obj with
  | [] => ret tt
  | (key, val) :: rest =>
      let group_string := if group_string =? "" then "/" else group_string in
      make_h5_tree_item key val h5_obj group_string ;;
      make_h5_tree rest h5_obj group_string
  end.

(** The group string a round of the loop works with: the empty string
    stands for the root. *)
Definition root_if_empty (group_string : string) : string :=
  if group_string =? "" then "/" else group_string.

(** *** The container that mirrors a mapping *)

(** The specification's data model maps a nested mapping onto the container
    one to one: a sub-mapping is a group, a leaf value is a dataset.
    [h5_of_dict] is that image; a value h5py cannot store has none. *)
Fixpoint h5_of (v : pyval) : option h5node :=
  match v with
  | PyLeaf l => Some (H5Dataset l)
  | PyObject _ => None
  | PyDict items =>
      option_map (H5Group [])
        ((fix each (items : pydict) : option members_t :=
            match items with
            | [] => Some []
            | (k, v) :: rest =>
                match h5_of v, each rest with
                | Some n, Some ms => Some ((k, n) :: ms)
                | _, _ => None
                end
            end) items)
  end.

Fixpoint h5_of_dict (d : pydict) : option members_t :=
  match d with
  | [] => Some []
  | (k, v) :: rest =>
      match h5_of v, h5_of_dict rest with
      | Some n, Some ms => Some ((k, n) :: ms)
      | _, _ => None
      end
  end.

Fixpoint distinct (ks : list string) : bool :=
  match ks with
  | [] => true
  | k :: rest => negb (existsb (String.eqb k) rest) && distinct rest
  end.

(** A well-formed nested mapping: at every level the keys are plain link
    names and pairwise distinct (as the keys of a [dict] are), and every leaf
    is a value h5py stores natively. *)
Fixpoint val_ok (v : pyval) : bool :=
  match v with
  | PyLeaf _ => true
  | PyObject _ => false
  | PyDict items =>
      forallb simple_name (map fst items) && distinct (map fst items) &&
      (fix each (items : pydict) : bool :=
         match items with
         | [] => true
         | (_, v) :: rest => val_ok v && each rest
         end) items
  end.

Definition dict_ok (d : pydict) : bool := val_ok (PyDict d).

(** The leaves of a mapping, each with its keys joined by ["/"] below
    [prefix]. *)
Fixpoint leaves_of (v : pyval) (path : string) : list (string * leaf) :=
  match v with
  | PyLeaf l => [(path, l)]
  | PyObject _ => []
  | PyDict items =>
      (fix each (items : pydict) : list (string * leaf) :=
         match items with
         | [] => []
         | (k, v) :: rest => leaves_of v (path +:+ "/" +:+ k) ++ each rest
         end) items
  end.

Definition dict_leaves (d : pydict) (prefix : string) : list (string * leaf) :=
  leaves_of (PyDict d) prefix.

(** The node at [p] replaced by [new]. *)
Fixpoint replace_at (p : handle) (new : h5node) (n : h5node) : h5node :=
  match p with
  | [] => new
  | k :: p' =>
      match n with
      | H5Group a ms =>
          match get_member k ms with
          | Some c => H5Group a (set_member k (replace_at p' new c) ms)
          | None => n
          end
      | H5Dataset _ => n
      end
  end.

(** *** h5py_dataset_iterator *)

(** The pairs the generator yields, in order: a path and the [h5py.Dataset]
    found there, not the Python value it was created from.  [g.keys()]
    enumerates the members of the group; h5py does so in name order, the
    model in creation order, so statements about the enumeration are made up
    to permutation. *)
Fixpoint dataset_iterator_yields (g : h5node) (prefix : string) {struct g}
  : list (string * h5node) :=
  match g with
  | H5Group _ ms =>
      (fix keys_loop (ms : members_t) : list (string * h5node) :=
         match ms with
         | [] => []
         | (key, item) :: rest =>
             let path := prefix +:+ "/" +:+ key in
             match item with
             | H5Dataset _ => [(path, item)]
             | H5Group _ _ => dataset_iterator_yields item path
             end ++ keys_loop rest
         end) ms
  | H5Dataset _ => []
  end.

(** A [Dataset] has no [keys()]: iterating raises on the first [next]. *)
Definition h5py_dataset_iterator (g : h5node) (prefix : string)
  : outcome (list (string * h5node)) :=
  match g with
  | H5Group _ _ => Ok (dataset_iterator_yields g prefix)
  | H5Dataset _ => Raise (Exn AttributeError "'Dataset' object has no attribute 'keys'")
  end.

(** *** Reading a dataset back *)

(** The Python values a leaf of a mapping can be, and a dataset can be read
    as. *)
Inductive pyvalue :=
| VStr (s : string)
| VBytes (b : string)
| VArray (shape : list nat) (dtype : string) (data : list Z).

(** The Python value of a leaf of the mapping. *)
Definition leaf_value (l : leaf) : pyvalue :=
  match l with
  | LStr s => VStr s
  | LArray shape dtype data => VArray shape dtype data
  end.

(** [ds[()]], reading the whole of a dataset: h5py stores a [str] as a
    variable-length UTF-8 string and reads it back as [bytes]; a numeric
    array is read back as the array the dataset was created from.  A group
    is no dataset. *)
Definition read_dataset (ds : h5node) : option pyvalue :=
  match ds with
  | H5Dataset (LStr s) => Some (VBytes s)
  | H5Dataset (LArray shape dtype data) => Some (VArray shape dtype data)
  | H5Group _ _ => None
  end.

(** The dataset a leaf is written as, with the leaf's path. *)
Definition dataset_of_leaf (pl : string * leaf) : string * h5node :=
  (fst pl, H5Dataset (snd pl)).

(** *** Printing: show_group_items and show_item_tree *)

(** What the printing helpers observe of a "hierarchical object" and of its
    items: whether it is an [h5py.Group], a [dict], something with [shape]
    and [dtype] (an array or an [h5py.Dataset]), or anything else. *)
Inductive item :=
| IGroup (attrs : list (string * leaf)) (children : list (string * item))
| IDict (children : list (string * item))
| IShaped (shape : list nat) (dtype : string)
| IOther (tyname : string).

Fixpoint view_py (v : pyval) : item :=
  match v with
  | PyLeaf (LStr _) => IOther "str"
  | PyLeaf (LArray sh dt _) => IShaped sh dt
  | PyObject t => IOther t
  | PyDict items =>
      IDict ((fix each (items : pydict) :=
                match items with
                | [] => []
                | (k, v) :: rest => (k, view_py v) :: each rest
                end) items)
  end.

Fixpoint view_h5 (n : h5node) : item :=
  match n with
  | H5Dataset (LStr _) => IShaped [] "object"
  | H5Dataset (LArray sh dt _) => IShaped sh dt
  | H5Group a ms =>
      IGroup a ((fix each (ms : members_t) :=
                   match ms with
                   | [] => []
                   | (k, c) :: rest => (k, view_h5 c) :: each rest
                   end) ms)
  end.

Definition isinstance_Group (it : item) : bool :=
  match it with IGroup _ _ => true | _ => false end.

Definition isinstance_dict (it : item) : bool :=
  match it with IDict _ => true | _ => false end.

Definition hasattr_shape_dtype (it : item) : bool :=
  match it with IShaped _ _ => true | _ => false end.

(** [repr] of a shape tuple: [()], [(3,)], [(3, 4)]. *)
Definition shape_repr (sh : list nat) : string :=
  match sh with
  | [n] => "(" +:+ pretty n +:+ ",)"
  | _ => "(" +:+ String.concat ", " (map pretty sh) +:+ ")"
  end.

Definition item_shape (it : item) : string :=
  match it with IShaped sh _ => shape_repr sh | _ => "" end.

Definition item_dtype (it : item) : string :=
  match it with IShaped _ dt => dt | _ => "" end.

(** [type(obj)] as it prints. *)
Definition type_repr (it : item) : string :=
  match it with
  | IGroup _ _ => "<class 'h5py._hl.group.Group'>"
  | IDict _ => "<class 'dict'>"
  | IShaped _ _ => "<class 'numpy.ndarray'>"
  | IOther t => "<class '" +:+ t +:+ "'>"
  end.

(** Standard output is the list of the strings printed so far, one per call
    of [print]; a string without a newline is one line of output. *)
Definition print (line : string) : M (list string) unit :=
  modify (fun out => out ++ [line]).

(** [list(iter(hObj))] for the object being listed, which is a group or a
    [dict]; anything else is taken not to be iterable. *)
Definition list_iter (hObj : item) : M (list string) (list (string * item)) :=
  match hObj with
  | IGroup _ children | IDict children => ret children
  | _ => raise TypeError "object is not iterable"
  end.

(** One round of the loop of [show_group_items], for the item [val] at
    (zero-based) position [ii]. *)
Definition show_group_items_body (ii : nat) (val : string) (it : item)
  : M (list string) unit :=
  (if isinstance_Group it
   then print (pretty (ii + 1)%nat +:+ ". " +:+ val +:+ ":----------------")
   else ret tt) ;;
  if isinstance_dict it
  then print (pretty (ii + 1)%nat +:+ ". " +:+ val +:+ ":----------------")
  else if hasattr_shape_dtype it
  then print (pretty (ii + 1)%nat +:+ ". " +:+ val +:+ ":   shape="
              +:+ item_shape it +:+ " , dtype=" +:+ item_dtype it)
  else print (pretty (ii + 1)%nat +:+ ". " +:+ val +:+ ":   type=" +:+ type_repr it).

Fixpoint show_group_items_loop (ii : nat) (items : list (string * item))
  : M (list string) unit :=
  match items with
  | [] => ret tt
  | (val, it) :: rest =>
      show_group_items_body ii val it ;; show_group_items_loop (S ii) rest
  end.

Definition show_group_items (hObj : item) : M (list string) unit :=
  let! items := list_iter hObj in
  show_group_items_loop 0 items.

Fixpoint repeat_string (s : string) (n : nat) : string :=
  match n with
  | O => ""
  | S n' => s +:+ repeat_string s n'
  end.

Section Printing.

(** [str()] of a metadata value, as numpy and Python format it. *)
Variable py_str : leaf -> string.

Definition show_metadata_line (indent : string) (print_metadata : bool)
    (val : string) (v : leaf) : M (list string) unit :=
  if print_metadata
  then print (indent +:+ "METADATA: " +:+ val +:+ ": " +:+ py_str v)
  else match v with
       | LArray sh dt _ =>
           print (indent +:+ "METADATA: " +:+ val +:+ ": shape=" +:+ shape_repr sh
                  +:+ " , dtype=" +:+ dt)
       | LStr _ => raise AttributeError "'str' object has no attribute 'shape'"
       end.

Fixpoint show_metadata_loop (indent : string) (print_metadata : bool)
    (attrs : list (string * leaf)) : M (list string) unit :=
  match attrs with
  | [] => ret tt
  | (val, v) :: rest =>
      show_metadata_line indent print_metadata val v ;;
      show_metadata_loop indent print_metadata rest
  end.

(** [show_item_tree] with [path=None]: the recursive walk over [hObj]. *)
Fixpoint show_item_tree_obj (hObj : item) (show_metadata print_metadata : bool)
    (indent_level : nat) {struct hObj} : M (list string) unit :=
  let indent := repeat_string "  " indent_level in
  match hObj with
  | IGroup attrs _ =>
      if show_metadata then show_metadata_loop indent print_metadata attrs else ret tt
  | _ => ret tt
  end ;;
  match hObj with
  | IGroup _ children | IDict children =>
      (fix loop (ii : nat) (items : list (string * item)) : M (list string) unit :=
         match items with
         | [] => ret tt
         | (val, it) :: rest =>
             match it with
             | IGroup _ _ | IDict _ =>
                 print (indent +:+ pretty (ii + 1)%nat +:+ ". " +:+ val +:+ ":----------------") ;;
                 show_item_tree_obj it show_metadata print_metadata (indent_level + 1)
             | IShaped sh dt =>
                 print (indent +:+ pretty (ii + 1)%nat +:+ ". " +:+ val +:+ ":   shape="
                        +:+ shape_repr sh +:+ " , dtype=" +:+ dt)
             | IOther _ =>
                 print (indent +:+ pretty (ii + 1)%nat +:+ ". " +:+ val +:+ ":   type="
                        +:+ type_repr it)
             end ;;
             loop (S ii) rest
         end) 0%nat children
  | _ => raise TypeError "object is not iterable"
  end.

(** *** Files on disk: h5py.File and write_dict_to_h5 *)

(** The world outside the process: the HDF5 files by path, and standard
    output. *)
Record world := World { fs : gmap string h5node; stdout : list string }.

Definition new_file : h5node := H5Group [] [].

(** [h5py.File(path, mode)]. *)
Definition File_open (path mode : string) : M world h5file :=
  fun w =>
    let create := (Ok (H5File new_file true),
                   World (<[path := new_file]> (fs w)) (stdout w)) in
    let missing := (Raise (Exn FileNotFoundError "Unable to open file"), w) in
    if mode =? "r" then
      match fs w !! path with
      | Some r => (Ok (H5File r false), w)
      | None => missing
      end
    else if mode =? "r+" then
      match fs w !! path with
      | Some r => (Ok (H5File r true), w)
      | None => missing
      end
    else if mode =? "w" then create
    else if (mode =? "w-") || (mode =? "x") then
      match fs w !! path with
      | Some _ => (Raise (Exn FileExistsError "Unable to create file (file exists)"), w)
      | None => create
      end
    else if mode =? "a" then
      match fs w !! path with
      | Some r => (Ok (H5File r true), w)
      | None => create
      end
    else (Raise (Exn ValueError "Invalid mode; must be one of r, r+, w, w-, x, a"), w).

(** [with h5py.File(path, mode) as f: body]: the body runs on the open file
    and on standard output; the file is closed, and what was written to it
    kept, however the body ends. *)
Definition with_File {A} (path mode : string)
    (body : M (h5file * list string) A) : M world A :=
  fun w =>
    match File_open path mode w with
    | (Raise e, w') => (Raise e, w')
    | (Ok f, w') =>
        match body (f, stdout w') with
        | (r, (f', out)) => (r, World (<[path := root f']> (fs w')) out)
        end
    end.

Definition on_file {A} (m : M h5file A) : M (h5file * list string) A :=
  fun s => match m (fst s) with (r, f') => (r, (f', snd s)) end.

Definition on_stdout {A} (m : M (list string) A) : M (h5file * list string) A :=
  fun s => match m (snd s) with (r, out) => (r, (fst s, out)) end.

Definition show_open_file (show_metadata print_metadata : bool) (indent_level : nat)
  : M (h5file * list string) unit :=
  fun s => on_stdout (show_item_tree_obj (view_h5 (root (fst s)))
                        show_metadata print_metadata indent_level) s.

Definition show_item_tree (hObj : option item) (path : option string)
    (show_metadata print_metadata : bool) (indent_level : nat) : M world unit :=
  match path with
  | Some p => with_File p "r" (show_open_file show_metadata print_metadata indent_level)
  | None =>
      fun w =>
        match hObj with
        | Some o =>
            match show_item_tree_obj o show_metadata print_metadata indent_level (stdout w) with
            | (r, out) => (r, World (fs w) out)
            end
        | None => (Raise (Exn TypeError "'NoneType' object is not iterable"), w)
        end
  end.

Definition write_dict_to_h5 (path_save : string) (input_dict : pydict)
    (write_mode : string) (show_item_tree_pref : bool) : M world unit :=
  with_File path_save write_mode
    (on_file (make_h5_tree input_dict hf "") ;;
     if show_item_tree_pref then
       on_stdout (print "==== Successfully wrote h5 ile. Displaying h5 hierarchy ====") ;;
       show_open_file true false 0
     else ret tt).

(** The defaults of the keyword arguments. *)
Definition default_write_mode : string := "w-".
Definition default_show_item_tree_pref : bool := true.

(** Writes [input_dict] to [path_save] in an empty world with the default
    write mode, then opens the file for reading and enumerates its datasets. *)
Definition write_then_iterate (path_save : string) (input_dict : pydict)
  : outcome (list (string * h5node)) :=
  match write_dict_to_h5 path_save input_dict default_write_mode false (World ∅ []) with
  | (Ok _, w) =>
      match File_open path_save "r" w with
      | (Ok f, _) => h5py_dataset_iterator (root f) ""
      | (Raise e, _) => Raise e
      end
  | (Raise e, _) => Raise e
  end.

End Printing.

(** *** Sizes of hierarchical objects *)

(** The number of items of a hierarchical object, at every level. *)
Fixpoint item_count (it : item) : nat :=
  match it with
  | IGroup _ children | IDict children =>
      (fix each (items : list (string * item)) : nat :=
         match items with
         | [] => 0
         | (_, c) :: rest => S (item_count c) + each rest
         end) children
  | _ => 0
  end.

(** The number of metadata entries of the groups of a hierarchical object,
    at every level. *)
Fixpoint attr_count (it : item) : nat :=
  match it with
  | IGroup attrs children =>
      length attrs +
      (fix each (items : list (string * item)) : nat :=
         match items with
         | [] => 0
         | (_, c) :: rest => attr_count c + each rest
         end) children
  | IDict children =>
      (fix each (items : list (string * item)) : nat :=
         match items with
         | [] => 0
         | (_, c) :: rest => attr_count c + each rest
         end) children
  | _ => 0
  end.

Definition is_container (it : item) : bool :=
  isinstance_Group it || isinstance_dict it.


(** *** Example mappings *)

Definition example_array : leaf := LArray [2%nat; 2%nat] "int64" [1; 2; 3; 4]%Z.

Definition example_dict : pydict :=
  [ ("name", PyLeaf (LStr "session 1"));
    ("data", PyDict [ ("trace", PyLeaf example_array);
                      ("meta", PyDict [ ("rate", PyLeaf (LArray [] "float64" [30%Z])) ]) ]);
    ("empty", PyDict []) ].

(** The image of [example_dict], a file that holds one empty group, and a
    world with one file. *)
Definition example_image : members_t := default [] (h5_of_dict example_dict).

Definition file_with_group : h5file :=
  H5File (H5Group [] [("grp", H5Group [] [])]) true.

Definition world_with_file : world :=
  World {[ "session.h5" := H5Group [] [("trace", H5Dataset example_array)] ]} [].

Definition flat_listing : list (string * item) :=
  [ ("trace", IShaped [2%nat; 2%nat] "int64"); ("name", IOther "str") ].

End h5_handling.

(** ** bnpm/plotting_helpers.py *)

Module plotting_helpers.

(** *** get_subplot_indices and plot_image_grid *)

(** [np.prod(shape)]. *)
Definition prod_shape (shape : list nat) : nat := fold_right Nat.mul 1%nat shape.

(** [np.unravel_index(k, shape, order='F')]: the subscripts of flat index [k]
    when the first axis varies fastest. *)
Fixpoint unravel_index_F (shape : list nat) (k : nat) : list nat :=
  match shape with
  | [] => []
  | d :: rest => (k mod d)%nat :: unravel_index_F rest (k / d)%nat
  end.

(** The flat index of subscripts [idx] in the same order (ind2sub's inverse,
    [np.ravel_multi_index(idx, shape, order='F')]). *)
Fixpoint ravel_index_F (shape idx : list nat) : nat :=
  match shape, idx with
  | d :: rest, i :: idx' => (i + d * ravel_index_F rest idx')%nat
  | _, _ => 0%nat
  end.

(** Subscripts that address an array of the given shape. *)
Definition in_bounds (shape idx : list nat) : Prop := Forall2 lt idx shape.

(** [get_subplot_indices(axs)], from the shape of the array of axes.  A
    zero-dimensional array has no integer flat indices to unravel. *)
Definition get_subplot_indices (axs_shape : list nat) : outcome (list (list nat)) :=
  match axs_shape with
  | [] => Raise (Exn TypeError "only int indices permitted")
  | _ => Ok (map (unravel_index_F axs_shape) (seq 0 (prod_shape axs_shape)))
  end.

(** What [plt.subplots(nrows, ncols)] returns beside the figure: with the
    default [squeeze], a single [Axes] object for a 1 x 1 grid, a
    one-dimensional array of axes for a single row or column, and a
    two-dimensional array otherwise. *)
Inductive subplots_result :=
| SingleAxes
| AxesArray (shape : list nat).

Definition subplots (nrows ncols : nat) : outcome subplots_result :=
  if (nrows =? 0)%nat || (ncols =? 0)%nat then
    Raise (Exn ValueError "Number of rows and columns must be positive")
  else if (nrows =? 1)%nat && (ncols =? 1)%nat then Ok SingleAxes
  else if (nrows =? 1)%nat then Ok (AxesArray [ncols])
  else if (ncols =? 1)%nat then Ok (AxesArray [nrows])
  else Ok (AxesArray [nrows; ncols]).

Section Grid.

(** The images are opaque here; what [imshow] does with one is matplotlib's
    business. *)
Variable image : Type.

(** What has been done to one [Axes]: the image shown with its colormap, the
    title, and the argument of [axis(...)]. *)
Record axes_state := Axes
  { ax_image : option (image * string);
    ax_title : option string;
    ax_axis : option string }.

Definition blank_axes : axes_state := Axes None None None.

(** A figure: its axes by subscript; an axes without entry is blank. *)
Abbreviation figure := (gmap (list nat) axes_state).

Definition axes_at (fig : figure) (idx : list nat) : axes_state :=
  default blank_axes (fig !! idx).

Definition set_axes (idx : list nat) (f : axes_state -> axes_state) : M figure unit :=
  modify (fun fig => <[idx := f (axes_at fig idx)]> fig).

Definition py_index {A} (l : list A) (ii : nat) : M figure A :=
  match nth_error l ii with
  | Some x => ret x
  | None => raise IndexError "list index out of range"
  end.

(** The loop of [plot_image_grid] over [enumerate(idx_axs)], from position
    [ii] on. *)
Fixpoint plot_image_grid_loop (images : list image) (labels : option (list string))
    (show_axis cmap : string) (ii : nat) (idx_axs : list (list nat)) : M figure unit :=
  match idx_axs with
  | [] => ret tt
  | idx_ax :: rest =>
      let! img := py_index images ii in
      set_axes idx_ax (fun ax => Axes (Some (img, cmap)) (ax_title ax) (ax_axis ax)) ;;
      match labels with
      | Some ls =>
          let! lbl := py_index ls ii in
          set_axes idx_ax (fun ax => Axes (ax_image ax) (Some lbl) (ax_axis ax))
      | None => ret tt
      end ;;
      set_axes idx_ax (fun ax => Axes (ax_image ax) (ax_title ax) (Some show_axis)) ;;
      plot_image_grid_loop images labels show_axis cmap (S ii) rest
  end.

(** [plot_image_grid(images, labels, grid_shape, show_axis, cmap)] with empty
    [kwargs]; it returns the shape of [axs], the figure being the state. *)
Definition plot_image_grid (images : list image) (labels : option (list string))
    (grid_shape : nat * nat) (show_axis : string) (cmap : option string)
  : M figure (list nat) :=
  let cmap := match cmap with None => "viridis" | Some c => c end in
  fun _ =>
    match subplots (fst grid_shape) (snd grid_shape) with
    | Raise e => (Raise e, ∅)
    | Ok SingleAxes =>
        (Raise (Exn AttributeError "'Axes' object has no attribute 'shape'"), ∅)
    | Ok (AxesArray shape) =>
        match get_subplot_indices shape with
        | Raise e => (Raise e, ∅)
        | Ok idx_axs =>
            match plot_image_grid_loop images labels show_axis cmap 0 idx_axs ∅ with
            | (Ok _, fig) => (Ok shape, fig)
            | (Raise e, fig) => (Raise e, fig)
            end
        end
    end.

End Grid.

Arguments Axes {image} _ _ _.
Arguments ax_image {image} _.
Arguments ax_title {image} _.
Arguments ax_axis {image} _.
Arguments blank_axes {image}.
Arguments axes_at {image} _ _.

(** *** plot_to_image *)

(** What [plot_to_image] reads from the canvas of a figure once it is drawn:
    the size in pixels and the pixel buffers, one number per byte. *)
Record canvas := Canvas
  { get_width : nat;
    get_height : nat;
    tostring_argb : list Z;
    tostring_rgb : list Z }.

(** The first [k] rows of [n] elements of a flat array (C order). *)
Fixpoint chunks {A} (k n : nat) (l : list A) : list (list A) :=
  match k with
  | O => []
  | S k' => firstn n l :: chunks k' n (skipn n l)
  end.

(** [a.reshape((h, w, c))] for a one-dimensional [a]. *)
Definition reshape3 {A} (h w c : nat) (a : list A) : outcome (list (list (list A))) :=
  if (length a =? h * w * c)%nat then Ok (map (chunks w c) (chunks h (w * c) a))
  else Raise (Exn ValueError "cannot reshape array").

(** [image[..., idx]]: the entries of the last axis picked by [idx]. *)
Definition take_last_axis (idx : list nat) (image : list (list (list Z)))
  : list (list (list Z)) :=
  map (map (fun px => map (fun i => nth i px 0%Z) idx)) image.

(** [plot_to_image(fig, keep_alpha)], after [fig.canvas.draw()]. *)
Definition plot_to_image (fig : canvas) (keep_alpha : bool)
  : outcome (list (list (list Z))) :=
  if keep_alpha then
    try! image := reshape3 (get_height fig) (get_width fig) 4 (tostring_argb fig) in
    Ok (take_last_axis [1; 2; 3; 0]%nat image)
  else
    reshape3 (get_height fig) (get_width fig) 3 (tostring_rgb fig).

(** A canvas of two by two pixels. *)
Definition canvas_2x2 : canvas :=
  {| get_width := 2; get_height := 2;
     tostring_argb := [255; 1; 2; 3; 255; 4; 5; 6; 128; 7; 8; 9; 0; 10; 11; 12]%Z;
     tostring_rgb := [1; 2; 3; 4; 5; 6; 7; 8; 9; 10; 11; 12]%Z |}.

(** *** simple_cmap *)

Definition rgb : Type := Q * Q * Q.

(** A colour as the caller writes it: a triple of numbers or a name. *)
Inductive color_spec :=
| RGB (r g b : Q)
| Named (name : string).

(** The default of [colors]. *)
Definition default_colors : list color_spec :=
  [ RGB 1 0 0; RGB 1 (6 # 10) 0; RGB (9 # 10) (9 # 10) 0; RGB (6 # 10) 1 0;
    RGB 0 1 0; RGB 0 1 (6 # 10); RGB 0 (8 # 10) (8 # 10); RGB 0 (6 # 10) 1;
    RGB 0 0 1; RGB (6 # 10) 0 1; RGB (8 # 10) 0 (8 # 10); RGB 1 0 (6 # 10) ].
Definition default_under : color_spec := RGB 0 0 0.
Definition default_over : color_spec := RGB (5 # 10) (5 # 10) (5 # 10).
Definition default_bad : color_spec := RGB (9 # 10) (9 # 10) (9 # 10).
Definition default_name : string := "none".

Definition Qlt_bool (a b : Q) : bool := negb (Qle_bool b a).

Definition in_unit (q : Q) : bool := Qle_bool 0 q && Qle_bool q 1.

Definition rgb_in_unit (c : rgb) : bool :=
  match c with (r, g, b) => in_unit r && in_unit g && in_unit b end.

(** A control point [(x, y0, y1)] of one channel of a segmented colormap. *)
Definition control_point : Type := Q * Q * Q.

Definition cp_x (p : control_point) : Q := fst (fst p).
Definition cp_y0 (p : control_point) : Q := snd (fst p).
Definition cp_y1 (p : control_point) : Q := snd p.

Record cdict_t := Cdict
  { red : list control_point; green : list control_point; blue : list control_point }.

Record colormap := Colormap
  { cmap_name : string;
    segmentdata : cdict_t;
    N : nat;
    rgba_bad : option rgb;
    rgba_over : option rgb;
    rgba_under : option rgb }.

Definition LinearSegmentedColormap (name : string) (cd : cdict_t) : colormap :=
  Colormap name cd 256 None None None.

Definition set_bad (c : rgb) (cm : colormap) : colormap :=
  Colormap (cmap_name cm) (segmentdata cm) (N cm) (Some c) (rgba_over cm) (rgba_under cm).
Definition set_over (c : rgb) (cm : colormap) : colormap :=
  Colormap (cmap_name cm) (segmentdata cm) (N cm) (rgba_bad cm) (Some c) (rgba_under cm).
Definition set_under (c : rgb) (cm : colormap) : colormap :=
  Colormap (cmap_name cm) (segmentdata cm) (N cm) (rgba_bad cm) (rgba_over cm) (Some c).

(** The position of control point [i + 1] among [n_colors]: [(i+1) / (n_colors-1)]. *)
Definition position (i n_colors : nat) : Q :=
  Z.of_nat (i + 1) # Pos.of_nat (n_colors - 1).

(** The loop over [enumerate(colors[1:])], from index [i] on. *)
Fixpoint cdict_loop (n_colors i : nat) (colors : list rgb) (cdict : cdict_t) : cdict_t :=
  match colors with
  | [] => cdict
  | (r, g, b) :: rest =>
      let idx := position i n_colors in
      cdict_loop n_colors (S i) rest
        (Cdict (red cdict ++ [(idx, r, r)])
               (green cdict ++ [(idx, g, g)])
               (blue cdict ++ [(idx, b, b)]))
  end.

Section Cmap.

(** matplotlib's table of colour names (and of the other string forms it
    accepts); [None] for a string that names no colour. *)
Variable named_colors : string -> option rgb.

(** [colorConverter.to_rgb]. *)
Definition to_rgb (c : color_spec) : outcome rgb :=
  match c with
  | RGB r g b =>
      if rgb_in_unit (r, g, b) then Ok (r, g, b)
      else Raise (Exn ValueError "RGBA values should be within 0-1 range")
  | Named s =>
      match named_colors s with
      | Some c => Ok c
      | None => Raise (Exn ValueError "Invalid RGBA argument")
      end
  end.

Fixpoint to_rgb_all (colors : list color_spec) : outcome (list rgb) :=
  match colors with
  | [] => Ok []
  | c :: rest =>
      try! c' := to_rgb c in
      try! rest' := to_rgb_all rest in
      Ok (c' :: rest')
  end.

Definition simple_cmap (colors : list color_spec) (under over bad : color_spec)
    (name : string) : outcome colormap :=
  let n_colors := length colors in
  if (n_colors <=? 1)%nat then
    Raise (Exn ValueError "Must specify at least two colors")
  else
    try! colors := to_rgb_all colors in
    match colors with
    | [] => Raise (Exn IndexError "list index out of range")
    | (r, g, b) :: tl =>
        let cdict := Cdict [(0%Q, r, r)] [(0%Q, g, g)] [(0%Q, b, b)] in
        let cdict := cdict_loop n_colors 0 tl cdict in
        let cmap := LinearSegmentedColormap name cdict in
        try! bad := to_rgb bad in
        let cmap := set_bad bad cmap in
        try! over := to_rgb over in
        let cmap := set_over over cmap in
        try! under := to_rgb under in
        let cmap := set_under under cmap in
        Ok cmap
    end.

End Cmap.

(** A colour specification the converter accepts. *)
Definition valid_color (named_colors : string -> option rgb) (c : color_spec) : Prop :=
  is_ok (to_rgb named_colors c) = true.

(** The control points of one channel of a gradient of [n] colours: one per
    colour, at strictly increasing positions that start at 0 and end at 1. *)
Definition well_positioned (n : nat) (channel : list control_point) : Prop :=
  length channel = n /\
  StronglySorted Qlt (map cp_x channel) /\
  (hd 1 (map cp_x channel) == 0)%Q /\
  (List.last (map cp_x channel) 0 == 1)%Q.

(** A small table of colour names, to run [simple_cmap] on named colours. *)
Definition base_colors (s : string) : option rgb :=
  if s =? "w" then Some (1, 1, 1)%Q
  else if s =? "k" then Some (0, 0, 0)%Q
  else if s =? "r" then Some (1, 0, 0)%Q
  else if s =? "b" then Some (0, 0, 1)%Q
  else None.

(** *** Evaluating a segmented colormap (matplotlib) *)

(** [np.searchsorted(x, v)]: the first index whose position is not below [v]. *)
Fixpoint searchsorted (x : list Q) (v : Q) : nat :=
  match x with
  | [] => 0
  | a :: rest => if Qlt_bool a v then S (searchsorted rest v) else 0
  end.

Definition clip01 (v : Q) : Q :=
  if Qlt_bool v 0 then 0%Q else if Qlt_bool 1 v then 1%Q else v.

Fixpoint increasing (x : list Q) : bool :=
  match x with
  | a :: ((b :: _) as rest) => Qle_bool a b && increasing rest
  | _ => true
  end.

Definition nthQ (l : list Q) (i : nat) : Q := nth i l 0%Q.

(** The lookup table of one channel: [n] samples of the piecewise-linear
    function through the control points; the first sample is [y1] of the
    first point and the last is [y0] of the last point. *)
Definition create_lookup_table (n : nat) (data : list control_point)
  : outcome (list Q) :=
  let x := map cp_x data in
  let y0 := map cp_y0 data in
  let y1 := map cp_y1 data in
  if negb (Qeq_bool (nthQ x 0) 0 && Qeq_bool (List.last x 0%Q) 1) then
    Raise (Exn ValueError "data mapping points must start with x=0 and end with x=1")
  else if negb (increasing x) then
    Raise (Exn ValueError "data mapping points must have x in increasing order")
  else
    let interior :=
      map (fun k : nat =>
             let xind := Z.of_nat k # Pos.of_nat (n - 1) in
             let ind := searchsorted x xind in
             let distance :=
               ((xind - nthQ x (ind - 1)) / (nthQ x ind - nthQ x (ind - 1)))%Q in
             (distance * (nthQ y0 ind - nthQ y1 (ind - 1)) + nthQ y1 (ind - 1))%Q)
          (seq 1 (n - 2)) in
    Ok (map clip01 ([nthQ y1 0] ++ interior ++ [List.last y0 0%Q])).

(** [cmap(X)] for a float [X], without the alpha channel. *)
Definition colormap_call (cm : colormap) (X : Q) : outcome rgb :=
  try! lr := create_lookup_table (N cm) (red (segmentdata cm)) in
  try! lg := create_lookup_table (N cm) (green (segmentdata cm)) in
  try! lb := create_lookup_table (N cm) (blue (segmentdata cm)) in
  let at_index (i : nat) : rgb := (nthQ lr i, nthQ lg i, nthQ lb i) in
  let xa := (X * (Z.of_nat (N cm) # 1))%Q in
  if Qeq_bool xa (Z.of_nat (N cm) # 1) then Ok (at_index (N cm - 1))
  else if Qlt_bool xa 0 then Ok (default (at_index 0%nat) (rgba_under cm))
  else if Qle_bool (Z.of_nat (N cm) # 1) xa then
    Ok (default (at_index (N cm - 1)) (rgba_over cm))
  else Ok (at_index (Z.to_nat (Qnum xa / Zpos (Qden xa)))).

(** *** Select_ROI *)

(** An image or any other numeric array: its shape and its values. *)
Record ndarray := Ndarray { shape : list nat; pixels : list Z }.

(** A clicked point [[xdata, ydata]], a polygon, and a boolean array given by
    its rows. *)
Definition point : Type := Q * Q.
Definition polygon_t : Type := list point.
Definition mask : Type := list (list bool).

(** A matplotlib mouse event.  [xdata] and [ydata] are the data coordinates
    of the pointer; both are [None] when the pointer is not over the axes. *)
Record MouseEvent := { xdata : option Q; ydata : option Q }.


(** The attributes of a [Select_ROI] object.  The Python lists that hold
    points are objects with identity: [lists] is the store of these objects,
    and [selected_points] and [_selected_points_last_ROI] refer into it, so
    that a list appended to [selected_points] and still bound to
    [_selected_points_last_ROI] is one shared object. *)
Record Select_ROI := Build_ROI
  { _img_input : ndarray;
    lists : list polygon_t;
    selected_points : list nat;
    _selected_points_last_ROI : nat;
    _completed_status : bool;
    _buttonRelease : bool;      (* is the click callback connected to the canvas *)
    _img_current : ndarray;     (* the data the figure shows *)
    canvas_draws : nat;         (* calls of canvas.draw() *)
    mask_frames : option (list mask);
    printed : list string }.

Definition set_lists (v : list polygon_t) (s : Select_ROI) : Select_ROI :=
  Build_ROI (_img_input s) v (selected_points s) (_selected_points_last_ROI s)
    (_completed_status s) (_buttonRelease s) (_img_current s) (canvas_draws s)
    (mask_frames s) (printed s).
Definition set_selected_points (v : list nat) (s : Select_ROI) : Select_ROI :=
  Build_ROI (_img_input s) (lists s) v (_selected_points_last_ROI s)
    (_completed_status s) (_buttonRelease s) (_img_current s) (canvas_draws s)
    (mask_frames s) (printed s).
Definition set_last_ROI (v : nat) (s : Select_ROI) : Select_ROI :=
  Build_ROI (_img_input s) (lists s) (selected_points s) v
    (_completed_status s) (_buttonRelease s) (_img_current s) (canvas_draws s)
    (mask_frames s) (printed s).
Definition set_completed_status (v : bool) (s : Select_ROI) : Select_ROI :=
  Build_ROI (_img_input s) (lists s) (selected_points s) (_selected_points_last_ROI s)
    v (_buttonRelease s) (_img_current s) (canvas_draws s)
    (mask_frames s) (printed s).
Definition set_buttonRelease (v : bool) (s : Select_ROI) : Select_ROI :=
  Build_ROI (_img_input s) (lists s) (selected_points s) (_selected_points_last_ROI s)
    (_completed_status s) v (_img_current s) (canvas_draws s)
    (mask_frames s) (printed s).
Definition set_img_current (v : ndarray) (s : Select_ROI) : Select_ROI :=
  Build_ROI (_img_input s) (lists s) (selected_points s) (_selected_points_last_ROI s)
    (_completed_status s) (_buttonRelease s) v (canvas_draws s)
    (mask_frames s) (printed s).
Definition set_canvas_draws (v : nat) (s : Select_ROI) : Select_ROI :=
  Build_ROI (_img_input s) (lists s) (selected_points s) (_selected_points_last_ROI s)
    (_completed_status s) (_buttonRelease s) (_img_current s) v
    (mask_frames s) (printed s).
Definition set_mask_frames (v : option (list mask)) (s : Select_ROI) : Select_ROI :=
  Build_ROI (_img_input s) (lists s) (selected_points s) (_selected_points_last_ROI s)
    (_completed_status s) (_buttonRelease s) (_img_current s) (canvas_draws s)
    v (printed s).
Definition set_printed (v : list string) (s : Select_ROI) : Select_ROI :=
  Build_ROI (_img_input s) (lists s) (selected_points s) (_selected_points_last_ROI s)
    (_completed_status s) (_buttonRelease s) (_img_current s) (canvas_draws s)
    (mask_frames s) v.

(** The points of the list object [r]. *)
Definition deref (self : Select_ROI) (r : nat) : polygon_t :=
  default [] (lists self !! r).

(** The completed polygons and the polygon in progress, by value. *)
Definition completed_polygons (self : Select_ROI) : list polygon_t :=
  map (deref self) (selected_points self).
Definition in_progress (self : Select_ROI) : polygon_t :=
  deref self (_selected_points_last_ROI self).

(** [__init__(image)]: both lists start empty and the click callback is
    connected. *)
Definition __init__ (image : ndarray) : Select_ROI :=
  {| _img_input := image;
     lists := [[]];
     selected_points := [];
     _selected_points_last_ROI := 0;
     _completed_status := false;
     _buttonRelease := true;
     _img_current := image;
     canvas_draws := 0;
     mask_frames := None;
     printed := [] |}.

(** [np.array(pts, np.int32)]: floats are truncated towards zero. *)
Definition to_int32 (q : Q) : Z := Z.quot (Qnum q) (Zpos (Qden q)).

Definition int_points (pts : polygon_t) : list (Z * Z) :=
  map (fun p : point => (to_int32 (fst p), to_int32 (snd p))) pts.

(** numpy indexing along an axis of length [n]: negative indices count from
    the end, anything else out of range is an [IndexError]. *)
Definition normalize_index (n : nat) (i : Z) : option nat :=
  if (0 <=? i)%Z && (i <? Z.of_nat n)%Z then Some (Z.to_nat i)
  else if (- Z.of_nat n <=? i)%Z && (i <? 0)%Z then Some (Z.to_nat (i + Z.of_nat n))
  else None.

Fixpoint normalize_indices (h w : nat) (px : list (Z * Z)) : option (list (nat * nat)) :=
  match px with
  | [] => Some []
  | (y, x) :: rest =>
      match normalize_index h y, normalize_index w x, normalize_indices h w rest with
      | Some y', Some x', Some rest' => Some ((y', x') :: rest')
      | _, _, _ => None
      end
  end.

Definition pixel_in (px : list (nat * nat)) (r c : nat) : bool :=
  existsb (fun p : nat * nat => Nat.eqb (fst p) r && Nat.eqb (snd p) c) px.

(** [np.zeros((h, w))], then [mask_frame[pts_y, pts_x] = 1], then
    [astype(bool)]. *)
Definition fill_mask (h w : nat) (px : list (Z * Z)) : outcome mask :=
  match normalize_indices h w px with
  | Some px' => Ok (map (fun r => map (fun c => pixel_in px' r c) (seq 0 w)) (seq 0 h))
  | None => Raise (Exn IndexError "index is out of bounds")
  end.

Definition has_dims (h w : nat) (m : mask) : Prop :=
  length m = h /\ Forall (fun row => length row = w) m.

Section ROI.

(** [cv2.polylines(img, [pts], isClosed=True, color=(255,255,255), thickness=2)]
    on integer points; it may refuse its input. *)
Variable cv2_polylines : ndarray -> list (Z * Z) -> outcome ndarray.

(** [skimage.draw.polygon(r, c)]: the pixels inside the polygon with the given
    row and column coordinates, as (row, column) pairs. *)
Variable skimage_draw_polygon : list Q -> list Q -> list (Z * Z).

Definition _poly_img (img : ndarray) (pts : polygon_t) : outcome ndarray :=
  cv2_polylines img (int_points pts).

Definition lift_outcome {A} (o : outcome A) : M Select_ROI A :=
  fun s => (o, s).

(** The loop [for ii in range(len(self.selected_points))] of [_onclick]. *)
Fixpoint draw_completed (self : Select_ROI) (refs : list nat) (im : ndarray)
  : outcome ndarray :=
  match refs with
  | [] => Ok im
  | r :: rest =>
      try! im := _poly_img im (deref self r) in
      draw_completed self rest im
  end.

Definition _onclick (event : MouseEvent) : M Select_ROI unit :=
  match xdata event, ydata event with
  | Some x, Some y =>
      modify (fun self =>
                set_lists (alter (fun l => l ++ [(x, y)])
                             (_selected_points_last_ROI self) (lists self)) self) ;;
      let! self := get in
      (if (1 <? length (in_progress self))%nat then
         let im := _img_input self in
         let! im := lift_outcome (draw_completed self (selected_points self) im) in
         let! im := lift_outcome (_poly_img im (in_progress self)) in
         modify (set_img_current im)
       else ret tt) ;;
      modify (fun self => set_canvas_draws (S (canvas_draws self)) self)
  | _, _ => ret tt
  end.

(** One round of the loop of [_disconnect_mpl], for the list object [r]. *)
Definition mask_frame_of (r : nat) : M Select_ROI unit :=
  let! self := get in
  let pts := deref self r in
  match shape (_img_input self) with
  | h :: w :: _ =>
      match pts with
      | [] => raise IndexError "too many indices for array"
      | _ :: _ =>
          let px := skimage_draw_polygon (map snd pts) (map fst pts) in
          let! mask_frame := lift_outcome (fill_mask h w px) in
          match mask_frames self with
          | Some ms => modify (set_mask_frames (Some (ms ++ [mask_frame])))
          | None => raise AttributeError "'Select_ROI' object has no attribute 'mask_frames'"
          end
      end
  | _ => raise IndexError "tuple index out of range"
  end.

Fixpoint mask_frames_loop (refs : list nat) : M Select_ROI unit :=
  match refs with
  | [] => ret tt
  | r :: rest => mask_frame_of r ;; mask_frames_loop rest
  end.

Definition _disconnect_mpl : M Select_ROI unit :=
  modify (fun self =>
            set_selected_points
              (selected_points self ++ [_selected_points_last_ROI self]) self) ;;
  modify (set_buttonRelease false) ;;
  modify (set_completed_status true) ;;
  modify (set_mask_frames (Some [])) ;;
  let! self := get in
  mask_frames_loop (selected_points self) ;;
  modify (fun self => set_printed (printed self ++ ["mask_frames computed"]) self).

Definition _new_ROI : M Select_ROI unit :=
  modify (fun self =>
            set_selected_points
              (selected_points self ++ [_selected_points_last_ROI self]) self) ;;
  modify (fun self =>
            set_last_ROI (length (lists self)) (set_lists (lists self ++ [[]]) self)).

(** What the user does, and the callback the GUI runs for it.  A click
    reaches [_onclick] only while the callback is connected; the two buttons
    stay wired to their callbacks for the life of the object. *)
Inductive gui_event :=
| Click (event : MouseEvent)
| ConfirmROI
| NewROI.

Definition dispatch (ev : gui_event) : M Select_ROI unit :=
  match ev with
  | Click event =>
      let! self := get in
      if _buttonRelease self then _onclick event else ret tt
  | ConfirmROI => _disconnect_mpl
  | NewROI => _new_ROI
  end.

(** The object after a sequence of user actions; an exception raised by a
    callback is reported by the GUI and the object stays as the callback
    left it. *)
Definition run (evs : list gui_event) (self : Select_ROI) : Select_ROI :=
  fold_left (fun s ev => snd (dispatch ev s)) evs self.

(** Point collection is active. *)
Definition collecting_points (self : Select_ROI) : Prop :=
  _buttonRelease self = true /\ _completed_status self = false.

(** The confirm action has run. *)
Definition finished (self : Select_ROI) : Prop :=
  _completed_status self = true.

(** A polygon the rasteriser of [_disconnect_mpl] can turn into a mask of
    [h] rows and [w] columns: it has at least one point, and every pixel
    [skimage.draw.polygon] returns for it indexes the mask. *)
Definition rasterizable (h w : nat) (pts : polygon_t) : Prop :=
  pts <> [] /\
  is_ok (fill_mask h w (skimage_draw_polygon (map snd pts) (map fst pts))) = true.

End ROI.

(** *** Running the model: a reference rasteriser *)

(** Does the edge from [a] to [b] cross the horizontal ray that leaves the
    point [(x, y)] towards larger [x]? *)
Definition edge_crosses (x y : Q) (a b : point) : bool :=
  let '(ax, ay) := a in
  let '(bx, by_) := b in
  negb (Bool.eqb (Qlt_bool y ay) (Qlt_bool y by_)) &&
  Qlt_bool x (ax + (y - ay) * (bx - ax) / (by_ - ay))%Q.

(** The even-odd rule: a point is inside when the ray crosses the outline an
    odd number of times. *)
Definition point_in_polygon (poly : polygon_t) (x y : Q) : bool :=
  match poly with
  | [] => false
  | first :: rest =>
      Nat.odd (length (List.filter (fun e : point * point => edge_crosses x y (fst e) (snd e))
                         (combine poly (rest ++ [first]))))
  end.

Definition Zrange (lo hi : Z) : list Z :=
  map (fun k => (lo + Z.of_nat k)%Z) (seq 0 (Z.to_nat (hi - lo + 1))).

(** The pixels whose centre lies inside the polygon with row coordinates [r]
    and column coordinates [c], searched in the polygon's bounding box: a
    stand-in for [skimage.draw.polygon], for running the model on concrete
    clicks. *)
Definition even_odd_polygon (r c : list Q) : list (Z * Z) :=
  match r, c with
  | r0 :: _, c0 :: _ =>
      let rmin := fold_right Z.min (Qfloor r0) (map Qfloor r) in
      let rmax := fold_right Z.max (Qceiling r0) (map Qceiling r) in
      let cmin := fold_right Z.min (Qfloor c0) (map Qfloor c) in
      let cmax := fold_right Z.max (Qceiling c0) (map Qceiling c) in
      let poly := combine c r in
      flat_map (fun y =>
                  flat_map (fun x =>
                              if point_in_polygon poly (inject_Z x) (inject_Z y)
                              then [(y, x)] else [])
                           (Zrange cmin cmax))
               (Zrange rmin rmax)
  | _, _ => []
  end.

(** Drawing an outline changes pixel values only; the model keeps the image. *)
Definition outline_unseen (img : ndarray) (pts : list (Z * Z)) : outcome ndarray :=
  Ok img.

Definition click (x y : Q) : gui_event :=
  Click {| xdata := Some x; ydata := Some y |}.

(** A 4 x 5 single-channel image. *)
Definition image_4x5 : ndarray := Ndarray [4%nat; 5%nat] (repeat 0%Z 20).

(** A triangle is clicked and confirmed. *)
Definition triangle_confirmed : Select_ROI :=
  run outline_unseen even_odd_polygon
    [click 0 0; click 3 0; click 0 3; ConfirmROI] (__init__ image_4x5).

End plotting_helpers.

(** * Properties *)

Lemma bind_ok {S A B} (m : M S A) (k : A -> M S B) s a s' :
  m s = (Ok a, s') -> bind m k s = k a s'.
Proof. unfold bind. intros ->. reflexivity. Qed.

Lemma bind_raise {S A B} (m : M S A) (k : A -> M S B) s e s' :
  m s = (Raise e, s') -> bind m k s = (Raise e, s').
Proof. unfold bind. intros ->. reflexivity. Qed.

Module h5_handling_props.
Import h5_handling.

(** ** show_group_items *)




(** ** write_dict_to_h5 *)

(** C5: when a file already exists at the path, [write_dict_to_h5] with the
    default write mode ['w-'] raises a file-exists error, and neither the
    files nor standard output change. *)
Theorem write_dict_to_h5_existing_path :
  forall (py_str : leaf -> string) (path_save : string) (input_dict : pydict)
         (show_item_tree_pref : bool) (w : world) (existing : h5node),
    fs w !! path_save = Some existing ->
    exists e,
      write_dict_to_h5 py_str path_save input_dict default_write_mode
        show_item_tree_pref w = (Raise e, w) /\
      exn_cls e = FileExistsError.
Proof.
  intros py_str path_save input_dict pref w existing Hex.
  eexists. unfold write_dict_to_h5, with_File, File_open, default_write_mode.
  simpl. rewrite Hex. split; reflexivity.
Qed.

(** ** Link names and paths *)

Lemma split_slash_nonempty s : split_slash s <> [].
Proof.
  destruct s as [|c s]; simpl; [discriminate|].
  destruct (Ascii.eqb c slash); [discriminate|].
  destruct (split_slash s); discriminate.
Qed.

Lemma split_slash_app a b :
  split_slash (a +:+ String slash b) = split_slash a ++ split_slash b.
Proof.
  induction a as [|c a IH]; simpl.
  - reflexivity.
  - destruct (Ascii.eqb c slash).
    + by rewrite IH.
    + rewrite IH. pose proof (split_slash_nonempty a) as Hne.
      destruct (split_slash a); [done|reflexivity].
Qed.

Lemma split_slash_plain k : has_slash k = false -> split_slash k = [k].
Proof.
  induction k as [|c k IH]; simpl; [done|].
  destruct (Ascii.eqb c slash); simpl; [discriminate|].
  intros H. by rewrite IH.
Qed.

Lemma simple_name_components k :
  simple_name k = true -> is_absolute k = false /\ path_components k = [k].
Proof.
  unfold simple_name. intros H. apply andb_prop in H as [Hs Hc].
  apply negb_true_iff in Hs. split.
  - destruct k as [|c k]; simpl in *; [done|].
    destruct (Ascii.eqb c slash); [discriminate|done].
  - unfold path_components. rewrite split_slash_plain by done. simpl. by rewrite Hc.
Qed.

Lemma path_components_join gs k :
  simple_name k = true ->
  path_components (gs +:+ "/" +:+ k) = path_components gs ++ [k].
Proof.
  intros Hk. destruct (simple_name_components k Hk) as [_ Hc].
  unfold path_components in *.
  change ("/" +:+ k) with (String slash k).
  by rewrite split_slash_app, List.filter_app, Hc.
Qed.

Lemma is_absolute_join gs x :
  is_absolute gs = true ->
  is_absolute (gs +:+ x) = true /\ (gs +:+ x =? "") = false.
Proof. destruct gs as [|c gs]; simpl; [discriminate|]. by intros ->. Qed.

Lemma resolve_absolute h gs : is_absolute gs = true -> resolve h gs = path_components gs.
Proof. unfold resolve. by intros ->. Qed.

Lemma resolve_simple h k : simple_name k = true -> resolve h k = h ++ [k].
Proof.
  intros Hk. destruct (simple_name_components k Hk) as [Ha Hc].
  unfold resolve. by rewrite Ha, Hc.
Qed.

(** ** Members and places of a container *)

Lemma get_member_app_fresh k k' n ms :
  get_member k ms = None ->
  get_member k (ms ++ [(k', n)]) = if k' =? k then Some n else None.
Proof.
  induction ms as [|[k0 n0] ms IH]; simpl; [done|].
  destruct (k0 =? k); [discriminate|]. exact IH.
Qed.

Lemma get_set_member k c c' ms :
  get_member k ms = Some c -> get_member k (set_member k c' ms) = Some c'.
Proof.
  induction ms as [|[k0 n0] ms IH]; simpl; [discriminate|].
  destruct (k0 =? k) eqn:E; simpl; rewrite E; [done|]. exact IH.
Qed.

Lemma set_set_member k c1 c2 ms :
  set_member k c2 (set_member k c1 ms) = set_member k c2 ms.
Proof.
  induction ms as [|[k0 n0] ms IH]; simpl; [done|].
  destruct (k0 =? k) eqn:E; simpl; rewrite E; [done|]. by rewrite IH.
Qed.

Lemma set_member_same k c ms :
  get_member k ms = Some c -> set_member k c ms = ms.
Proof.
  induction ms as [|[k0 n0] ms IH]; simpl; [done|].
  destruct (k0 =? k) eqn:E; [by intros [= ->]|]. intros H. by rewrite IH.
Qed.

Lemma set_member_last k c c' ms :
  get_member k ms = None ->
  set_member k c' (ms ++ [(k, c)]) = ms ++ [(k, c')].
Proof.
  induction ms as [|[k0 n0] ms IH]; simpl.
  - by rewrite String.eqb_refl.
  - destruct (k0 =? k) eqn:E; [discriminate|]. intros H. by rewrite IH.
Qed.

Lemma lookup_path_app p q r :
  lookup_path (p ++ q) r =
  match lookup_path p r with
  | Some n => lookup_path q n
  | None => None
  end.
Proof.
  revert r. induction p as [|k p IH]; intros r; simpl; [done|].
  destruct r as [d|a ms]; [done|].
  destruct (get_member k ms) as [c|]; [apply IH|done].
Qed.

Lemma lookup_replace_at p new old r :
  lookup_path p r = Some old -> lookup_path p (replace_at p new r) = Some new.
Proof.
  revert r. induction p as [|k p IH]; intros r; simpl; [done|].
  destruct r as [d|a ms]; [done|].
  destruct (get_member k ms) as [c|] eqn:E; [|done].
  intros H. simpl. rewrite (get_set_member _ _ _ _ E). by apply IH.
Qed.

Lemma replace_replace_at p n1 n2 old r :
  lookup_path p r = Some old ->
  replace_at p n2 (replace_at p n1 r) = replace_at p n2 r.
Proof.
  revert r. induction p as [|k p IH]; intros r; simpl; [done|].
  destruct r as [d|a ms]; [done|].
  destruct (get_member k ms) as [c|] eqn:E; [|done].
  intros H. simpl. rewrite (get_set_member _ _ _ _ E), set_set_member.
  by rewrite IH.
Qed.

Lemma replace_at_same p n r : lookup_path p r = Some n -> replace_at p n r = r.
Proof.
  revert r. induction p as [|k p IH]; intros r; simpl; [by intros [= ->]|].
  destruct r as [d|a ms]; [done|].
  destruct (get_member k ms) as [c|] eqn:E; [|done].
  intros H. rewrite IH by done. by rewrite set_member_same.
Qed.

Lemma replace_at_app p q new n r :
  lookup_path p r = Some n ->
  replace_at (p ++ q) new r = replace_at p (replace_at q new n) r.
Proof.
  revert r. induction p as [|k p IH]; intros r; simpl; [by intros [= ->]|].
  destruct r as [d|a ms]; [done|].
  destruct (get_member k ms) as [c|] eqn:E; [|done].
  intros H. by rewrite IH.
Qed.

Lemma link_new_cons k x xs new a ms :
  link_new (k :: x :: xs) new (H5Group a ms) =
  match get_member k ms with
  | Some c =>
      match link_new (x :: xs) new c with
      | Some c' => Some (H5Group a (set_member k c' ms))
      | None => None
      end
  | None =>
      match link_new (x :: xs) new (H5Group [] []) with
      | Some c' => Some (H5Group a (ms ++ [(k, c')]))
      | None => None
      end
  end.
Proof. reflexivity. Qed.

(** Linking a fresh name into an existing group extends that group. *)
Lemma link_new_fresh p k new r a ms :
  lookup_path p r = Some (H5Group a ms) ->
  get_member k ms = None ->
  link_new (p ++ [k]) new r = Some (replace_at p (H5Group a (ms ++ [(k, new)])) r).
Proof.
  revert r. induction p as [|k0 p IH]; intros r Hp Hk.
  - simpl in Hp. injection Hp as ->. simpl. by rewrite Hk.
  - simpl in Hp. destruct r as [d|a0 ms0]; [done|].
    destruct (get_member k0 ms0) as [c|] eqn:E; [|done].
    assert (Hcons : exists x xs, p ++ [k] = x :: xs).
    { destruct p; simpl; eauto. }
    destruct Hcons as (x & xs & Hx).
    change ((k0 :: p) ++ [k]) with (k0 :: (p ++ [k])).
    rewrite Hx, link_new_cons, <- Hx, E, (IH c Hp Hk). simpl. by rewrite E.
Qed.

(** A place above a group is a group. *)
Lemma group_above h q r a ms :
  lookup_path (h ++ q) r = Some (H5Group a ms) ->
  exists a' ms', lookup_path h r = Some (H5Group a' ms').
Proof.
  rewrite lookup_path_app. destruct (lookup_path h r) as [[d|a' ms']|]; [|eauto|done].
  destruct q; simpl; discriminate.
Qed.

(** ** Nested mappings *)

Lemma pyval_nested_ind (P : pyval -> Prop) :
  (forall l, P (PyLeaf l)) ->
  (forall t, P (PyObject t)) ->
  (forall items, Forall (fun kv : string * pyval => P (snd kv)) items -> P (PyDict items)) ->
  forall v, P v.
Proof.
  intros Hl Ho Hd. fix IH 1. intros [l|t|items]; [apply Hl|apply Ho|].
  apply Hd. revert items. fix IHl 1. intros [|[k v] rest].
  - constructor.
  - constructor; [apply IH|apply IHl].
Qed.

Lemma h5_of_PyDict d : h5_of (PyDict d) = option_map (H5Group []) (h5_of_dict d).
Proof.
  reflexivity.
Qed.

Lemma dict_ok_cons k v rest :
  dict_ok ((k, v) :: rest) = true <->
  simple_name k = true /\ ~ In k (map fst rest) /\ val_ok v = true /\ dict_ok rest = true.
Proof.
  unfold dict_ok. simpl.
  rewrite !andb_true_iff, negb_true_iff.
  assert (Hin : existsb (String.eqb k) (map fst rest) = false <-> ~ In k (map fst rest)).
  { rewrite <- not_true_iff_false, existsb_exists. split.
    - intros H Hk. apply H. exists k. split; [done|apply String.eqb_refl].
    - intros H (x & Hx & Hkx). apply String.eqb_eq in Hkx. by subst. }
  rewrite Hin. tauto.
Qed.

Lemma make_h5_tree_inner items g gs f :
  (fix make_h5_tree (dict_obj : pydict) (group_string : string) : M h5file unit :=
     match dict_obj with
     | [] => ret tt
     | (key, val) :: rest =>
         let group_string := if group_string =? "" then "/" else group_string in
         make_h5_tree_item key val g group_string ;;
         make_h5_tree rest group_string
     end) items gs f
  = make_h5_tree items g gs f.
Proof.
  revert gs f. induction items as [|[k v] rest IH]; intros gs f; [done|].
  cbn [make_h5_tree]. unfold bind.
  destruct (make_h5_tree_item k v g _ f) as [[[]|e] f1]; [apply IH|done].
Qed.

Lemma make_h5_tree_item_dict key items h gs f :
  make_h5_tree_item key (PyDict items) h gs f =
  (let! g := getitem h gs in
   create_group g key ;;
   let! g' := getitem h gs in
   make_h5_tree items g' (gs +:+ "/" +:+ key)) f.
Proof.
  cbn [make_h5_tree_item]. unfold bind.
  destruct (getitem h gs f) as [[g|e] f1]; [|done].
  destruct (create_group g key f1) as [[g0|e] f2]; [|done].
  destruct (getitem h gs f2) as [[g'|e] f3]; [|done].
  apply make_h5_tree_inner.
Qed.

(** ** The container operations on a fresh name *)

Lemma getitem_absolute h gs f n :
  is_group_at h f = true ->
  is_absolute gs = true ->
  lookup_path (path_components gs) (root f) = Some n ->
  getitem h gs f = (Ok (path_components gs), f).
Proof.
  intros Hg Ha Hn. unfold getitem. rewrite Hg. simpl.
  destruct gs as [|c gs']; [discriminate|]. cbn [String.eqb].
  rewrite (resolve_absolute h _ Ha), Hn. reflexivity.
Qed.

Lemma create_group_fresh p k f a ms :
  lookup_path p (root f) = Some (H5Group a ms) ->
  writable f = true ->
  simple_name k = true ->
  get_member k ms = None ->
  create_group p k f =
    (Ok (p ++ [k]),
     H5File (replace_at p (H5Group a (ms ++ [(k, H5Group [] [])])) (root f)) true).
Proof.
  intros Hp Hw Hk Hfree. unfold create_group, is_group_at.
  rewrite Hp, Hw, (resolve_simple _ _ Hk). simpl.
  by rewrite (link_new_fresh _ _ _ _ _ _ Hp Hfree).
Qed.

Lemma create_dataset_fresh p k l f a ms :
  lookup_path p (root f) = Some (H5Group a ms) ->
  writable f = true ->
  simple_name k = true ->
  get_member k ms = None ->
  create_dataset p k (PyLeaf l) f =
    (Ok (p ++ [k]),
     H5File (replace_at p (H5Group a (ms ++ [(k, H5Dataset l)])) (root f)) true).
Proof.
  intros Hp Hw Hk Hfree. unfold create_dataset, is_group_at.
  rewrite Hp, Hw, (resolve_simple _ _ Hk). simpl.
  by rewrite (link_new_fresh _ _ _ _ _ _ Hp Hfree).
Qed.

(** ** make_h5_tree *)

Lemma root_if_empty_absolute gs :
  is_absolute gs = true -> root_if_empty gs = gs.
Proof. destruct gs; [discriminate|done]. Qed.

(** The invariant of the recursion: called with a group string that denotes
    an existing group, on a mapping whose keys are free in that group,
    [make_h5_tree] ends normally and has extended the group by the image of
    the mapping.  [h5_obj] is the group itself or a group above it. *)
Lemma make_h5_tree_extends_val (v : pyval) :
  match v with
  | PyDict d =>
      forall (h q : handle) (gs : string) (f : h5file) a ms,
        dict_ok d = true ->
        writable f = true ->
        is_absolute (root_if_empty gs) = true ->
        path_components (root_if_empty gs) = h ++ q ->
        lookup_path (h ++ q) (root f) = Some (H5Group a ms) ->
        (forall k, In k (map fst d) -> get_member k ms = None) ->
        exists ms',
          h5_of_dict d = Some ms' /\
          make_h5_tree d h gs f =
            (Ok tt, H5File (replace_at (h ++ q) (H5Group a (ms ++ ms')) (root f)) true)
  | _ => True
  end.
Proof.
  induction v as [l|t|d IHd] using pyval_nested_ind; [exact I|exact I|].
  induction d as [|[key val] rest IHrest]; intros h q gs f a ms Hok Hw Habs Hcomp Hp Hfree.
  - exists []. split; [done|]. simpl. unfold ret.
    rewrite app_nil_r, (replace_at_same _ _ _ Hp).
    destruct f; simpl in *; by subst.
  - apply Forall_cons in IHd as [IHval IHd]. specialize (IHrest IHd).
    apply dict_ok_cons in Hok as (Hkey & Hnotin & Hval & Hrest).
    set (gs' := root_if_empty gs) in *.
    pose proof (root_if_empty_absolute gs' Habs) as Hgs'.
    destruct (group_above _ _ _ _ _ Hp) as (a0 & ms0 & Hh).
    assert (Hgh : is_group_at h f = true) by (unfold is_group_at; by rewrite Hh).
    assert (Hkfree : get_member key ms = None) by (apply Hfree; by left).
    assert (Hget : getitem h gs' f = (Ok (h ++ q), f)).
    { rewrite <- Hcomp. eapply getitem_absolute; [done|done|]. rewrite Hcomp. exact Hp. }
    assert (Hcont : forall n,
      h5_of val = Some n ->
      make_h5_tree_item key val h gs' f =
        (Ok tt, H5File (replace_at (h ++ q) (H5Group a (ms ++ [(key, n)])) (root f)) true) ->
      exists ms',
        h5_of_dict ((key, val) :: rest) = Some ms' /\
        make_h5_tree ((key, val) :: rest) h gs f =
          (Ok tt, H5File (replace_at (h ++ q) (H5Group a (ms ++ ms')) (root f)) true)).
    { intros n Hn Hitem.
      destruct (IHrest h q gs'
                  (H5File (replace_at (h ++ q) (H5Group a (ms ++ [(key, n)])) (root f)) true)
                  a (ms ++ [(key, n)]) Hrest eq_refl) as (msr & Hr & Hmk).
      - by rewrite Hgs'.
      - by rewrite Hgs'.
      - simpl. eapply lookup_replace_at, Hp.
      - intros k Hk. rewrite get_member_app_fresh by (apply Hfree; by right).
        destruct (key =? k) eqn:E; [|done]. apply String.eqb_eq in E. by subst.
      - exists ((key, n) :: msr). split; [simpl; by rewrite Hn, Hr|].
        change (make_h5_tree ((key, val) :: rest) h gs f)
          with (bind (make_h5_tree_item key val h gs')
                     (fun _ => make_h5_tree rest h gs') f).
        rewrite (bind_ok _ _ _ _ _ Hitem), Hmk. simpl.
        by rewrite (replace_replace_at _ _ _ _ _ Hp), <- app_assoc. }
    destruct val as [l|t|sub].
    + apply (Hcont (H5Dataset l)); [done|].
      cbn [make_h5_tree_item].
      rewrite (bind_ok _ _ _ _ _ Hget).
      by rewrite (bind_ok _ _ _ _ _ (create_dataset_fresh _ _ l _ _ _ Hp Hw Hkey Hkfree)).
    + discriminate.
    + set (f1 := H5File (replace_at (h ++ q)
                           (H5Group a (ms ++ [(key, H5Group [] [])])) (root f)) true).
      assert (Hp1 : lookup_path (h ++ q) (root f1)
                    = Some (H5Group a (ms ++ [(key, H5Group [] [])]))).
      { simpl. eapply lookup_replace_at, Hp. }
      destruct (is_absolute_join gs' ("/" +:+ key) Habs) as [Habs1 Hne1].
      destruct (IHval (h ++ q) [key] (gs' +:+ "/" +:+ key) f1 [] []) as (subms & Hs & Hmk).
      * exact Hval.
      * reflexivity.
      * by rewrite (root_if_empty_absolute _ Habs1).
      * by rewrite (root_if_empty_absolute _ Habs1), (path_components_join _ _ Hkey), Hcomp.
      * rewrite lookup_path_app, Hp1. simpl.
        by rewrite (get_member_app_fresh _ _ _ _ Hkfree), String.eqb_refl.
      * done.
      * apply (Hcont (H5Group [] subms)); [by rewrite h5_of_PyDict, Hs|].
        rewrite make_h5_tree_item_dict.
        rewrite (bind_ok _ _ _ _ _ Hget).
        rewrite (bind_ok _ _ _ _ _ (create_group_fresh _ _ _ _ _ Hp Hw Hkey Hkfree)).
        fold f1.
        assert (Hget1 : getitem h gs' f1 = (Ok (h ++ q), f1)).
        { destruct (group_above _ _ _ _ _ Hp1) as (a1 & ms1 & Hh1).
          rewrite <- Hcomp. eapply getitem_absolute; [|done|].
          - unfold is_group_at. by rewrite Hh1.
          - rewrite Hcomp. exact Hp1. }
        rewrite (bind_ok _ _ _ _ _ Hget1), Hmk. f_equal. f_equal.
        rewrite (replace_at_app _ _ _ _ _ Hp1). simpl.
        rewrite (get_member_app_fresh _ _ _ _ Hkfree), String.eqb_refl.
        rewrite (set_member_last _ _ _ _ Hkfree).
        by rewrite (replace_replace_at _ _ _ _ _ Hp).
Qed.

Lemma make_h5_tree_on_root (d : pydict) (f : h5file) a ms :
  dict_ok d = true ->
  writable f = true ->
  root f = H5Group a ms ->
  (forall k, In k (map fst d) -> get_member k ms = None) ->
  exists ms',
    h5_of_dict d = Some ms' /\
    make_h5_tree d hf "" f = (Ok tt, H5File (H5Group a (ms ++ ms')) true).
Proof.
  intros Hok Hw Hroot Hfree.
  exact (make_h5_tree_extends_val (PyDict d) [] [] "" f a ms Hok Hw eq_refl eq_refl
           (f_equal Some Hroot) Hfree).
Qed.

Lemma get_member_app_free k ms ms' :
  get_member k ms = None -> get_member k (ms ++ ms') = get_member k ms'.
Proof.
  induction ms as [|[k0 n0] ms IH]; simpl; [done|].
  destruct (k0 =? k); [discriminate|]. exact IH.
Qed.

Lemma get_member_image d ms' k v :
  dict_ok d = true ->
  h5_of_dict d = Some ms' ->
  In (k, v) d ->
  get_member k ms' = h5_of v.
Proof.
  revert ms'. induction d as [|[k0 v0] rest IH]; intros ms' Hok Hms Hin; [destruct Hin|].
  apply dict_ok_cons in Hok as (_ & Hnotin & _ & Hrest). simpl in Hms.
  destruct (h5_of v0) as [n0|] eqn:Hn0; [|done].
  destruct (h5_of_dict rest) as [msr|] eqn:Hr; [|done].
  injection Hms as <-. simpl. destruct Hin as [[= -> ->]|Hin].
  - by rewrite String.eqb_refl.
  - destruct (k0 =? k) eqn:E.
    + apply String.eqb_eq in E. subst k0. exfalso. apply Hnotin.
      apply in_map_iff. by exists (k, v).
    + by apply IH.
Qed.

(** C1, as the code has it: for every nested mapping with plain, distinct
    link names as keys (non-empty, without a slash, not ["."]) and natively
    storable leaves, [make_h5_tree], called as [write_dict_to_h5]
    calls it on a writable file whose root has none of the mapping's
    top-level keys, ends normally having visited every item: an item whose
    value is a mapping has become a new group of that key holding,
    recursively, the image of the value; any other item has become a dataset
    of that key holding the value, in the group of the current group path.
    The members the root had before are kept. *)
Theorem make_h5_tree_mirrors_mapping :
  forall (dict_obj : pydict) (f : h5file) (a : list (string * leaf)) (ms : members_t),
    dict_ok dict_obj = true ->
    writable f = true ->
    root f = H5Group a ms ->
    (forall k, In k (map fst dict_obj) -> get_member k ms = None) ->
    exists ms',
      h5_of_dict dict_obj = Some ms' /\
      make_h5_tree dict_obj hf "" f = (Ok tt, H5File (H5Group a (ms ++ ms')) true) /\
      (forall key sub, In (key, PyDict sub) dict_obj ->
         exists members,
           h5_of_dict sub = Some members /\
           get_member key (ms ++ ms') = Some (H5Group [] members)) /\
      (forall key l, In (key, PyLeaf l) dict_obj ->
         get_member key (ms ++ ms') = Some (H5Dataset l)).
Proof.
  intros d f a ms Hok Hw Hroot Hfree.
  destruct (make_h5_tree_on_root d f a ms Hok Hw Hroot Hfree) as (ms' & Hms & Hmk).
  exists ms'. split; [exact Hms|]. split; [exact Hmk|].
  assert (Hget : forall k v, In (k, v) d -> get_member k (ms ++ ms') = h5_of v).
  { intros k v Hin. rewrite get_member_app_free.
    - by apply (get_member_image d).
    - apply Hfree, in_map_iff. by exists (k, v). }
  split.
  - intros key sub Hin. pose proof (Hget _ _ Hin) as Hk.
    rewrite h5_of_PyDict in Hk.
    destruct (h5_of_dict sub) as [members|] eqn:Hsub.
    + by exists members.
    + exfalso. clear Hk Hget Hmk.
      revert ms' Hms. induction d as [|[k0 v0] rest IH]; intros ms' Hms; [destruct Hin|].
      apply dict_ok_cons in Hok as (_ & _ & Hv0 & Hrest). simpl in Hms.
      destruct (h5_of v0) as [n0|] eqn:Hn0; [|done].
      destruct (h5_of_dict rest) as [msr|] eqn:Hr; [|done].
      destruct Hin as [[= -> ->]|Hin].
      * rewrite h5_of_PyDict, Hsub in Hn0. discriminate.
      * eapply (IH Hrest); [|exact Hin|reflexivity].
        intros k Hk. apply Hfree. by right.
  - intros key l Hin. exact (Hget _ _ Hin).
Qed.

(** ** show_item_tree on a written container *)

Section TreeProps.

Variable py_str : leaf -> string.

Lemma show_item_tree_written_val (v : pyval) :
  match v with
  | PyDict d =>
      forall ms, h5_of_dict d = Some ms ->
      forall sm pm lvl out,
        fst (show_item_tree_obj py_str (view_h5 (H5Group [] ms)) sm pm lvl out) = Ok tt
  | _ => True
  end.
Proof.
  induction v as [l|t|d IHd] using pyval_nested_ind; [exact I|exact I|].
  intros ms Hms sm pm lvl out.
  cbn [view_h5 show_item_tree_obj].
  match goal with
  | |- (bind ?m _ out).1 = _ =>
      assert (Hm : m out = (Ok tt, out)) by (by destruct sm)
  end.
  rewrite (bind_ok _ _ _ _ _ Hm). clear Hm.
  match goal with
  | |- (?L 0%nat (?E ms) out).1 = _ =>
      cut (forall ms, h5_of_dict d = Some ms ->
           forall out ii, (L ii (E ms) out).1 = Ok tt);
      [intros H; by apply H|]
  end.
  clear ms Hms out.
  induction d as [|[k v] rest IHrest]; intros ms Hms out ii.
  - injection Hms as <-. reflexivity.
  - apply Forall_cons in IHd as [IHv IHd]. simpl in Hms.
    destruct (h5_of v) as [n|] eqn:Hn; [|done].
    destruct (h5_of_dict rest) as [msr|] eqn:Hr; [|done].
    injection Hms as <-. specialize (IHrest IHd msr eq_refl).
    destruct v as [l|t|sub].
    + injection Hn as <-.
      destruct l; cbn [view_h5]; unfold bind at 1, print, modify; apply IHrest.
    + discriminate.
    + rewrite h5_of_PyDict in Hn.
      destruct (h5_of_dict sub) as [sms|] eqn:Hs; [|done]. injection Hn as <-.
      cbn [snd] in IHv.
      specialize (IHv sms Hs sm pm (lvl + 1)%nat).
      cbn [view_h5] in IHv |- *.
      unfold bind at 1. unfold bind at 1. unfold print at 1, modify at 1.
      match goal with
      | |- context [show_item_tree_obj py_str ?it sm pm (lvl + 1)%nat ?o] =>
          specialize (IHv o);
          destruct (show_item_tree_obj py_str it sm pm (lvl + 1)%nat o) as [r o2]
      end.
      simpl in IHv. subst r. apply IHrest.
Qed.

(** ** h5py_dataset_iterator on a written container *)

Lemma dataset_iterator_yields_leaves (v : pyval) :
  match v with
  | PyDict d =>
      forall ms a prefix,
        h5_of_dict d = Some ms ->
        dataset_iterator_yields (H5Group a ms) prefix
          = map dataset_of_leaf (dict_leaves d prefix)
  | _ => True
  end.
Proof.
  induction v as [l|t|d IHd] using pyval_nested_ind; [exact I|exact I|].
  intros ms a prefix. unfold dict_leaves. cbn [dataset_iterator_yields leaves_of].
  clear a. revert ms.
  induction d as [|[k v] rest IHrest]; intros ms Hms.
  - by injection Hms as <-.
  - apply Forall_cons in IHd as [IHv IHd]. simpl in Hms.
    destruct (h5_of v) as [n|] eqn:Hn; [|done].
    destruct (h5_of_dict rest) as [msr|] eqn:Hr; [|done].
    injection Hms as <-. rewrite map_app, (IHrest IHd msr eq_refl).
    f_equal. destruct v as [l|t|sub].
    + by injection Hn as <-.
    + discriminate.
    + rewrite h5_of_PyDict in Hn.
      destruct (h5_of_dict sub) as [sms|] eqn:Hs; [|done]. injection Hn as <-.
      cbn [snd] in IHv. exact (IHv sms [] _ Hs).
Qed.

(** ** write_dict_to_h5, then reading back *)

Lemma File_open_create path w :
  fs w !! path = None ->
  File_open path default_write_mode w =
    (Ok (H5File new_file true), World (<[path := new_file]> (fs w)) (stdout w)).
Proof. intros H. unfold File_open, default_write_mode. simpl. by rewrite H. Qed.

Lemma write_dict_to_h5_new_path path d pref w :
  dict_ok d = true ->
  fs w !! path = None ->
  exists ms out,
    h5_of_dict d = Some ms /\
    write_dict_to_h5 py_str path d default_write_mode pref w =
      (Ok tt, World (<[path := H5Group [] ms]> (fs w)) out).
Proof.
  intros Hok Hnone.
  destruct (make_h5_tree_on_root d (H5File new_file true) [] [] Hok eq_refl eq_refl)
    as (ms & Hms & Hmk); [done|].
  exists ms. unfold write_dict_to_h5, with_File.
  rewrite (File_open_create _ _ Hnone). cbn [fs stdout].
  unfold bind at 1, on_file at 1. cbn [fst snd]. rewrite Hmk. cbn [app].
  destruct pref.
  - unfold bind at 1, on_stdout at 1, print, modify. cbn [fst snd].
    unfold show_open_file, on_stdout. cbn [fst snd root].
    pose proof (show_item_tree_written_val (PyDict d) ms Hms true false 0%nat
                  (stdout w ++ ["==== Successfully wrote h5 ile. Displaying h5 hierarchy ===="]))
      as Hshow.
    destruct (show_item_tree_obj _ _ _ _ _ _) as [r out]. simpl in Hshow. subst r.
    exists out. split; [done|]. by rewrite insert_insert_eq.
  - exists (stdout w). split; [done|]. unfold ret. cbn [root]. by rewrite insert_insert_eq.
Qed.

(** C6, as the code has it: for every nested mapping with plain, distinct
    link names as keys and natively storable leaves, [write_dict_to_h5] to a
    path that does not exist yet ends normally; the file then holds the image
    of the mapping (a group per sub-mapping, a dataset per leaf, under the
    same keys), and [h5py_dataset_iterator] on the reopened file yields, up
    to the order of enumeration, exactly one pair per leaf of the mapping:
    the leaf's keys joined by ["/"] and the dataset written from the leaf.
    Reading the dataset of an array leaf gives the array back; reading the
    dataset of a [str] leaf gives its bytes, not the [str].  A sub-mapping
    without leaves yields nothing. *)
Theorem write_then_iterate_yields_leaves :
  forall (path_save : string) (input_dict : pydict) (show_item_tree_pref : bool)
         (w : world),
    dict_ok input_dict = true ->
    fs w !! path_save = None ->
    exists ms w' f ys,
      h5_of_dict input_dict = Some ms /\
      write_dict_to_h5 py_str path_save input_dict default_write_mode
        show_item_tree_pref w = (Ok tt, w') /\
      File_open path_save "r" w' = (Ok f, w') /\
      root f = H5Group [] ms /\
      h5py_dataset_iterator (root f) "" = Ok ys /\
      ys ≡ₚ map dataset_of_leaf (dict_leaves input_dict "") /\
      (forall path shape dtype data,
         In (path, LArray shape dtype data) (dict_leaves input_dict "") ->
         exists ds,
           In (path, ds) ys /\
           read_dataset ds = Some (leaf_value (LArray shape dtype data))) /\
      (forall path s,
         In (path, LStr s) (dict_leaves input_dict "") ->
         exists ds, In (path, ds) ys /\ read_dataset ds = Some (VBytes s)).
Proof.
  intros path d pref w Hok Hnone.
  destruct (write_dict_to_h5_new_path path d pref w Hok Hnone) as (ms & out & Hms & Hw).
  exists ms, (World (<[path := H5Group [] ms]> (fs w)) out),
         (H5File (H5Group [] ms) false), (map dataset_of_leaf (dict_leaves d "")).
  split; [exact Hms|]. split; [exact Hw|].
  split; [|split; [done|split; [|split; [done|split]]]].
  - unfold File_open. simpl. by rewrite lookup_insert_eq.
  - simpl. f_equal. exact (dataset_iterator_yields_leaves (PyDict d) ms [] "" Hms).
  - intros p sh dt da Hin. exists (H5Dataset (LArray sh dt da)). split; [|done].
    apply in_map_iff. by exists (p, LArray sh dt da).
  - intros p str Hin. exists (H5Dataset (LStr str)). split; [|done].
    apply in_map_iff. by exists (p, LStr str).
Qed.

End TreeProps.

(** *** Concrete runs *)

Lemma example_dict_keys_free :
  forall k, In k (map fst example_dict) -> get_member k [] = None.
Proof. reflexivity. Qed.

Lemma make_h5_tree_mirrors_mapping_witness :
  exists ms',
    h5_of_dict example_dict = Some ms' /\
    make_h5_tree example_dict hf "" (H5File new_file true)
      = (Ok tt, H5File (H5Group [] ([] ++ ms')) true) /\
    (forall key sub, In (key, PyDict sub) example_dict ->
       exists members,
         h5_of_dict sub = Some members /\
         get_member key ([] ++ ms') = Some (H5Group [] members)) /\
    (forall key l, In (key, PyLeaf l) example_dict ->
       get_member key ([] ++ ms') = Some (H5Dataset l)).
Proof.
  apply (make_h5_tree_mirrors_mapping example_dict (H5File new_file true) [] []).
  - reflexivity.
  - reflexivity.
  - reflexivity.
  - exact example_dict_keys_free.
Defined.

(** C1 as stated does not hold for every mapping of string keys.  The key
    ["."] is a string but no link name: HDF5 reads it as the group itself, so
    [create_dataset] finds the name taken; [make_h5_tree] raises
    [ValueError] and no dataset is written. *)
Lemma make_h5_tree_dot_key_not_written :
  let d : pydict := [(".", PyLeaf example_array)] in
  dict_ok d = false /\
  exists e,
    make_h5_tree d hf "" (H5File new_file true) = (Raise e, H5File new_file true) /\
    exn_cls e = ValueError /\
    dataset_iterator_yields (root (H5File new_file true)) "" = [].
Proof.
  intros d. split; [reflexivity|]. eexists. split; [by vm_compute|]. by split.
Qed.

Lemma write_dict_to_h5_existing_path_witness :
  let w := World {[ "session.h5" := new_file ]} [] in
  exists e,
    write_dict_to_h5 (fun _ => "") "session.h5" example_dict default_write_mode true w
      = (Raise e, w) /\
    exn_cls e = FileExistsError.
Proof.
  intros w.
  apply (write_dict_to_h5_existing_path (fun _ => "") "session.h5" example_dict true w new_file).
  apply lookup_singleton_eq.
Defined.

Lemma write_then_iterate_yields_leaves_witness :
  exists ms w' f ys,
    h5_of_dict example_dict = Some ms /\
    write_dict_to_h5 (fun _ => "") "session.h5" example_dict default_write_mode true
      (World ∅ []) = (Ok tt, w') /\
    File_open "session.h5" "r" w' = (Ok f, w') /\
    root f = H5Group [] ms /\
    h5py_dataset_iterator (root f) "" = Ok ys /\
    ys ≡ₚ map dataset_of_leaf (dict_leaves example_dict "") /\
    (forall path shape dtype data,
       In (path, LArray shape dtype data) (dict_leaves example_dict "") ->
       exists ds,
         In (path, ds) ys /\
         read_dataset ds = Some (leaf_value (LArray shape dtype data))) /\
    (forall path s,
       In (path, LStr s) (dict_leaves example_dict "") ->
       exists ds, In (path, ds) ys /\ read_dataset ds = Some (VBytes s)).
Proof.
  apply (write_then_iterate_yields_leaves (fun _ => "") "session.h5" example_dict true
           (World ∅ [])).
  - reflexivity.
  - apply lookup_empty.
Defined.

(** C6 as stated does not hold.  The mapping with one empty sub-mapping
    and the empty mapping are both written without error and both read back
    as the empty enumeration, so no reader of the enumeration returns the
    keys of both.  A [str] leaf is enumerated as a dataset that reads back as
    [bytes], which is not the leaf's value.  A mapping with the key ["."],
    which is a string but no link name, is not written at all: the write
    raises [ValueError].  And with the default write mode a mapping is not
    written to a path where a file exists: the write raises a file-exists
    error and the file stays as it was. *)
Lemma round_trip_not_identity :
  let d1 : pydict := [("a", PyDict [])] in
  let d2 : pydict := [] in
  let d3 : pydict := [("name", PyLeaf (LStr "session 1"))] in
  let d4 : pydict := [(".", PyLeaf example_array)] in
  (dict_ok d1 = true /\ dict_ok d2 = true /\
   write_then_iterate (fun _ => "") "session.h5" d1 = Ok [] /\
   write_then_iterate (fun _ => "") "session.h5" d2 = Ok [] /\
   ~ (exists rebuild : list (string * h5node) -> pydict,
        forall d, dict_ok d = true ->
          exists ys, write_then_iterate (fun _ => "") "session.h5" d = Ok ys /\
                     map fst (rebuild ys) ≡ₚ map fst d)) /\
  (dict_ok d3 = true /\
   exists ds,
     write_then_iterate (fun _ => "") "session.h5" d3 = Ok [("/name", ds)] /\
     read_dataset ds = Some (VBytes "session 1") /\
     read_dataset ds <> Some (leaf_value (LStr "session 1"))) /\
  (exists e,
     write_then_iterate (fun _ => "") "session.h5" d4 = Raise e /\
     exn_cls e = ValueError) /\
  (exists e,
     write_dict_to_h5 (fun _ => "") "session.h5" example_dict default_write_mode false
       world_with_file = (Raise e, world_with_file) /\
     exn_cls e = FileExistsError).
Proof.
  intros d1 d2 d3 d4.
  assert (H1 : write_then_iterate (fun _ => "") "session.h5" d1 = Ok []) by by vm_compute.
  assert (H2 : write_then_iterate (fun _ => "") "session.h5" d2 = Ok []) by by vm_compute.
  split; [|split; [|split]].
  - repeat split; try done.
    intros (rebuild & Hr).
    destruct (Hr d1 eq_refl) as (ys1 & E1 & P1).
    destruct (Hr d2 eq_refl) as (ys2 & E2 & P2).
    rewrite H1 in E1. rewrite H2 in E2.
    injection E1 as <-. injection E2 as <-.
    rewrite P2 in P1. simpl in P1. by apply Permutation_nil_cons in P1.
  - split; [reflexivity|]. exists (H5Dataset (LStr "session 1")).
    split; [by vm_compute|]. split; [reflexivity|discriminate].
  - eexists. split; [by vm_compute|reflexivity].
  - eexists. split; [by vm_compute|reflexivity].
Qed.

End h5_handling_props.

Module plotting_helpers_props.
Import plotting_helpers.

(** ** simple_cmap *)

Section CmapProps.

Variable named_colors : string -> option rgb.

Lemma to_rgb_all_ok (colors : list color_spec) :
  Forall (valid_color named_colors) colors ->
  exists l, to_rgb_all named_colors colors = Ok l /\ length l = length colors.
Proof.
  induction 1 as [|c cs Hc _ [l [Hl Hlen]]]; simpl.
  - by exists [].
  - unfold valid_color in Hc.
    destruct (to_rgb named_colors c) as [c'|] eqn:Ec; [|discriminate].
    simpl. rewrite Hl. simpl. exists (c' :: l). simpl. by rewrite Hlen.
Qed.

Lemma cdict_loop_positions n i (cols : list rgb) cd :
  let cd' := cdict_loop n i cols cd in
  map cp_x (red cd') = map cp_x (red cd) ++ map (fun j => position j n) (seq i (length cols)) /\
  map cp_x (green cd') = map cp_x (green cd) ++ map (fun j => position j n) (seq i (length cols)) /\
  map cp_x (blue cd') = map cp_x (blue cd) ++ map (fun j => position j n) (seq i (length cols)).
Proof.
  revert i cd. induction cols as [|[[r g] b] cols IH]; intros i cd; simpl.
  - by rewrite !app_nil_r.
  - destruct (IH (S i) (Cdict (red cd ++ [(position i n, r, r)])
                             (green cd ++ [(position i n, g, g)])
                             (blue cd ++ [(position i n, b, b)]))) as (Hr & Hg & Hb).
    simpl in Hr, Hg, Hb. rewrite Hr, Hg, Hb.
    rewrite !map_app. simpl. rewrite <- !app_assoc. done.
Qed.

Lemma position_lt n i j : (i < j)%nat -> (position i n < position j n)%Q.
Proof. intros Hij. unfold position, Qlt. simpl. nia. Qed.

Lemma position_pos n i : (0 < position i n)%Q.
Proof. unfold position, Qlt. simpl. lia. Qed.

Lemma position_last n : (2 <= n)%nat -> (position (n - 2) n == 1)%Q.
Proof.
  intros Hn. unfold position, Qeq. simpl.
  rewrite Z.mul_1_r, Z.mul_1_l.
  replace (n - 2 + 1)%nat with (n - 1)%nat by lia.
  destruct (n - 1)%nat as [|k] eqn:E; [lia|].
  rewrite <- E. rewrite <- (Nat2Pos.id (n - 1)) at 1 by lia.
  by rewrite positive_nat_Z.
Qed.

Lemma positions_sorted n a k :
  StronglySorted Qlt (map (fun j => position j n) (seq a k)).
Proof.
  revert a. induction k as [|k IH]; intros a; simpl; constructor.
  - apply IH.
  - apply List.Forall_forall. intros q Hq. apply in_map_iff in Hq as (j & <- & Hj).
    apply in_seq in Hj. apply position_lt. lia.
Qed.

Lemma gradient_well_positioned n (m : nat) (ch : list control_point) :
  (2 <= n)%nat -> m = (n - 1)%nat ->
  length ch = n ->
  map cp_x ch = 0%Q :: map (fun j => position j n) (seq 0 m) ->
  well_positioned n ch.
Proof.
  intros Hn -> Hlen Hx. unfold well_positioned. rewrite Hx.
  split; [done|]. split; [|split].
  - constructor; [apply positions_sorted|].
    apply List.Forall_forall. intros q Hq. apply in_map_iff in Hq as (j & <- & _).
    apply position_pos.
  - reflexivity.
  - replace (n - 1)%nat with (S (n - 2)) by lia.
    rewrite seq_S, map_app. cbn [map Nat.add].
    rewrite app_comm_cons, last_last. by apply position_last.
Qed.

Lemma valid_color_ok c :
  valid_color named_colors c -> exists v, to_rgb named_colors c = Ok v.
Proof.
  unfold valid_color. destruct (to_rgb named_colors c) as [v|]; [eauto|discriminate].
Qed.

(** C7: with fewer than two colours [simple_cmap] raises
    [ValueError('Must specify at least two colors')] and builds no colormap;
    with two or more colours (each one, and [under], [over] and [bad], a
    colour the converter accepts) it returns a colormap each of whose
    channels has one control point per colour, at strictly increasing
    positions from 0 to 1. *)
Theorem simple_cmap_color_count :
  forall (colors : list color_spec) (under over bad : color_spec) (name : string),
    ((length colors < 2)%nat ->
     simple_cmap named_colors colors under over bad name =
       Raise (Exn ValueError "Must specify at least two colors")) /\
    ((2 <= length colors)%nat ->
     Forall (valid_color named_colors) colors ->
     valid_color named_colors under ->
     valid_color named_colors over ->
     valid_color named_colors bad ->
     exists cm,
       simple_cmap named_colors colors under over bad name = Ok cm /\
       well_positioned (length colors) (red (segmentdata cm)) /\
       well_positioned (length colors) (green (segmentdata cm)) /\
       well_positioned (length colors) (blue (segmentdata cm))).
Proof.
  intros colors under over bad name. split.
  - intros Hlen. unfold simple_cmap.
    destruct (Nat.leb_spec (length colors) 1) as [_|H]; [reflexivity|lia].
  - intros Hlen Hcolors Hunder Hover Hbad. unfold simple_cmap.
    destruct (Nat.leb_spec (length colors) 1) as [H|_]; [lia|].
    destruct (to_rgb_all_ok colors Hcolors) as (l & -> & Hl).
    destruct (valid_color_ok _ Hunder) as (vu & ->).
    destruct (valid_color_ok _ Hover) as (vo & ->).
    destruct (valid_color_ok _ Hbad) as (vb & ->).
    destruct l as [|[[r g] b] tl]; [simpl in Hl; lia|]. simpl.
    eexists. split; [reflexivity|]. simpl.
    set (n := length colors) in *.
    assert (Htl : length tl = (n - 1)%nat) by (simpl in Hl; lia).
    destruct (cdict_loop_positions n 0 tl (Cdict [(0%Q, r, r)] [(0%Q, g, g)] [(0%Q, b, b)]))
      as (Hr & Hg & Hb).
    simpl in Hr, Hg, Hb.
    assert (Hlens : forall ch : list control_point,
               map cp_x ch = 0%Q :: map (fun j => position j n) (seq 0 (length tl)) ->
               length ch = n).
    { intros ch Hch. rewrite <- (length_map cp_x ch), Hch. simpl.
      rewrite length_map, length_seq. lia. }
    split; [|split];
      (eapply gradient_well_positioned; [lia | exact Htl | | eassumption]);
      by apply Hlens.
Qed.

(** *** Endpoints of a two-colour gradient *)

Lemma clip01_in_unit q : in_unit q = true -> clip01 q = q.
Proof.
  unfold in_unit, clip01, Qlt_bool. intros H.
  apply andb_prop in H as [-> ->]. reflexivity.
Qed.

Lemma nthQ_clip01 l i : nthQ (map clip01 l) i = clip01 (nthQ l i).
Proof. unfold nthQ. change 0%Q with (clip01 0) at 1. apply map_nth. Qed.

Lemma lookup_table_two n a b :
  (2 <= n)%nat ->
  exists lut,
    create_lookup_table n [(0%Q, a, a); (1%Q, b, b)] = Ok lut /\
    nthQ lut 0 = clip01 a /\ nthQ lut (n - 1) = clip01 b.
Proof.
  intros Hn. eexists. split; [reflexivity|]. split; [reflexivity|].
  rewrite nthQ_clip01. f_equal. unfold nthQ at 1.
  rewrite app_assoc, app_nth2; rewrite length_app, length_map, length_seq; simpl; [|lia].
  replace (n - 1 - S (n - 2))%nat with 0%nat by lia. reflexivity.
Qed.

Hypothesis named_colors_in_unit :
  forall s c, named_colors s = Some c -> rgb_in_unit c = true.

Lemma to_rgb_in_unit c v : to_rgb named_colors c = Ok v -> rgb_in_unit v = true.
Proof.
  destruct c as [r g b|s]; simpl.
  - destruct (in_unit r && in_unit g && in_unit b) eqn:E; [|discriminate].
    intros [= <-]. exact E.
  - destruct (named_colors s) as [c|] eqn:E; [|discriminate].
    intros [= <-]. eauto.
Qed.

Lemma colormap_call_endpoints name r0 g0 b0 r1 g1 b1 bad over under :
  rgb_in_unit (r0, g0, b0) = true ->
  rgb_in_unit (r1, g1, b1) = true ->
  let cm := Colormap name (Cdict [(0%Q, r0, r0); (1%Q, r1, r1)]
                                [(0%Q, g0, g0); (1%Q, g1, g1)]
                                [(0%Q, b0, b0); (1%Q, b1, b1)]) 256 bad over under in
  colormap_call cm 0 = Ok (r0, g0, b0) /\ colormap_call cm 1 = Ok (r1, g1, b1).
Proof.
  intros H0 H1 cm. simpl in H0, H1.
  apply andb_prop in H0 as [H0 Hb0]. apply andb_prop in H0 as [Hr0 Hg0].
  apply andb_prop in H1 as [H1 Hb1]. apply andb_prop in H1 as [Hr1 Hg1].
  destruct (lookup_table_two 256 r0 r1 ltac:(lia)) as (lr & Elr & Hlr0 & Hlr1).
  destruct (lookup_table_two 256 g0 g1 ltac:(lia)) as (lg & Elg & Hlg0 & Hlg1).
  destruct (lookup_table_two 256 b0 b1 ltac:(lia)) as (lb & Elb & Hlb0 & Hlb1).
  rewrite clip01_in_unit in Hlr0, Hlr1, Hlg0, Hlg1, Hlb0, Hlb1 by assumption.
  unfold colormap_call, cm. cbn [N segmentdata red green blue].
  rewrite Elr, Elg, Elb. cbn [obind]. split.
  - change (Qeq_bool (0 * (Z.of_nat 256 # 1)) (Z.of_nat 256 # 1)) with false.
    change (Qlt_bool (0 * (Z.of_nat 256 # 1)) 0) with false.
    change (Qle_bool (Z.of_nat 256 # 1) (0 * (Z.of_nat 256 # 1))) with false.
    cbn iota.
    change (Z.to_nat (Qnum (0 * (Z.of_nat 256 # 1)) / Z.pos (Qden (0 * (Z.of_nat 256 # 1)))))
      with 0%nat.
    by rewrite Hlr0, Hlg0, Hlb0.
  - change (Qeq_bool (1 * (Z.of_nat 256 # 1)) (Z.of_nat 256 # 1)) with true.
    cbn iota. change (256 - 1)%nat with 255%nat in *.
    by rewrite Hlr1, Hlg1, Hlb1.
Qed.

(** C8: the colormap built from two colours has, in each channel, the first
    colour at position 0 and the second at position 1, and evaluating it at
    0 and at 1 returns exactly these two colours. *)
Theorem simple_cmap_two_colors_endpoints :
  forall (c0 c1 under over bad : color_spec) (name : string),
    valid_color named_colors c0 ->
    valid_color named_colors c1 ->
    valid_color named_colors under ->
    valid_color named_colors over ->
    valid_color named_colors bad ->
    exists cm r0 g0 b0 r1 g1 b1,
      to_rgb named_colors c0 = Ok (r0, g0, b0) /\
      to_rgb named_colors c1 = Ok (r1, g1, b1) /\
      simple_cmap named_colors [c0; c1] under over bad name = Ok cm /\
      red (segmentdata cm) = [(0%Q, r0, r0); (1%Q, r1, r1)] /\
      green (segmentdata cm) = [(0%Q, g0, g0); (1%Q, g1, g1)] /\
      blue (segmentdata cm) = [(0%Q, b0, b0); (1%Q, b1, b1)] /\
      colormap_call cm 0 = Ok (r0, g0, b0) /\
      colormap_call cm 1 = Ok (r1, g1, b1).
Proof.
  intros c0 c1 under over bad name H0 H1 Hunder Hover Hbad.
  destruct (valid_color_ok _ H0) as ([[r0 g0] b0] & E0).
  destruct (valid_color_ok _ H1) as ([[r1 g1] b1] & E1).
  destruct (valid_color_ok _ Hunder) as (vu & Eu).
  destruct (valid_color_ok _ Hover) as (vo & Eo).
  destruct (valid_color_ok _ Hbad) as (vb & Eb).
  pose proof (to_rgb_in_unit _ _ E0) as U0.
  pose proof (to_rgb_in_unit _ _ E1) as U1.
  destruct (colormap_call_endpoints name r0 g0 b0 r1 g1 b1 (Some vb) (Some vo) (Some vu) U0 U1)
    as [Hc0 Hc1].
  eexists _, r0, g0, b0, r1, g1, b1.
  split; [exact E0|]. split; [exact E1|].
  split; [|split; [|split; [|split; [|split]]]].
  - unfold simple_cmap. simpl. rewrite E0, E1. simpl. rewrite Eb, Eo, Eu. simpl.
    reflexivity.
  - reflexivity.
  - reflexivity.
  - reflexivity.
  - exact Hc0.
  - exact Hc1.
Qed.

End CmapProps.

(** *** Concrete colour lists *)

Lemma base_colors_in_unit :
  forall s c, base_colors s = Some c -> rgb_in_unit c = true.
Proof.
  intros s c. unfold base_colors.
  repeat (destruct (_ =? _)%string; [by intros [= <-]|]). discriminate.
Qed.

Lemma default_colors_valid : Forall (valid_color base_colors) default_colors.
Proof. repeat constructor. Qed.

Lemma simple_cmap_color_count_witness :
  simple_cmap base_colors [Named "w"] default_under default_over default_bad default_name
    = Raise (Exn ValueError "Must specify at least two colors") /\
  exists cm,
    simple_cmap base_colors default_colors default_under default_over default_bad
      default_name = Ok cm /\
    well_positioned (length default_colors) (red (segmentdata cm)) /\
    well_positioned (length default_colors) (green (segmentdata cm)) /\
    well_positioned (length default_colors) (blue (segmentdata cm)).
Proof.
  split.
  - apply (simple_cmap_color_count base_colors [Named "w"]). simpl. lia.
  - apply (simple_cmap_color_count base_colors default_colors).
    + simpl. lia.
    + exact default_colors_valid.
    + reflexivity.
    + reflexivity.
    + reflexivity.
Defined.

Lemma simple_cmap_two_colors_endpoints_witness :
  exists cm r0 g0 b0 r1 g1 b1,
    to_rgb base_colors (Named "w") = Ok (r0, g0, b0) /\
    to_rgb base_colors (RGB 1 0 0) = Ok (r1, g1, b1) /\
    simple_cmap base_colors [Named "w"; RGB 1 0 0] default_under default_over default_bad
      default_name = Ok cm /\
    red (segmentdata cm) = [(0%Q, r0, r0); (1%Q, r1, r1)] /\
    green (segmentdata cm) = [(0%Q, g0, g0); (1%Q, g1, g1)] /\
    blue (segmentdata cm) = [(0%Q, b0, b0); (1%Q, b1, b1)] /\
    colormap_call cm 0 = Ok (r0, g0, b0) /\
    colormap_call cm 1 = Ok (r1, g1, b1).
Proof.
  apply (simple_cmap_two_colors_endpoints base_colors base_colors_in_unit);
    reflexivity.
Defined.

(** ** Select_ROI *)

Section ROIProps.

Variable cv2_polylines : ndarray -> list (Z * Z) -> outcome ndarray.
Variable skimage_draw_polygon : list Q -> list Q -> list (Z * Z).


Lemma lookup_alloc (l : list polygon_t) (r : nat) :
  default [] ((l ++ [[]]) !! r) = default [] (l !! r).
Proof.
  destruct (lt_eq_lt_dec r (length l)) as [[Hlt|Heq]|Hgt].
  - by rewrite lookup_app_l.
  - subst r. rewrite list_lookup_middle by done.
    by rewrite (lookup_ge_None_2 l) by lia.
  - rewrite (lookup_ge_None_2 (l ++ [[]])) by (rewrite length_app; simpl; lia).
    by rewrite (lookup_ge_None_2 l) by lia.
Qed.

(** C4: while point collection is active, the "new ROI" action appends the
    polygon in progress to [selected_points], starts a new, empty polygon in
    progress, and leaves point collection active: the click callback stays
    connected and [_completed_status] stays false. *)
Theorem new_ROI_pushes_and_resets :
  forall self : Select_ROI,
    collecting_points self ->
    exists self',
      _new_ROI self = (Ok tt, self') /\
      selected_points self' = selected_points self ++ [_selected_points_last_ROI self] /\
      completed_polygons self' = completed_polygons self ++ [in_progress self] /\
      in_progress self' = [] /\
      collecting_points self'.
Proof.
  intros self Hcol. eexists. split; [reflexivity|]. simpl.
  split; [reflexivity|]. split; [|split].
  - unfold completed_polygons, in_progress, deref. simpl. rewrite map_app. simpl.
    rewrite lookup_alloc. f_equal. apply map_ext. intros r. apply lookup_alloc.
  - unfold in_progress, deref. simpl. by rewrite list_lookup_middle.
  - exact Hcol.
Qed.

(** *** The rasterising loop of _disconnect_mpl *)

Lemma fill_mask_dims h w px m : fill_mask h w px = Ok m -> has_dims h w m.
Proof.
  unfold fill_mask. destruct (normalize_indices h w px); [|discriminate].
  intros [= <-]. split.
  - by rewrite length_map, length_seq.
  - apply List.Forall_forall. intros row Hrow.
    apply in_map_iff in Hrow as (r & <- & _). by rewrite length_map, length_seq.
Qed.

Lemma set_mask_frames_same self ms :
  mask_frames self = Some ms -> set_mask_frames (Some (ms ++ [])) self = self.
Proof. destruct self. simpl. intros ->. by rewrite app_nil_r. Qed.

(** The loop only ever raises [IndexError], and it raises as soon as it meets
    a polygon without points; the masks computed before stay in
    [mask_frames]. *)
Lemma mask_frames_loop_raises refs self ms :
  mask_frames self = Some ms ->
  (exists r, In r refs /\ deref self r = []) ->
  exists e ms',
    mask_frames_loop skimage_draw_polygon refs self =
      (Raise e, set_mask_frames (Some (ms ++ ms')) self) /\
    exn_cls e = IndexError /\ (length ms' < length refs)%nat.
Proof.
  revert self ms. induction refs as [|r0 refs IH]; intros self ms Hms (r & Hin & Hr).
  - destruct Hin.
  - cbn [mask_frames_loop]. unfold bind at 1.
    unfold mask_frame_of at 1. unfold bind at 1, get at 1.
    destruct (shape (_img_input self)) as [|h [|w rest]] eqn:Hshape;
      try (exists (Exn IndexError "tuple index out of range"), [];
           rewrite (set_mask_frames_same _ _ Hms); simpl; repeat split; lia).
    destruct (deref self r0) as [|p pts] eqn:Hd0.
    { exists (Exn IndexError "too many indices for array"), [].
      rewrite (set_mask_frames_same _ _ Hms). simpl. repeat split; lia. }
    unfold bind at 1, lift_outcome at 1.
    destruct (fill_mask h w _) as [m|e] eqn:Hfill.
    2:{ exists e, []. rewrite (set_mask_frames_same _ _ Hms). simpl.
        split; [reflexivity|]. split; [|lia].
        revert Hfill. unfold fill_mask. destruct (normalize_indices h w _); [discriminate|].
        by intros [= <-]. }
    rewrite Hms. unfold modify at 1.
    destruct Hin as [->|Hin]; [congruence|].
    destruct (IH (set_mask_frames (Some (ms ++ [m])) self) (ms ++ [m]) eq_refl)
      as (e & ms' & Hloop & He & Hlen).
    { exists r. split; [exact Hin|exact Hr]. }
    exists e, (m :: ms'). rewrite Hloop. simpl.
    rewrite <- app_assoc. simpl. repeat split; [exact He|lia].
Qed.

(** When every polygon can be rasterised the loop ends normally, with one
    mask of the image's height and width per polygon. *)
Lemma mask_frames_loop_total refs self ms h w rest :
  shape (_img_input self) = h :: w :: rest ->
  mask_frames self = Some ms ->
  Forall (fun r => rasterizable skimage_draw_polygon h w (deref self r)) refs ->
  exists ms',
    mask_frames_loop skimage_draw_polygon refs self =
      (Ok tt, set_mask_frames (Some (ms ++ ms')) self) /\
    length ms' = length refs /\ Forall (has_dims h w) ms'.
Proof.
  intros Hshape. revert self ms Hshape.
  induction refs as [|r0 refs IH]; intros self ms Hshape Hms Hall.
  - exists []. rewrite (set_mask_frames_same _ _ Hms). simpl. by repeat split.
  - apply Forall_cons in Hall as [[Hne Hok] Hall].
    cbn [mask_frames_loop]. unfold bind at 1.
    unfold mask_frame_of at 1. unfold bind at 1, get at 1. rewrite Hshape.
    destruct (deref self r0) as [|p pts] eqn:Hd0; [done|].
    unfold bind at 1, lift_outcome at 1.
    destruct (fill_mask h w _) as [m|e] eqn:Hfill; [|discriminate].
    rewrite Hms. unfold modify at 1.
    destruct (IH (set_mask_frames (Some (ms ++ [m])) self) (ms ++ [m]) Hshape eq_refl Hall)
      as (ms' & Hloop & Hlen & Hdims).
    exists (m :: ms'). rewrite Hloop. simpl. rewrite <- app_assoc. simpl.
    repeat split; [lia|]. constructor; [|exact Hdims].
    eapply fill_mask_dims, Hfill.
Qed.

Lemma mask_frames_loop_app refs1 refs2 self :
  mask_frames_loop skimage_draw_polygon (refs1 ++ refs2) self =
  (mask_frames_loop skimage_draw_polygon refs1 ;;
   mask_frames_loop skimage_draw_polygon refs2) self.
Proof.
  revert self. induction refs1 as [|r refs1 IH]; intros self; [done|].
  cbn [app mask_frames_loop].
  destruct (mask_frame_of skimage_draw_polygon r self) as [[[]|e] s1] eqn:E.
  - rewrite (bind_ok _ _ _ _ _ E), IH. unfold bind at 2. unfold bind at 2. by rewrite E.
  - rewrite (bind_raise _ _ _ _ _ E). unfold bind. by rewrite E.
Qed.

(** C10: when the confirm action runs while the polygon in progress is empty,
    [_disconnect_mpl] still appends that empty polygon to [selected_points],
    disconnects the click callback and sets [_completed_status]; the
    rasterising loop then raises [IndexError], so no mask is produced for the
    empty polygon and [mask_frames] is left shorter than [selected_points].
    When the polygons completed before can all be rasterised, the error is
    the one of [pts[:, 1]] on the array without points, and [mask_frames]
    holds the masks of the polygons before it. *)
Theorem disconnect_mpl_empty_polygon_raises :
  forall self : Select_ROI,
    in_progress self = [] ->
    exists e self' ms,
      _disconnect_mpl skimage_draw_polygon self = (Raise e, self') /\
      exn_cls e = IndexError /\
      selected_points self' = selected_points self ++ [_selected_points_last_ROI self] /\
      completed_polygons self' = completed_polygons self ++ [[]] /\
      _buttonRelease self' = false /\
      _completed_status self' = true /\
      mask_frames self' = Some ms /\
      (length ms < length (selected_points self'))%nat /\
      (forall h w rest,
         shape (_img_input self) = h :: w :: rest ->
         Forall (rasterizable skimage_draw_polygon h w) (completed_polygons self) ->
         e = Exn IndexError "too many indices for array" /\
         length ms = length (selected_points self) /\
         Forall (has_dims h w) ms).
Proof.
  intros self Hempty. unfold _disconnect_mpl.
  unfold bind at 1, modify at 1. unfold bind at 1, modify at 1.
  unfold bind at 1, modify at 1. unfold bind at 1, modify at 1.
  unfold bind at 1, get at 1.
  set (s1 := set_mask_frames (Some []) _).
  destruct (mask_frames_loop_raises (selected_points s1) s1 [] eq_refl)
    as (e & ms' & Hloop & He & Hlen).
  { exists (_selected_points_last_ROI self). split.
    - simpl. apply in_or_app. right. by left.
    - exact Hempty. }
  unfold bind. rewrite Hloop.
  exists e, (set_mask_frames (Some ([] ++ ms')) s1), ms'.
  split; [reflexivity|]. split; [exact He|]. split; [reflexivity|].
  split; [|split; [reflexivity|split; [reflexivity|split; [reflexivity|split; [exact Hlen|]]]]].
  - unfold completed_polygons. simpl. rewrite map_app. simpl.
    unfold in_progress in Hempty. unfold deref in *. simpl. by rewrite Hempty.
  - intros h w rest Hshape Hall.
    destruct (mask_frames_loop_total (selected_points self) s1 [] h w rest Hshape eq_refl)
      as (ms2 & Hloop2 & Hlen2 & Hdims2).
    { unfold completed_polygons in Hall. by rewrite List.Forall_map in Hall. }
    change (selected_points s1)
      with (selected_points self ++ [_selected_points_last_ROI self]) in Hloop.
    rewrite mask_frames_loop_app in Hloop.
    rewrite (bind_ok _ _ _ _ _ Hloop2) in Hloop.
    cbn [mask_frames_loop] in Hloop. unfold bind at 1 in Hloop.
    unfold mask_frame_of at 1 in Hloop. unfold bind at 1, get at 1 in Hloop.
    change (shape (_img_input (set_mask_frames (Some ([] ++ ms2)) s1)))
      with (shape (_img_input self)) in Hloop.
    rewrite Hshape in Hloop.
    unfold in_progress in Hempty.
    change (deref (set_mask_frames (Some ([] ++ ms2)) s1) (_selected_points_last_ROI self))
      with (deref self (_selected_points_last_ROI self)) in Hloop.
    rewrite Hempty in Hloop. unfold raise in Hloop.
    injection Hloop as <- <-. by repeat split.
Qed.

(** C3, as the code has it: when the confirm action runs on an image with at
    least two dimensions and every polygon (the completed ones and the one in
    progress) can be rasterised, [_disconnect_mpl] ends normally in the
    finished state, and [mask_frames] then holds exactly one boolean mask per
    polygon of [selected_points], each with the image's first two
    dimensions.  Nothing freezes the object afterwards: the buttons stay
    wired, and a later "new ROI" action lengthens [selected_points] and
    leaves [mask_frames] as it is. *)
Theorem disconnect_mpl_masks_match :
  forall (self : Select_ROI) (h w : nat) (rest : list nat),
    shape (_img_input self) = h :: w :: rest ->
    Forall (rasterizable skimage_draw_polygon h w)
      (completed_polygons self ++ [in_progress self]) ->
    exists self' ms,
      _disconnect_mpl skimage_draw_polygon self = (Ok tt, self') /\
      finished self' /\
      _buttonRelease self' = false /\
      selected_points self' = selected_points self ++ [_selected_points_last_ROI self] /\
      mask_frames self' = Some ms /\
      length ms = length (selected_points self') /\
      Forall (has_dims h w) ms /\
      mask_frames (snd (_new_ROI self')) = Some ms /\
      length (selected_points (snd (_new_ROI self'))) = S (length ms).
Proof.
  intros self h w rest Hshape Hall. unfold _disconnect_mpl.
  unfold bind at 1, modify at 1. unfold bind at 1, modify at 1.
  unfold bind at 1, modify at 1. unfold bind at 1, modify at 1.
  unfold bind at 1, get at 1.
  set (s1 := set_mask_frames (Some []) _).
  destruct (mask_frames_loop_total (selected_points s1) s1 [] h w rest Hshape eq_refl)
    as (ms & Hloop & Hlen & Hdims).
  { unfold completed_polygons, in_progress in Hall.
    change (selected_points s1)
      with (selected_points self ++ [_selected_points_last_ROI self]).
    change [deref self (_selected_points_last_ROI self)]
      with (map (deref self) [_selected_points_last_ROI self]) in Hall.
    rewrite <- map_app in Hall. rewrite List.Forall_map in Hall. exact Hall. }
  unfold bind. rewrite Hloop. unfold modify.
  eexists _, ms. split; [reflexivity|]. simpl.
  repeat split; try done.
  rewrite Hlen. simpl. rewrite !length_app. simpl. lia.
Qed.

End ROIProps.

(** *** Concrete runs *)



Lemma new_ROI_pushes_and_resets_witness :
  let self := run outline_unseen even_odd_polygon [click 0 0; click 3 0; click 0 3]
                (__init__ image_4x5) in
  collecting_points self /\
  exists self',
    _new_ROI self = (Ok tt, self') /\
    selected_points self' = selected_points self ++ [_selected_points_last_ROI self] /\
    completed_polygons self' = completed_polygons self ++ [in_progress self] /\
    in_progress self' = [] /\
    collecting_points self'.
Proof.
  intros self.
  assert (H : collecting_points self) by (split; reflexivity).
  split; [exact H|]. exact (new_ROI_pushes_and_resets self H).
Defined.

Lemma disconnect_mpl_empty_polygon_raises_witness :
  let self := run outline_unseen even_odd_polygon
                [click 0 0; click 3 0; click 0 3; NewROI] (__init__ image_4x5) in
  in_progress self = [] /\
  exists e self' ms,
    _disconnect_mpl even_odd_polygon self = (Raise e, self') /\
    exn_cls e = IndexError /\
    selected_points self' = selected_points self ++ [_selected_points_last_ROI self] /\
    completed_polygons self' = completed_polygons self ++ [[]] /\
    _buttonRelease self' = false /\
    _completed_status self' = true /\
    mask_frames self' = Some ms /\
    (length ms < length (selected_points self'))%nat /\
    (forall h w rest,
       shape (_img_input self) = h :: w :: rest ->
       Forall (rasterizable even_odd_polygon h w) (completed_polygons self) ->
       e = Exn IndexError "too many indices for array" /\
       length ms = length (selected_points self) /\
       Forall (has_dims h w) ms).
Proof.
  intros self. split; [reflexivity|].
  apply (disconnect_mpl_empty_polygon_raises even_odd_polygon self). reflexivity.
Defined.

Lemma disconnect_mpl_masks_match_witness :
  let self := run outline_unseen even_odd_polygon [click 0 0; click 3 0; click 0 3]
                (__init__ image_4x5) in
  exists self' ms,
    _disconnect_mpl even_odd_polygon self = (Ok tt, self') /\
    finished self' /\
    _buttonRelease self' = false /\
    selected_points self' = selected_points self ++ [_selected_points_last_ROI self] /\
    mask_frames self' = Some ms /\
    length ms = length (selected_points self') /\
    Forall (has_dims 4 5) ms /\
    mask_frames (snd (_new_ROI self')) = Some ms /\
    length (selected_points (snd (_new_ROI self'))) = S (length ms).
Proof.
  intros self.
  apply (disconnect_mpl_masks_match even_odd_polygon self 4 5 []).
  - reflexivity.
  - repeat constructor; try discriminate; vm_compute; reflexivity.
Defined.

(** C3 as stated does not hold: after the confirm action of
    [triangle_confirmed] the object is finished and has one mask for its one
    polygon; a "new ROI" action then leaves it finished with two polygons and
    still one mask, and a second confirm action replaces the mask list by a
    list of two masks. *)
Lemma finished_masks_not_frozen :
  let s := triangle_confirmed in
  let after_new := run outline_unseen even_odd_polygon [NewROI] s in
  let after_confirm := run outline_unseen even_odd_polygon [ConfirmROI] s in
  finished s /\
  option_map (@length mask) (mask_frames s) = Some (length (selected_points s)) /\
  finished after_new /\
  option_map (@length mask) (mask_frames after_new)
    <> Some (length (selected_points after_new)) /\
  finished after_confirm /\
  mask_frames after_confirm <> mask_frames s.
Proof.
  vm_compute. repeat split; discriminate.
Qed.

End plotting_helpers_props.

(** * Further properties of h5_handling.py *)

Module h5_handling_more.
Import h5_handling h5_handling_props.

(** ** show_group_items *)



(** ** show_item_tree *)

Lemma item_nested_ind (P : item -> Prop) :
  (forall a children,
     Forall (fun kc : string * item => P (snd kc)) children -> P (IGroup a children)) ->
  (forall children,
     Forall (fun kc : string * item => P (snd kc)) children -> P (IDict children)) ->
  (forall sh dt, P (IShaped sh dt)) ->
  (forall t, P (IOther t)) ->
  forall it, P it.
Proof.
  intros Hg Hd Hs Ho. fix IH 1. intros [a children|children|sh dt|t];
    [apply Hg|apply Hd|apply Hs|apply Ho].
  - revert children. fix IHl 1. intros [|[k c] rest]; constructor; [apply IH|apply IHl].
  - revert children. fix IHl 1. intros [|[k c] rest]; constructor; [apply IH|apply IHl].
Qed.

Section ShowProps.

Variable py_str : leaf -> string.

Lemma show_metadata_loop_lines indent attrs out :
  exists lines,
    show_metadata_loop py_str indent true attrs out = (Ok tt, out ++ lines) /\
    length lines = length attrs.
Proof.
  revert out. induction attrs as [|[val v] rest IH]; intros out.
  - exists []. by rewrite app_nil_r.
  - cbn [show_metadata_loop]. unfold bind at 1, show_metadata_line, print, modify.
    destruct (IH (out ++ [indent +:+ "METADATA: " +:+ val +:+ ": " +:+ py_str v]))
      as (lines & Hl & Hlen).
    eexists (_ :: lines). rewrite Hl, <- app_assoc. split; [reflexivity|].
    simpl. by rewrite Hlen.
Qed.

Lemma show_item_tree_lines (hObj : item) :
  is_container hObj = true ->
  forall (sm pm : bool) (lvl : nat) (out : list string),
    sm = false \/ pm = true \/ attr_count hObj = 0%nat ->
    exists lines,
      show_item_tree_obj py_str hObj sm pm lvl out = (Ok tt, out ++ lines) /\
      length lines = (item_count hObj + if sm then attr_count hObj else 0)%nat.
Proof.
  induction hObj as [a children IH|children IH|sh dt|t] using item_nested_ind;
    intros Hc sm pm lvl out Hflags; try discriminate.
  all: cbn [show_item_tree_obj].
  all: match goal with
       | |- context [?L 0%nat ?c] =>
           assert (Hloop : (sm = false \/ pm = true \/ attr_count (IDict c) = 0%nat) ->
                     forall ii out, exists lines,
                     L ii c out = (Ok tt, out ++ lines) /\
                     length lines = (item_count (IDict c)
                                     + if sm then attr_count (IDict c) else 0)%nat)
       end.
  1,3: clear Hc Hflags; induction children as [|[val it] rest IHrest]; intros Hflags ii out0.
  1,3: exists []; rewrite app_nil_r; split; [reflexivity|by destruct sm].
  1,2: apply Forall_cons in IH as [IHit IH]; specialize (IHrest IH); cbn [snd] in IHit.
  1,2: assert (Hfit : sm = false \/ pm = true \/ attr_count it = 0%nat)
         by (cbn [attr_count] in Hflags; destruct Hflags as [H|[H|H]]; auto;
             right; right; lia).
  1,2: assert (Hfrest : sm = false \/ pm = true \/ attr_count (IDict rest) = 0%nat)
         by (cbn [attr_count] in Hflags |- *; destruct Hflags as [H|[H|H]]; auto;
             right; right; lia).
  1,2: specialize (IHrest Hfrest).
  1,2: destruct it as [a' c'|c'|sh dt|t]; cbn [snd].
  1,2,5,6:
    match goal with |- context [print ?x] => set (m := x) end;
    destruct (IHit eq_refl sm pm (lvl + 1)%nat (out0 ++ [m]) Hfit) as (l1 & H1 & Hlen1);
    destruct (IHrest (S ii) ((out0 ++ [m]) ++ l1)) as (l2 & H2 & Hlen2);
    exists (m :: l1 ++ l2); split;
    [ unfold bind at 1; unfold bind at 1; unfold print at 1, modify at 1;
      rewrite H1, H2; by rewrite <- !app_assoc
    | cbn [length]; rewrite length_app, Hlen1, Hlen2;
      cbn [item_count attr_count]; destruct sm; lia ].
  1-4:
    match goal with |- context [print ?x] => set (m := x) end;
    destruct (IHrest (S ii) (out0 ++ [m])) as (l2 & H2 & Hlen2);
    exists (m :: l2); split;
    [ unfold bind at 1, print at 1, modify at 1; rewrite H2; by rewrite <- !app_assoc
    | cbn [length]; rewrite Hlen2; cbn [item_count attr_count]; destruct sm; lia ].
  - assert (Hfc : sm = false \/ pm = true \/ attr_count (IDict children) = 0%nat)
      by (cbn [attr_count] in Hflags |- *; destruct Hflags as [H|[H|H]]; auto;
          right; right; lia).
    specialize (Hloop Hfc).
    destruct sm.
    + assert (Hmeta : exists l0,
                show_metadata_loop py_str (repeat_string "  " lvl) pm a out = (Ok tt, out ++ l0)
                /\ length l0 = length a).
      { destruct Hflags as [Hf|[-> |Hf]]; [discriminate|apply show_metadata_loop_lines|].
        cbn [attr_count] in Hf. destruct a; [|simpl in Hf; lia].
        exists []. by rewrite app_nil_r. }
      destruct Hmeta as (l0 & H0 & Hl0).
      rewrite (bind_ok _ _ _ _ _ H0).
      destruct (Hloop 0%nat (out ++ l0)) as (l2 & H2 & Hlen2).
      exists (l0 ++ l2). rewrite H2, <- app_assoc. split; [done|].
      rewrite length_app, Hl0, Hlen2. cbn [item_count attr_count]. lia.
    + destruct (Hloop 0%nat out) as (l2 & H2 & Hlen2).
      exists l2. split; [exact H2|]. rewrite Hlen2. cbn [item_count]. lia.
  - destruct (Hloop Hflags 0%nat out) as (l2 & H2 & Hlen2).
    exists l2. split; [exact H2|]. rewrite Hlen2. reflexivity.
Qed.

(** X2: [show_item_tree] on a group or a [dict] whose metadata is not listed
    ([show_metadata] false), or is listed by value ([print_metadata] true),
    or that has no metadata at all (as every [dict] has none), never raises
    and only adds to standard output, by one call of [print] per item at
    every level of the tree, and one per metadata entry of every group when
    metadata is shown.  (The string printed for a metadata entry listed by
    value holds [str] of the value, which may run over several lines of
    text.) *)
Theorem show_item_tree_print_count :
  forall (hObj : item) (show_metadata print_metadata : bool) (indent_level : nat)
         (out : list string),
    is_container hObj = true ->
    show_metadata = false \/ print_metadata = true \/ attr_count hObj = 0%nat ->
    exists printed,
      show_item_tree_obj py_str hObj show_metadata print_metadata indent_level out
        = (Ok tt, out ++ printed) /\
      length printed =
        (item_count hObj + if show_metadata then attr_count hObj else 0)%nat.
Proof.
  intros hObj sm pm lvl out Hc Hflags. by apply show_item_tree_lines.
Qed.

(** X3: on a listing without nested groups or [dict]s, [show_item_tree] (at
    indent level 0, and for a group with [show_metadata] false) prints exactly
    what [show_group_items] prints. *)
Theorem show_item_tree_flat_agrees :
  forall (attrs : list (string * leaf)) (items : list (string * item))
         (show_metadata print_metadata : bool) (out : list string),
    Forall (fun kv : string * item => is_container (snd kv) = false) items ->
    show_item_tree_obj py_str (IDict items) show_metadata print_metadata 0 out
      = show_group_items (IDict items) out /\
    show_item_tree_obj py_str (IGroup attrs items) false print_metadata 0 out
      = show_group_items (IGroup attrs items) out.
Proof.
  intros attrs items sm pm out Hflat.
  assert (Hloop : forall sm ii out,
            (fix loop (ii : nat) (items : list (string * item)) : M (list string) unit :=
               match items with
               | [] => ret tt
               | (val, it) :: rest =>
                   match it with
                   | IGroup _ _ | IDict _ =>
                       print (repeat_string "  " 0 +:+ pretty (ii + 1)%nat +:+ ". " +:+ val
                              +:+ ":----------------") ;;
                       show_item_tree_obj py_str it sm pm (0 + 1)
                   | IShaped sh dt =>
                       print (repeat_string "  " 0 +:+ pretty (ii + 1)%nat +:+ ". " +:+ val
                              +:+ ":   shape=" +:+ shape_repr sh +:+ " , dtype=" +:+ dt)
                   | IOther _ =>
                       print (repeat_string "  " 0 +:+ pretty (ii + 1)%nat +:+ ". " +:+ val
                              +:+ ":   type=" +:+ type_repr it)
                   end ;;
                   loop (S ii) rest
               end) ii items out
            = show_group_items_loop ii items out).
  { clear sm. intros sm.
    induction Hflat as [|[val it] rest Hit _ IH]; intros ii out0; [reflexivity|].
    cbn [snd] in Hit. cbn [show_group_items_loop].
    destruct it as [a c|c|sh dt|t]; try discriminate;
      unfold bind, show_group_items_body, print, modify, ret; cbn; apply IH. }
  split.
  - exact (Hloop sm 0%nat out).
  - exact (Hloop false 0%nat out).
Qed.

(** X4: given a [path], [show_item_tree] ignores [hObj] and lists the root of
    the file at that path, opened read-only: no file is changed, and when no
    file is there it raises a file-not-found error without printing. *)
Theorem show_item_tree_path_read_only :
  forall (hObj : option item) (path : string) (show_metadata print_metadata : bool)
         (indent_level : nat) (w : world),
    (fs w !! path = None ->
     exists e,
       show_item_tree py_str hObj (Some path) show_metadata print_metadata indent_level w
         = (Raise e, w) /\
       exn_cls e = FileNotFoundError) /\
    (forall r,
       fs w !! path = Some r ->
       show_item_tree py_str hObj (Some path) show_metadata print_metadata indent_level w
         = (fst (show_item_tree_obj py_str (view_h5 r) show_metadata print_metadata
                   indent_level (stdout w)),
            World (fs w)
                  (snd (show_item_tree_obj py_str (view_h5 r) show_metadata print_metadata
                          indent_level (stdout w))))).
Proof.
  intros hObj path sm pm lvl w. split.
  - intros Hnone. eexists. unfold show_item_tree, with_File, File_open. simpl.
    rewrite Hnone. split; reflexivity.
  - intros r Hr. unfold show_item_tree, with_File, File_open. simpl. rewrite Hr.
    unfold show_open_file, on_stdout. cbn [fst snd root].
    destruct (show_item_tree_obj py_str (view_h5 r) sm pm lvl (stdout w)) as [res out'].
    cbn [fst snd root]. by rewrite (insert_id _ _ _ Hr).
Qed.

End ShowProps.

(** ** make_h5_tree *)

(** X5: [make_h5_tree] works on any existing group named by an absolute group
    string, with [h5_obj] the file or any group on the way to it: the group
    gains the image of the mapping, the members it had are kept, and the
    rest of the file stays as it was. *)
Theorem make_h5_tree_into_subgroup :
  forall (dict_obj : pydict) (h5_obj q : handle) (group_string : string) (f : h5file)
         (a : list (string * leaf)) (ms : members_t),
    dict_ok dict_obj = true ->
    writable f = true ->
    is_absolute group_string = true ->
    path_components group_string = h5_obj ++ q ->
    lookup_path (h5_obj ++ q) (root f) = Some (H5Group a ms) ->
    (forall k, In k (map fst dict_obj) -> get_member k ms = None) ->
    exists ms' f',
      h5_of_dict dict_obj = Some ms' /\
      make_h5_tree dict_obj h5_obj group_string f = (Ok tt, f') /\
      lookup_path (h5_obj ++ q) (root f') = Some (H5Group a (ms ++ ms')) /\
      root f' = replace_at (h5_obj ++ q) (H5Group a (ms ++ ms')) (root f).
Proof.
  intros d h q gs f a ms Hok Hw Habs Hcomp Hp Hfree.
  pose proof (root_if_empty_absolute gs Habs) as Hgs.
  destruct (make_h5_tree_extends_val (PyDict d) h q gs f a ms Hok Hw) as (ms' & Hms & Hmk);
    try done; try (by rewrite Hgs).
  exists ms', (H5File (replace_at (h ++ q) (H5Group a (ms ++ ms')) (root f)) true).
  split; [exact Hms|]. split; [exact Hmk|]. split; [|reflexivity].
  simpl. eapply lookup_replace_at, Hp.
Qed.

Lemma root_if_empty_idem gs : root_if_empty (root_if_empty gs) = root_if_empty gs.
Proof. by destruct gs. Qed.

Lemma make_h5_tree_norm d h gs f :
  make_h5_tree d h (root_if_empty gs) f = make_h5_tree d h gs f.
Proof.
  destruct d as [|[k v] rest]; [reflexivity|].
  cbn [make_h5_tree]. fold (root_if_empty (root_if_empty gs)) (root_if_empty gs).
  by rewrite root_if_empty_idem.
Qed.

(** The loop over a mapping is the loop over its first items followed by the
    loop over the others, which runs only if the first ended normally. *)
Lemma make_h5_tree_app d1 d2 h gs f :
  make_h5_tree (d1 ++ d2) h gs f =
  (make_h5_tree d1 h gs ;; make_h5_tree d2 h gs) f.
Proof.
  revert gs f. induction d1 as [|[k v] d1 IH]; intros gs f; [reflexivity|].
  cbn [app make_h5_tree]. fold (root_if_empty gs).
  destruct (make_h5_tree_item k v h (root_if_empty gs) f) as [[[]|e] f1] eqn:E.
  - rewrite (bind_ok _ _ _ _ _ E), IH.
    unfold bind. rewrite E.
    destruct (make_h5_tree d1 h (root_if_empty gs) f1) as [[[]|e] f2]; [|reflexivity].
    apply make_h5_tree_norm.
  - rewrite (bind_raise _ _ _ _ _ E). unfold bind. by rewrite E.
Qed.

Lemma getitem_root f a ms :
  root f = H5Group a ms -> getitem hf "/" f = (Ok hf, f).
Proof. intros Hr. unfold getitem, is_group_at. by rewrite Hr. Qed.

(** X6: when an item of the mapping holds a value h5py cannot store,
    [make_h5_tree] raises [TypeError] at that item: the items before it have
    been written, the item itself and those after it have not. *)
Theorem make_h5_tree_unsupported_leaf :
  forall (before after : pydict) (key tyname : string) (f : h5file)
         (a : list (string * leaf)) (ms : members_t),
    dict_ok before = true ->
    writable f = true ->
    root f = H5Group a ms ->
    (forall k, In k (map fst before) -> get_member k ms = None) ->
    exists ms' e,
      h5_of_dict before = Some ms' /\
      make_h5_tree (before ++ (key, PyObject tyname) :: after) hf "" f
        = (Raise e, H5File (H5Group a (ms ++ ms')) true) /\
      exn_cls e = TypeError.
Proof.
  intros pre post k t f a ms Hok Hw Hroot Hfree.
  destruct (make_h5_tree_on_root pre f a ms Hok Hw Hroot Hfree) as (ms' & Hms & Hmk).
  exists ms', (Exn TypeError "Object dtype has no native HDF5 equivalent").
  split; [exact Hms|].
  rewrite make_h5_tree_app, (bind_ok _ _ _ _ _ Hmk).
  cbn [make_h5_tree make_h5_tree_item]. cbn [String.eqb].
  split; [|reflexivity].
  apply bind_raise.
  rewrite (bind_ok _ _ _ _ _
             (getitem_root (H5File (H5Group a (ms ++ ms')) true) a (ms ++ ms') eq_refl)).
  apply bind_raise. reflexivity.
Qed.

Lemma make_h5_tree_key_taken k v rest f a ms n :
  writable f = true ->
  root f = H5Group a ms ->
  simple_name k = true ->
  get_member k ms = Some n ->
  val_ok v = true ->
  exists e,
    make_h5_tree ((k, v) :: rest) hf "" f = (Raise e, f) /\ exn_cls e = ValueError.
Proof.
  intros Hw Hroot Hk Hn Hv.
  assert (Hlink : forall new, link_new (resolve hf k) new (root f) = None).
  { intros new. rewrite (resolve_simple _ _ Hk), Hroot. simpl. by rewrite Hn. }
  assert (Hg : is_group_at hf f = true) by (unfold is_group_at; simpl; by rewrite Hroot).
  cbn [make_h5_tree]. cbn [String.eqb]. destruct v as [l|t|sub]; [| discriminate |].
  - exists (Exn ValueError "Unable to create dataset (name already exists)").
    cbn [make_h5_tree_item]. split; [|reflexivity].
    apply bind_raise.
    rewrite (bind_ok _ _ _ _ _ (getitem_root f a ms Hroot)).
    apply bind_raise. unfold create_dataset. by rewrite Hg, Hw, Hlink.
  - exists (Exn ValueError "Unable to create group (name already exists)").
    split; [|reflexivity].
    apply bind_raise. rewrite make_h5_tree_item_dict.
    rewrite (bind_ok _ _ _ _ _ (getitem_root f a ms Hroot)).
    apply bind_raise. unfold create_group. by rewrite Hg, Hw, Hlink.
Qed.

(** X7: [make_h5_tree] does not merge into what is there: after a mapping
    with at least one item has been written, writing the same mapping to the
    same file again raises [ValueError] (the first name exists) and leaves
    the file as the first call left it. *)
Theorem make_h5_tree_twice_fails :
  forall (dict_obj : pydict) (f : h5file) (a : list (string * leaf)) (ms : members_t),
    dict_obj <> [] ->
    dict_ok dict_obj = true ->
    writable f = true ->
    root f = H5Group a ms ->
    (forall k, In k (map fst dict_obj) -> get_member k ms = None) ->
    exists f1 e,
      make_h5_tree dict_obj hf "" f = (Ok tt, f1) /\
      make_h5_tree dict_obj hf "" f1 = (Raise e, f1) /\
      exn_cls e = ValueError.
Proof.
  intros d f a ms Hne Hok Hw Hroot Hfree.
  destruct (make_h5_tree_on_root d f a ms Hok Hw Hroot Hfree) as (ms' & Hms & Hmk).
  exists (H5File (H5Group a (ms ++ ms')) true).
  destruct d as [|[k v] rest]; [done|].
  pose proof Hok as Hok'. apply dict_ok_cons in Hok' as (Hk & _ & Hv & _).
  assert (Hin : get_member k (ms ++ ms') = h5_of v).
  { rewrite get_member_app_free by (apply Hfree; by left).
    apply (get_member_image ((k, v) :: rest)); [done|done|by left]. }
  assert (Hsome : exists n, h5_of v = Some n).
  { simpl in Hms. destruct (h5_of v) as [n|]; [eauto|discriminate]. }
  destruct Hsome as (n & Hn). rewrite Hn in Hin.
  destruct (make_h5_tree_key_taken k v rest (H5File (H5Group a (ms ++ ms')) true)
              a (ms ++ ms') n eq_refl eq_refl Hk Hin Hv) as (e & He & Hcls).
  exists e. by repeat split.
Qed.

Lemma simple_name_nonempty g : simple_name g = true -> (g =? "") = false.
Proof. destruct g; [discriminate|done]. Qed.

Lemma getitem_simple h g f n :
  is_group_at h f = true ->
  simple_name g = true ->
  lookup_path (h ++ [g]) (root f) = Some n ->
  getitem h g f = (Ok (h ++ [g]), f).
Proof.
  intros Hgrp Hg Hn. unfold getitem.
  by rewrite Hgrp, (simple_name_nonempty _ Hg), (resolve_simple _ _ Hg), Hn.
Qed.

Lemma is_group_at_root f a ms : root f = H5Group a ms -> is_group_at hf f = true.
Proof. intros Hr. unfold is_group_at. simpl. by rewrite Hr. Qed.

Lemma getitem_raise_item k v h gs f e :
  getitem h gs f = (Raise e, f) ->
  make_h5_tree_item k v h gs f = (Raise e, f).
Proof.
  intros Hget. destruct v as [l|t|sub].
  - cbn [make_h5_tree_item]. by apply bind_raise.
  - cbn [make_h5_tree_item]. by apply bind_raise.
  - rewrite make_h5_tree_item_dict. by apply bind_raise.
Qed.

(** X8: a relative group string only works one level deep.  Called with the
    name [g] of a group of the file, [make_h5_tree] creates the group of a
    nested mapping inside [g], and then raises [KeyError] at the first item
    of that mapping: the recursive call looks its group string [g/key] up
    from [g] itself. *)
Theorem make_h5_tree_relative_group_string :
  forall (g key key2 : string) (val : pyval) (sub others : pydict) (f : h5file)
         (a ga : list (string * leaf)) (ms gms : members_t),
    writable f = true ->
    root f = H5Group a ms ->
    simple_name g = true ->
    simple_name key = true ->
    get_member g ms = Some (H5Group ga gms) ->
    get_member key gms = None ->
    get_member g gms = None ->
    exists e f',
      make_h5_tree ((key, PyDict ((key2, val) :: sub)) :: others) hf g f = (Raise e, f') /\
      exn_cls e = KeyError /\
      lookup_path [g; key] (root f') = Some (H5Group [] []).
Proof.
  intros g k k2 v sub others f a ga ms gms Hw Hroot Hg Hk Hgm Hkfree Hgfree.
  destruct (simple_name_components g Hg) as [Hgabs Hgcomp].
  assert (Hgne : forall x, (g +:+ x =? "") = false /\ is_absolute (g +:+ x) = false).
  { intros x. destruct g as [|c g']; [discriminate|]. by split. }
  assert (Hp : lookup_path [g] (root f) = Some (H5Group ga gms)).
  { rewrite Hroot. simpl. by rewrite Hgm. }
  assert (Hget : getitem hf g f = (Ok [g], f)).
  { apply (getitem_simple hf g f _ (is_group_at_root _ _ _ Hroot) Hg Hp). }
  set (grp := H5Group ga (gms ++ [(k, H5Group [] [])])).
  set (f1 := H5File (replace_at [g] grp (root f)) true).
  assert (Hp1 : lookup_path [g] (root f1) = Some grp).
  { unfold f1. cbn [root]. eapply lookup_replace_at, Hp. }
  assert (Hr1 : exists ms1, root f1 = H5Group a ms1).
  { unfold f1. cbn [root]. rewrite Hroot. cbn [replace_at]. rewrite Hgm. eauto. }
  destruct Hr1 as (ms1 & Hr1).
  assert (Hget1 : getitem hf g f1 = (Ok [g], f1)).
  { apply (getitem_simple hf g f1 _ (is_group_at_root _ _ _ Hr1) Hg Hp1). }
  destruct (Hgne ("/" +:+ k)) as [Hne' Habs'].
  assert (Hgetin : getitem [g] (g +:+ "/" +:+ k) f1 =
                   (Raise (Exn KeyError "Unable to open object"), f1)).
  { assert (Hnone : lookup_path ([g] ++ [g; k]) (root f1) = None).
    { rewrite lookup_path_app, Hp1. unfold grp. cbn [lookup_path].
      rewrite (get_member_app_fresh _ _ _ _ Hgfree).
      destruct (k =? g); reflexivity. }
    unfold getitem, is_group_at. rewrite Hp1. unfold grp at 1. cbn [negb].
    rewrite Hne'. unfold resolve.
    rewrite Habs', (path_components_join _ _ Hk), Hgcomp.
    change ([g] ++ [g] ++ [k]) with ([g] ++ [g; k]). by rewrite Hnone. }
  exists (Exn KeyError "Unable to open object"), f1. split; [|split; [reflexivity|]].
  - cbn [make_h5_tree]. rewrite (simple_name_nonempty _ Hg).
    apply bind_raise. rewrite make_h5_tree_item_dict.
    rewrite (bind_ok _ _ _ _ _ Hget).
    rewrite (bind_ok _ _ _ _ _ (create_group_fresh [g] k f ga gms Hp Hw Hk Hkfree)).
    fold grp. fold f1. rewrite (bind_ok _ _ _ _ _ Hget1).
    cbn [make_h5_tree]. rewrite Hne'.
    apply bind_raise. by apply getitem_raise_item.
  - change [g; k] with ([g] ++ [k]). rewrite lookup_path_app, Hp1. unfold grp. simpl.
    by rewrite (get_member_app_fresh _ _ _ _ Hkfree), String.eqb_refl.
Qed.

(** ** h5py_dataset_iterator *)

Lemma append_assoc (a b c : string) : (a +:+ b) +:+ c = a +:+ (b +:+ c).
Proof.
  induction a as [|x a IH]; [reflexivity|].
  change (String x ((a +:+ b) +:+ c) = String x (a +:+ b +:+ c)). by f_equal.
Qed.

Lemma get_member_head_other k k1 n ms :
  k <> k1 -> get_member k1 ((k, n) :: ms) = get_member k1 ms.
Proof.
  intros Hne. simpl. destruct (k =? k1) eqn:E; [|done].
  apply String.eqb_eq in E. by subst.
Qed.

(** Every pair the generator yields for a written mapping carries a path
    that extends the prefix by a slash and keys, and these keys lead from the
    group to the dataset of the pair. *)
Lemma dataset_iterator_paths (v : pyval) :
  match v with
  | PyDict d =>
      forall ms a prefix path ds,
        dict_ok d = true ->
        h5_of_dict d = Some ms ->
        In (path, ds) (dataset_iterator_yields (H5Group a ms) prefix) ->
        exists k q suffix,
          In k (map fst d) /\
          path = prefix +:+ String slash suffix /\
          path_components path = path_components prefix ++ k :: q /\
          lookup_path (k :: q) (H5Group a ms) = Some ds /\
          exists l, ds = H5Dataset l
  | _ => True
  end.
Proof.
  induction v as [l0|t|d IHd] using pyval_nested_ind; [exact I|exact I|].
  intros ms a prefix path ds Hok Hms. cbn [dataset_iterator_yields].
  revert ms Hms. induction d as [|[k v] rest IHrest]; intros ms Hms Hin.
  - injection Hms as <-. destruct Hin.
  - apply Forall_cons in IHd as [IHv IHd].
    apply dict_ok_cons in Hok as (Hk & Hnotin & Hv & Hrest).
    simpl in Hms.
    destruct (h5_of v) as [n|] eqn:Hn; [|done].
    destruct (h5_of_dict rest) as [msr|] eqn:Hr; [|done].
    injection Hms as <-. apply in_app_or in Hin as [Hin|Hin].
    + destruct v as [l1|t|sub].
      * injection Hn as <-. destruct Hin as [[= <- <-]|[]].
        exists k, [], k. split; [by left|]. split; [reflexivity|].
        split; [by apply path_components_join|].
        split; [|by exists l1]. simpl. by rewrite String.eqb_refl.
      * discriminate.
      * rewrite h5_of_PyDict in Hn.
        destruct (h5_of_dict sub) as [sms|] eqn:Hs; [|done]. injection Hn as <-.
        cbn [snd] in IHv.
        destruct (IHv sms [] (prefix +:+ "/" +:+ k) path ds Hv Hs Hin)
          as (k1 & q & suffix & Hk1 & Hpath & Hcomp & Hlook & Hds).
        exists k, (k1 :: q), (k +:+ String slash suffix).
        split; [by left|]. split; [|split; [|split; [|exact Hds]]].
        -- rewrite Hpath. change ("/" +:+ k) with (String slash k).
           rewrite append_assoc. reflexivity.
        -- rewrite Hcomp, (path_components_join _ _ Hk), <- app_assoc. reflexivity.
        -- change (lookup_path (k :: k1 :: q) (H5Group a ((k, H5Group [] sms) :: msr)))
             with (match get_member k ((k, H5Group [] sms) :: msr) with
                   | Some c => lookup_path (k1 :: q) c
                   | None => None
                   end).
           simpl get_member. rewrite String.eqb_refl. exact Hlook.
    + destruct (IHrest IHd Hrest msr eq_refl Hin)
        as (k1 & q & suffix & Hk1 & Hpath & Hcomp & Hlook & Hds).
      exists k1, q, suffix. split; [by right|]. split; [exact Hpath|].
      split; [exact Hcomp|]. split; [|exact Hds].
      assert (Hne : k <> k1) by (intros ->; contradiction).
      change (lookup_path (k1 :: q) (H5Group a ((k, n) :: msr)))
        with (match get_member k1 ((k, n) :: msr) with
              | Some c => lookup_path q c
              | None => None
              end).
      rewrite (get_member_head_other _ _ _ _ Hne). exact Hlook.
Qed.

(** X9: in a container written from a mapping, every pair that
    [h5py_dataset_iterator] yields for the root with the default prefix
    carries a valid absolute name: indexing the file with the yielded path
    opens the very dataset the pair holds. *)
Theorem dataset_iterator_paths_open :
  forall (d : pydict) (f : h5file) (a : list (string * leaf)) (ms : members_t)
         (path : string) (ds : h5node),
    dict_ok d = true ->
    h5_of_dict d = Some ms ->
    root f = H5Group a ms ->
    In (path, ds) (dataset_iterator_yields (root f) "") ->
    exists p l,
      getitem hf path f = (Ok p, f) /\
      lookup_path p (root f) = Some ds /\
      ds = H5Dataset l.
Proof.
  intros d f a ms path ds Hok Hms Hroot Hin. rewrite Hroot in Hin.
  destruct (dataset_iterator_paths (PyDict d) ms a "" path ds Hok Hms Hin)
    as (k & q & suffix & _ & Hpath & Hcomp & Hlook & l & Hds).
  simpl in Hcomp. exists (k :: q), l. rewrite <- Hroot in Hlook.
  split; [|by split].
  assert (Habs : is_absolute path = true) by (by subst path).
  rewrite <- Hcomp. eapply getitem_absolute; [by eapply is_group_at_root|exact Habs|].
  rewrite Hcomp. exact Hlook.
Qed.

(** ** write_dict_to_h5 *)

Lemma image_counts (v : pyval) :
  match v with
  | PyDict d =>
      forall ms,
        h5_of_dict d = Some ms ->
        item_count (view_h5 (H5Group [] ms)) = item_count (view_py (PyDict d)) /\
        attr_count (view_h5 (H5Group [] ms)) = 0%nat
  | _ => True
  end.
Proof.
  induction v as [l0|t|d IHd] using pyval_nested_ind; [exact I|exact I|].
  intros ms. cbn [view_h5 view_py item_count attr_count length Nat.add].
  revert ms. induction d as [|[k v] rest IHrest]; intros ms Hms.
  - injection Hms as <-. by split.
  - apply Forall_cons in IHd as [IHv IHd]. simpl in Hms.
    destruct (h5_of v) as [n|] eqn:Hn; [|done].
    destruct (h5_of_dict rest) as [msr|] eqn:Hr; [|done].
    injection Hms as <-. destruct (IHrest IHd msr eq_refl) as [Hi Ha].
    destruct v as [l1|t|sub].
    + injection Hn as <-.
      destruct l1; cbn [view_h5 view_py item_count attr_count Nat.add];
        by rewrite Hi, Ha.
    + discriminate.
    + rewrite h5_of_PyDict in Hn.
      destruct (h5_of_dict sub) as [sms|] eqn:Hs; [|done]. injection Hn as <-.
      cbn [snd] in IHv. destruct (IHv sms Hs) as [Hi1 Ha1].
      cbn [view_h5 view_py item_count attr_count length Nat.add] in Hi1, Ha1 |- *.
      by rewrite Hi, Ha, Hi1, Ha1.
Qed.

Section WriteProps.

Variable py_str : leaf -> string.

(** Writing a well-formed mapping through a file that the open has just
    created: the file ends up holding the image of the mapping; with
    [show_item_tree_pref] the banner and one line per item are printed,
    without it nothing is. *)
Lemma write_dict_to_h5_created path mode d pref w :
  File_open path mode w =
    (Ok (H5File new_file true), World (<[path := new_file]> (fs w)) (stdout w)) ->
  dict_ok d = true ->
  exists ms lines,
    h5_of_dict d = Some ms /\
    write_dict_to_h5 py_str path d mode pref w =
      (Ok tt,
       World (<[path := H5Group [] ms]> (fs w))
             (stdout w ++
              if pref
              then "==== Successfully wrote h5 ile. Displaying h5 hierarchy ====" :: lines
              else [])) /\
    length lines = item_count (view_py (PyDict d)).
Proof.
  intros Hopen Hok.
  destruct (make_h5_tree_on_root d (H5File new_file true) [] [] Hok eq_refl eq_refl)
    as (ms & Hms & Hmk); [done|].
  destruct (image_counts (PyDict d) ms Hms) as [Hitems Hattrs].
  destruct (show_item_tree_lines py_str (view_h5 (H5Group [] ms)) eq_refl true false 0%nat
              (stdout w ++ ["==== Successfully wrote h5 ile. Displaying h5 hierarchy ===="]))
    as (lines & Hshow & Hlen); [by right; right|].
  exists ms, lines. split; [exact Hms|]. split.
  - unfold write_dict_to_h5, with_File. rewrite Hopen. cbn [fs stdout].
    unfold bind at 1, on_file at 1. cbn [fst snd]. rewrite Hmk. cbn [app].
    destruct pref.
    + unfold bind at 1, on_stdout at 1, print, modify. cbn [fst snd].
      unfold show_open_file, on_stdout. cbn [fst snd root]. rewrite Hshow.
      cbn [fst snd root]. rewrite insert_insert_eq, <- app_assoc. reflexivity.
    + unfold ret. cbn [root]. by rewrite insert_insert_eq, app_nil_r.
  - rewrite Hlen, Hattrs, Hitems. lia.
Qed.

(** X10: with write mode ['w'], [write_dict_to_h5] overwrites: whatever file
    was at the path, or none, the file there afterwards holds exactly the
    image of the mapping, and no other file changes. *)
Theorem write_dict_to_h5_overwrites :
  forall (path_save : string) (input_dict : pydict) (show_item_tree_pref : bool)
         (w : world),
    dict_ok input_dict = true ->
    exists ms out,
      h5_of_dict input_dict = Some ms /\
      write_dict_to_h5 py_str path_save input_dict "w" show_item_tree_pref w
        = (Ok tt, World (<[path_save := H5Group [] ms]> (fs w)) out).
Proof.
  intros path d pref w Hok.
  destruct (write_dict_to_h5_created path "w" d pref w eq_refl Hok)
    as (ms & lines & Hms & Hw & _).
  exists ms. eexists. split; [exact Hms|exact Hw].
Qed.


(** X12: a write that fails leaves its file behind.  When the mapping holds
    a value h5py cannot store, [write_dict_to_h5] to a path that does not
    exist yet raises [TypeError], prints nothing, and leaves at the path a
    file with the items written before the failure; any later call with the
    default write mode on that path then fails with a file-exists error. *)
Theorem write_dict_to_h5_failure_leaves_file :
  forall (path_save : string) (before after : pydict) (key tyname : string)
         (show_item_tree_pref : bool) (w : world),
    dict_ok before = true ->
    fs w !! path_save = None ->
    exists ms e w',
      h5_of_dict before = Some ms /\
      write_dict_to_h5 py_str path_save (before ++ (key, PyObject tyname) :: after)
        default_write_mode show_item_tree_pref w = (Raise e, w') /\
      exn_cls e = TypeError /\
      w' = World (<[path_save := H5Group [] ms]> (fs w)) (stdout w) /\
      (forall (d : pydict) (pref : bool),
         exists e',
           write_dict_to_h5 py_str path_save d default_write_mode pref w' = (Raise e', w') /\
           exn_cls e' = FileExistsError).
Proof.
  intros path pre post k t pref w Hok Hnone.
  destruct (make_h5_tree_on_root pre (H5File new_file true) [] [] Hok eq_refl eq_refl)
    as (ms & Hms & Hmk); [done|].
  assert (Hfail : make_h5_tree (pre ++ (k, PyObject t) :: post) hf "" (H5File new_file true)
                  = (Raise (Exn TypeError "Object dtype has no native HDF5 equivalent"),
                     H5File (H5Group [] ms) true)).
  { rewrite make_h5_tree_app, (bind_ok _ _ _ _ _ Hmk).
    cbn [make_h5_tree make_h5_tree_item app]. cbn [String.eqb].
    apply bind_raise.
    rewrite (bind_ok _ _ _ _ _ (getitem_root (H5File (H5Group [] ms) true) [] ms eq_refl)).
    apply bind_raise. reflexivity. }
  exists ms, (Exn TypeError "Object dtype has no native HDF5 equivalent"),
         (World (<[path := H5Group [] ms]> (fs w)) (stdout w)).
  split; [exact Hms|]. split; [|split; [reflexivity|split; [reflexivity|]]].
  - unfold write_dict_to_h5, with_File. rewrite (File_open_create _ _ Hnone).
    cbn [fs stdout]. unfold bind at 1, on_file at 1. cbn [fst snd]. rewrite Hfail.
    cbn [root]. by rewrite insert_insert_eq.
  - intros d pref'. eexists. unfold write_dict_to_h5, with_File, File_open, default_write_mode.
    simpl. rewrite lookup_insert_eq. split; reflexivity.
Qed.

End WriteProps.

(** ** Concrete runs *)

Lemma show_item_tree_print_count_witness :
  exists printed,
    show_item_tree_obj (fun _ => "") (view_py (PyDict example_dict)) true false 0 []
      = (Ok tt, [] ++ printed) /\
    length printed =
      (item_count (view_py (PyDict example_dict))
       + if true then attr_count (view_py (PyDict example_dict)) else 0)%nat.
Proof.
  apply (show_item_tree_print_count (fun _ => "") (view_py (PyDict example_dict))
           true false 0%nat []).
  - reflexivity.
  - right. right. reflexivity.
Defined.

Lemma show_item_tree_flat_agrees_witness :
  show_item_tree_obj (fun _ => "") (IDict flat_listing) true false 0 []
    = show_group_items (IDict flat_listing) [] /\
  show_item_tree_obj (fun _ => "") (IGroup [] flat_listing) false false 0 []
    = show_group_items (IGroup [] flat_listing) [].
Proof.
  apply (show_item_tree_flat_agrees (fun _ => "") [] flat_listing true false []).
  repeat constructor.
Defined.

Lemma show_item_tree_path_read_only_witness :
  (exists e,
     show_item_tree (fun _ => "") None (Some "missing.h5") true false 0 world_with_file
       = (Raise e, world_with_file) /\
     exn_cls e = FileNotFoundError) /\
  fs (snd (show_item_tree (fun _ => "") None (Some "session.h5") true false 0
             world_with_file))
    = fs world_with_file.
Proof.
  destruct (show_item_tree_path_read_only (fun _ => "") None "missing.h5" true false 0%nat
              world_with_file) as [Hmissing _].
  destruct (show_item_tree_path_read_only (fun _ => "") None "session.h5" true false 0%nat
              world_with_file) as [_ Hthere].
  split.
  - apply Hmissing. reflexivity.
  - rewrite (Hthere (H5Group [] [("trace", H5Dataset example_array)])); reflexivity.
Defined.

Lemma make_h5_tree_into_subgroup_witness :
  exists ms' f',
    h5_of_dict example_dict = Some ms' /\
    make_h5_tree example_dict [] "/grp" file_with_group = (Ok tt, f') /\
    lookup_path ([] ++ ["grp"]) (root f') = Some (H5Group [] ([] ++ ms')) /\
    root f' = replace_at ([] ++ ["grp"]) (H5Group [] ([] ++ ms')) (root file_with_group).
Proof.
  apply (make_h5_tree_into_subgroup example_dict [] ["grp"] "/grp" file_with_group [] []);
    reflexivity.
Defined.

Lemma make_h5_tree_unsupported_leaf_witness :
  exists ms' e,
    h5_of_dict [("name", PyLeaf (LStr "session 1"))] = Some ms' /\
    make_h5_tree ([("name", PyLeaf (LStr "session 1"))]
                  ++ ("model", PyObject "Model") :: [("rate", PyLeaf example_array)])
      hf "" (H5File new_file true)
      = (Raise e, H5File (H5Group [] ([] ++ ms')) true) /\
    exn_cls e = TypeError.
Proof.
  apply (make_h5_tree_unsupported_leaf [("name", PyLeaf (LStr "session 1"))]
           [("rate", PyLeaf example_array)] "model" "Model" (H5File new_file true) [] []);
    reflexivity.
Defined.

Lemma make_h5_tree_twice_fails_witness :
  exists f1 e,
    make_h5_tree example_dict hf "" (H5File new_file true) = (Ok tt, f1) /\
    make_h5_tree example_dict hf "" f1 = (Raise e, f1) /\
    exn_cls e = ValueError.
Proof.
  apply (make_h5_tree_twice_fails example_dict (H5File new_file true) [] []);
    try reflexivity. discriminate.
Defined.

Lemma make_h5_tree_relative_group_string_witness :
  exists e f',
    make_h5_tree [("data", PyDict [("trace", PyLeaf example_array)])] hf "grp"
      file_with_group = (Raise e, f') /\
    exn_cls e = KeyError /\
    lookup_path ["grp"; "data"] (root f') = Some (H5Group [] []).
Proof.
  apply (make_h5_tree_relative_group_string "grp" "data" "trace" (PyLeaf example_array)
           [] [] file_with_group [] [] [("grp", H5Group [] [])] []);
    reflexivity.
Defined.

Lemma dataset_iterator_paths_open_witness :
  exists p l,
    getitem hf "/data/trace" (H5File (H5Group [] example_image) false)
      = (Ok p, H5File (H5Group [] example_image) false) /\
    lookup_path p (root (H5File (H5Group [] example_image) false))
      = Some (H5Dataset example_array) /\
    H5Dataset example_array = H5Dataset l.
Proof.
  apply (dataset_iterator_paths_open example_dict (H5File (H5Group [] example_image) false)
           [] example_image "/data/trace" (H5Dataset example_array)).
  - reflexivity.
  - reflexivity.
  - reflexivity.
  - right. left. reflexivity.
Defined.

Lemma write_dict_to_h5_overwrites_witness :
  exists ms out,
    h5_of_dict example_dict = Some ms /\
    write_dict_to_h5 (fun _ => "") "session.h5" example_dict "w" true world_with_file
      = (Ok tt, World (<["session.h5" := H5Group [] ms]> (fs world_with_file)) out).
Proof.
  apply (write_dict_to_h5_overwrites (fun _ => "") "session.h5" example_dict true
           world_with_file).
  reflexivity.
Defined.


Lemma write_dict_to_h5_failure_leaves_file_witness :
  exists ms e w',
    h5_of_dict [("name", PyLeaf (LStr "session 1"))] = Some ms /\
    write_dict_to_h5 (fun _ => "") "new.h5"
      ([("name", PyLeaf (LStr "session 1"))] ++ ("model", PyObject "Model") :: [])
      default_write_mode true world_with_file = (Raise e, w') /\
    exn_cls e = TypeError /\
    w' = World (<["new.h5" := H5Group [] ms]> (fs world_with_file)) (stdout world_with_file) /\
    (forall (d : pydict) (pref : bool),
       exists e',
         write_dict_to_h5 (fun _ => "") "new.h5" d default_write_mode pref w' = (Raise e', w') /\
         exn_cls e' = FileExistsError).
Proof.
  apply (write_dict_to_h5_failure_leaves_file (fun _ => "") "new.h5"
           [("name", PyLeaf (LStr "session 1"))] [] "model" "Model" true world_with_file);
    reflexivity.
Defined.

End h5_handling_more.

(** * Further properties of bnpm/plotting_helpers.py *)

Module plotting_helpers_more.
Import plotting_helpers plotting_helpers_props.

(** ** get_subplot_indices *)

Lemma unravel_in_bounds shape k :
  (k < prod_shape shape)%nat -> in_bounds shape (unravel_index_F shape k).
Proof.
  revert k. induction shape as [|d rest IH]; intros k Hk; [constructor|].
  simpl in Hk. assert (d <> 0)%nat by (intros ->; simpl in Hk; lia).
  constructor.
  - by apply Nat.mod_upper_bound.
  - apply IH. apply Nat.Div0.div_lt_upper_bound. lia.
Qed.

Lemma ravel_unravel shape k :
  (k < prod_shape shape)%nat -> ravel_index_F shape (unravel_index_F shape k) = k.
Proof.
  revert k. induction shape as [|d rest IH]; intros k Hk; simpl in *; [lia|].
  assert (d <> 0)%nat by (intros ->; simpl in Hk; lia).
  rewrite IH by (apply Nat.Div0.div_lt_upper_bound; lia).
  pose proof (Nat.div_mod_eq k d). lia.
Qed.

Lemma unravel_ravel shape idx :
  in_bounds shape idx ->
  unravel_index_F shape (ravel_index_F shape idx) = idx /\
  (ravel_index_F shape idx < prod_shape shape)%nat.
Proof.
  unfold in_bounds. induction 1 as [|i d idx rest Hi _ [IH1 IH2]]; simpl; [split; [done|lia]|].
  assert (d <> 0)%nat by lia.
  replace (i + d * ravel_index_F rest idx)%nat
    with (i + ravel_index_F rest idx * d)%nat by lia.
  rewrite Nat.Div0.mod_add, Nat.div_add, Nat.mod_small, Nat.div_small by lia.
  simpl. rewrite IH1. split; [done|nia].
Qed.

Lemma subplot_indices_spec (shape : list nat) :
  shape <> [] ->
  get_subplot_indices shape = Ok (map (unravel_index_F shape) (seq 0 (prod_shape shape))) /\
  Forall (in_bounds shape) (map (unravel_index_F shape) (seq 0 (prod_shape shape))) /\
  NoDup (map (unravel_index_F shape) (seq 0 (prod_shape shape))) /\
  (forall idx, in_bounds shape idx ->
     In idx (map (unravel_index_F shape) (seq 0 (prod_shape shape)))).
Proof.
  intros Hne. split; [by destruct shape|]. split; [|split].
  - apply List.Forall_forall. intros idx Hin. apply in_map_iff in Hin as (k & <- & Hk).
    apply in_seq in Hk. apply unravel_in_bounds. lia.
  - apply NoDup_ListNoDup, Finite.Injective_map_NoDup_in; [|apply seq_NoDup].
    intros j k Hj Hk Heq. apply in_seq in Hj, Hk.
    rewrite <- (ravel_unravel shape j), <- (ravel_unravel shape k) by lia. by rewrite Heq.
  - intros idx Hidx. destruct (unravel_ravel shape idx Hidx) as [Heq Hlt].
    apply in_map_iff. exists (ravel_index_F shape idx). split; [done|].
    apply in_seq. lia.
Qed.

(** X13: for an array of axes with at least one dimension,
    [get_subplot_indices] returns every cell of the array exactly once: as
    many subscripts as there are cells, each within the shape, none twice,
    and none missing. *)
Theorem get_subplot_indices_every_cell_once :
  forall axs_shape : list nat,
    axs_shape <> [] ->
    exists idx_axs,
      get_subplot_indices axs_shape = Ok idx_axs /\
      length idx_axs = prod_shape axs_shape /\
      Forall (in_bounds axs_shape) idx_axs /\
      NoDup idx_axs /\
      (forall idx, in_bounds axs_shape idx -> In idx idx_axs).
Proof.
  intros shape Hne.
  destruct (subplot_indices_spec shape Hne) as (Hget & Hb & Hnd & Hall).
  eexists. split; [exact Hget|]. split; [by rewrite length_map, length_seq|].
  by repeat split.
Qed.

(** X14: the subscripts come in column-major order: the one at position [k]
    is the cell whose flat index, first axis fastest, is [k]; in a grid of
    [nrows] x [ncols] it is row [k mod nrows], column [k / nrows]. *)
Theorem get_subplot_indices_column_major :
  forall (axs_shape : list nat) (idx_axs : list (list nat)) (k : nat) (idx : list nat),
    get_subplot_indices axs_shape = Ok idx_axs ->
    nth_error idx_axs k = Some idx ->
    ravel_index_F axs_shape idx = k /\
    (forall nrows ncols, axs_shape = [nrows; ncols] ->
       idx = [(k mod nrows)%nat; (k / nrows)%nat]).
Proof.
  intros shape idxs k idx Hget Hnth.
  assert (Hidxs : idxs = map (unravel_index_F shape) (seq 0 (prod_shape shape))).
  { destruct shape; [discriminate|]. by injection Hget as <-. }
  subst idxs. rewrite nth_error_map in Hnth.
  destruct (nth_error (seq 0 (prod_shape shape)) k) as [k'|] eqn:Hk; [|discriminate].
  injection Hnth as <-.
  assert (Hlt : (k < prod_shape shape)%nat).
  { rewrite <- (length_seq (prod_shape shape) 0). apply nth_error_Some. by rewrite Hk. }
  rewrite nth_error_seq in Hk. apply Nat.ltb_lt in Hlt as Hltb. rewrite Hltb in Hk.
  injection Hk as <-. simpl.
  split; [by apply ravel_unravel|].
  intros nrows ncols ->. simpl in *.
  assert (nrows <> 0)%nat by (intros ->; simpl in Hlt; lia).
  rewrite (Nat.mod_small (k / nrows) ncols); [done|].
  apply Nat.Div0.div_lt_upper_bound. lia.
Qed.

(** ** plot_image_grid *)

Section GridProps.

Variable image : Type.

Lemma axes_at_insert (fig : gmap (list nat) (axes_state image)) idx ax :
  axes_at (<[idx := ax]> fig) idx = ax.
Proof. unfold axes_at. by rewrite lookup_insert_eq. Qed.

(** One round of the loop, for position [ii] and the axes at [idx]. *)
Lemma plot_image_grid_round images labels show_axis cmap ii idx rest fig img :
  nth_error images ii = Some img ->
  match labels with Some ls => (ii < length ls)%nat | None => True end ->
  plot_image_grid_loop image images labels show_axis cmap ii (idx :: rest) fig =
  plot_image_grid_loop image images labels show_axis cmap (S ii) rest
    (<[idx := Axes (Some (img, cmap))
                 match labels with
                 | Some ls => nth_error ls ii
                 | None => ax_title (axes_at fig idx)
                 end
                 (Some show_axis)]> fig).
Proof.
  intros Himg Hlab. cbn [plot_image_grid_loop].
  unfold py_index at 1. rewrite Himg. unfold bind at 1, ret at 1.
  unfold bind at 1, set_axes at 1, modify at 1.
  destruct labels as [ls|].
  - destruct (nth_error ls ii) as [lbl|] eqn:Hlbl.
    2:{ apply nth_error_None in Hlbl. lia. }
    unfold bind at 1. unfold bind at 1. unfold py_index at 1. rewrite Hlbl. unfold ret at 1.
    unfold set_axes at 1, modify at 1. unfold bind at 1, set_axes at 1, modify at 1.
    rewrite !axes_at_insert. cbn [ax_image ax_title ax_axis].
    by rewrite !insert_insert_eq.
  - unfold bind at 1. unfold bind at 1. unfold ret at 1.
    unfold set_axes at 1, modify at 1.
    rewrite !axes_at_insert. cbn [ax_image ax_title ax_axis].
    by rewrite !insert_insert_eq.
Qed.

Lemma plot_image_grid_loop_ok images labels show_axis cmap idxs :
  forall ii fig,
    NoDup idxs ->
    (ii + length idxs <= length images)%nat ->
    match labels with Some ls => (ii + length idxs <= length ls)%nat | None => True end ->
    exists fig',
      plot_image_grid_loop image images labels show_axis cmap ii idxs fig = (Ok tt, fig') /\
      (forall j idx,
         nth_error idxs j = Some idx ->
         exists img,
           nth_error images (ii + j) = Some img /\
           axes_at fig' idx =
             Axes (Some (img, cmap))
                  match labels with
                  | Some ls => nth_error ls (ii + j)
                  | None => ax_title (axes_at fig idx)
                  end
                  (Some show_axis)) /\
      (forall idx, ~ In idx idxs -> fig' !! idx = fig !! idx).
Proof.
  induction idxs as [|idx0 rest IH]; intros ii fig Hnd Hlen Hlab.
  - exists fig. split; [reflexivity|]. split; [|done]. intros [|j] idx; discriminate.
  - simpl length in Hlen. apply NoDup_cons in Hnd as [Hnotin Hnd].
    rewrite list_elem_of_In in Hnotin.
    destruct (nth_error images ii) as [img|] eqn:Himg.
    2:{ apply nth_error_None in Himg. lia. }
    rewrite (plot_image_grid_round _ _ _ _ _ _ _ _ img Himg)
      by (destruct labels; [simpl length in Hlab; lia|done]).
    edestruct (IH (S ii)) as (fig' & Hloop & Hcells & Hothers);
      [exact Hnd|lia|destruct labels; [simpl length in Hlab; lia|done]|].
    exists fig'. split; [exact Hloop|]. split.
    + intros [|j] idx Hj.
      * injection Hj as <-. exists img. rewrite Nat.add_0_r. split; [done|].
        unfold axes_at at 1. rewrite (Hothers idx0 Hnotin), lookup_insert_eq. reflexivity.
      * cbn [nth_error] in Hj. destruct (Hcells j idx Hj) as (img' & Himg' & Hax).
        exists img'. replace (ii + S j)%nat with (S ii + j)%nat by lia.
        split; [done|]. rewrite Hax. f_equal.
        destruct labels; [done|]. unfold axes_at at 1.
        rewrite lookup_insert_ne; [done|]. intros ->. apply Hnotin.
        by eapply nth_error_In.
    + intros idx Hidx. rewrite (Hothers idx) by (intros H; apply Hidx; by right).
      rewrite lookup_insert_ne; [done|]. intros ->. apply Hidx. by left.
Qed.


Lemma subplot_indices_nth shape idx :
  in_bounds shape idx ->
  nth_error (map (unravel_index_F shape) (seq 0 (prod_shape shape)))
            (ravel_index_F shape idx) = Some idx.
Proof.
  intros Hidx. destruct (unravel_ravel shape idx Hidx) as [Heq Hlt].
  rewrite nth_error_map, nth_error_seq.
  apply Nat.ltb_lt in Hlt. rewrite Hlt. simpl. by rewrite Heq.
Qed.

Lemma subplots_shape nrows ncols shape :
  subplots nrows ncols = Ok (AxesArray shape) -> shape <> [].
Proof.
  unfold subplots. intros H ->.
  destruct (_ || _); [discriminate|]. destruct (_ && _); [discriminate|].
  destruct (nrows =? 1)%nat; [discriminate|]. by destruct (ncols =? 1)%nat.
Qed.

(** X15: with at least as many images (and labels, when given) as the grid
    has cells, [plot_image_grid] returns the array of axes, and every cell
    shows one image, column by column: the cell with subscripts [idx] shows
    the image whose position is the column-major flat index of [idx], with
    the label at that position as title and the axis switched as asked; in a
    two-dimensional grid, cell [(r, c)] shows [images[r + nrows * c]]. *)
Theorem plot_image_grid_fills_column_major :
  forall (images : list image) (labels : option (list string)) (nrows ncols : nat)
         (show_axis : string) (cmap : option string) (shape : list nat)
         (fig0 : gmap (list nat) (axes_state image)),
    subplots nrows ncols = Ok (AxesArray shape) ->
    (prod_shape shape <= length images)%nat ->
    match labels with Some ls => (prod_shape shape <= length ls)%nat | None => True end ->
    exists fig,
      plot_image_grid image images labels (nrows, ncols) show_axis cmap fig0
        = (Ok shape, fig) /\
      (forall idx, in_bounds shape idx ->
         exists img,
           nth_error images (ravel_index_F shape idx) = Some img /\
           axes_at fig idx =
             Axes (Some (img, default "viridis" cmap))
                  match labels with
                  | Some ls => nth_error ls (ravel_index_F shape idx)
                  | None => None
                  end
                  (Some show_axis)) /\
      (forall r c, shape = [nrows; ncols] -> (r < nrows)%nat -> (c < ncols)%nat ->
         exists img,
           nth_error images (r + nrows * c) = Some img /\
           ax_image (axes_at fig [r; c]) = Some (img, default "viridis" cmap)).
Proof.
  intros images labels nrows ncols show_axis cmap shape fig0 Hsub Himgs Hlabs.
  destruct (subplot_indices_spec shape (subplots_shape _ _ _ Hsub))
    as (Hget & _ & Hnd & _).
  destruct (plot_image_grid_loop_ok images labels show_axis (default "viridis" cmap)
              (map (unravel_index_F shape) (seq 0 (prod_shape shape))) 0 ∅)
    as (fig & Hloop & Hcells & _).
  { exact Hnd. }
  { rewrite length_map, length_seq. simpl. exact Himgs. }
  { destruct labels; [|done]. rewrite length_map, length_seq. simpl. exact Hlabs. }
  assert (Hall : forall idx, in_bounds shape idx ->
            exists img,
              nth_error images (ravel_index_F shape idx) = Some img /\
              axes_at fig idx =
                Axes (Some (img, default "viridis" cmap))
                     match labels with
                     | Some ls => nth_error ls (ravel_index_F shape idx)
                     | None => None
                     end
                     (Some show_axis)).
  { intros idx Hidx.
    destruct (Hcells _ _ (subplot_indices_nth shape idx Hidx)) as (img & Himg & Hax).
    exists img. split; [exact Himg|]. rewrite Hax. by destruct labels. }
  exists fig. split; [|split; [exact Hall|]].
  - unfold plot_image_grid. cbn [fst snd]. rewrite Hsub, Hget.
    destruct cmap; unfold default, from_option, id in Hloop; by rewrite Hloop.
  - intros r c -> Hr Hc.
    destruct (Hall [r; c]) as (img & Himg & Hax).
    { repeat constructor; done. }
    exists img. cbn [ravel_index_F] in Himg.
    replace (r + nrows * (c + ncols * 0))%nat with (r + nrows * c)%nat in Himg by lia.
    split; [exact Himg|]. by rewrite Hax.
Qed.


End GridProps.

Lemma get_subplot_indices_every_cell_once_witness :
  exists idx_axs,
    get_subplot_indices [2; 3]%nat = Ok idx_axs /\
    length idx_axs = prod_shape [2; 3]%nat /\
    Forall (in_bounds [2; 3]%nat) idx_axs /\
    NoDup idx_axs /\
    (forall idx, in_bounds [2; 3]%nat idx -> In idx idx_axs).
Proof. apply (get_subplot_indices_every_cell_once [2; 3]%nat). discriminate. Defined.

Lemma get_subplot_indices_column_major_witness :
  ravel_index_F [2; 3]%nat [1; 1]%nat = 3%nat /\
  (forall nrows ncols, [2; 3]%nat = [nrows; ncols] ->
     [1; 1]%nat = [(3 mod nrows)%nat; (3 / nrows)%nat]).
Proof.
  apply (get_subplot_indices_column_major [2; 3]%nat
           [[0; 0]; [1; 0]; [0; 1]; [1; 1]; [0; 2]; [1; 2]]%nat 3 [1; 1]%nat);
    reflexivity.
Defined.

Lemma plot_image_grid_fills_column_major_witness :
  exists fig,
    plot_image_grid string ["a"; "b"; "c"; "d"; "e"; "f"; "g"] None (2, 3)%nat "off" None ∅
      = (Ok [2; 3]%nat, fig) /\
    (forall idx, in_bounds [2; 3]%nat idx ->
       exists img,
         nth_error ["a"; "b"; "c"; "d"; "e"; "f"; "g"] (ravel_index_F [2; 3]%nat idx)
           = Some img /\
         axes_at fig idx = Axes (Some (img, default "viridis" None)) None (Some "off")) /\
    (forall r c, [2; 3]%nat = [2; 3]%nat -> (r < 2)%nat -> (c < 3)%nat ->
       exists img,
         nth_error ["a"; "b"; "c"; "d"; "e"; "f"; "g"] (r + 2 * c) = Some img /\
         ax_image (axes_at fig [r; c]) = Some (img, default "viridis" None)).
Proof.
  apply (plot_image_grid_fills_column_major string
           ["a"; "b"; "c"; "d"; "e"; "f"; "g"] None 2 3 "off" None [2; 3]%nat ∅).
  - reflexivity.
  - simpl. lia.
  - exact I.
Defined.


(** ** simple_cmap *)

Section CmapMore.

Variable named_colors : string -> option rgb.

Lemma cdict_loop_prefix n cols :
  forall i cd,
    (forall k, (k < length (red cd))%nat ->
       nth_error (red (cdict_loop n i cols cd)) k = nth_error (red cd) k) /\
    (forall k, (k < length (green cd))%nat ->
       nth_error (green (cdict_loop n i cols cd)) k = nth_error (green cd) k) /\
    (forall k, (k < length (blue cd))%nat ->
       nth_error (blue (cdict_loop n i cols cd)) k = nth_error (blue cd) k).
Proof.
  induction cols as [|[[r g] b] rest IH]; intros i cd; [done|].
  cbn [cdict_loop].
  destruct (IH (S i) (Cdict (red cd ++ [(position i n, r, r)])
                            (green cd ++ [(position i n, g, g)])
                            (blue cd ++ [(position i n, b, b)]))) as (Hr & Hg & Hb).
  cbn [red green blue] in Hr, Hg, Hb.
  repeat split; intros k Hk.
  - rewrite Hr by (rewrite length_app; simpl; lia). by apply nth_error_app1.
  - rewrite Hg by (rewrite length_app; simpl; lia). by apply nth_error_app1.
  - rewrite Hb by (rewrite length_app; simpl; lia). by apply nth_error_app1.
Qed.

Lemma cdict_loop_nth n cols :
  forall i cd k r g b,
    nth_error cols k = Some (r, g, b) ->
    nth_error (red (cdict_loop n i cols cd)) (length (red cd) + k)
      = Some (position (i + k) n, r, r) /\
    nth_error (green (cdict_loop n i cols cd)) (length (green cd) + k)
      = Some (position (i + k) n, g, g) /\
    nth_error (blue (cdict_loop n i cols cd)) (length (blue cd) + k)
      = Some (position (i + k) n, b, b).
Proof.
  induction cols as [|[[r0 g0] b0] rest IH]; intros i cd k r g b Hk.
  - by destruct k.
  - cbn [cdict_loop].
    set (cd' := Cdict (red cd ++ [(position i n, r0, r0)])
                      (green cd ++ [(position i n, g0, g0)])
                      (blue cd ++ [(position i n, b0, b0)])).
    destruct k as [|k].
    + injection Hk as -> -> ->. rewrite !Nat.add_0_r.
      destruct (cdict_loop_prefix n rest (S i) cd') as (Hr & Hg & Hb).
      rewrite Hr, Hg, Hb by (unfold cd'; cbn [red green blue]; rewrite length_app; simpl; lia).
      unfold cd'. cbn [red green blue].
      rewrite !nth_error_app2, !Nat.sub_diag by lia. done.
    + cbn [nth_error] in Hk.
      destruct (IH (S i) cd' k r g b Hk) as (Hr & Hg & Hb).
      unfold cd' in Hr, Hg, Hb at 2. cbn [red green blue] in Hr, Hg, Hb.
      rewrite !length_app in Hr, Hg, Hb. cbn [length] in Hr, Hg, Hb.
      replace (i + S k)%nat with (S i + k)%nat by lia.
      replace (length (red cd) + S k)%nat with (length (red cd) + 1 + k)%nat by lia.
      replace (length (green cd) + S k)%nat with (length (green cd) + 1 + k)%nat by lia.
      replace (length (blue cd) + S k)%nat with (length (blue cd) + 1 + k)%nat by lia.
      done.
Qed.

Lemma to_rgb_all_nth colors l :
  to_rgb_all named_colors colors = Ok l ->
  length l = length colors /\
  forall i c, nth_error colors i = Some c ->
    exists v, to_rgb named_colors c = Ok v /\ nth_error l i = Some v.
Proof.
  revert l. induction colors as [|c0 rest IH]; intros l Hl; simpl in Hl.
  - injection Hl as <-. split; [done|]. by intros [|i].
  - destruct (to_rgb named_colors c0) as [v0|] eqn:E0; [|discriminate]. simpl in Hl.
    destruct (to_rgb_all named_colors rest) as [l'|] eqn:El; [|discriminate]. simpl in Hl.
    injection Hl as <-. destruct (IH l' eq_refl) as [Hlen Hnth].
    split; [simpl; by rewrite Hlen|].
    intros [|i] c Hc; simpl in Hc.
    + injection Hc as <-. by exists v0.
    + by apply Hnth.
Qed.

(** What a successful call has computed. *)
Lemma simple_cmap_inv colors under over bad name cm :
  simple_cmap named_colors colors under over bad name = Ok cm ->
  exists r g b tl vb vo vu,
    (2 <= length colors)%nat /\
    to_rgb_all named_colors colors = Ok ((r, g, b) :: tl) /\
    to_rgb named_colors bad = Ok vb /\
    to_rgb named_colors over = Ok vo /\
    to_rgb named_colors under = Ok vu /\
    cm = Colormap name
           (cdict_loop (length colors) 0 tl
              (Cdict [(0%Q, r, r)] [(0%Q, g, g)] [(0%Q, b, b)]))
           256 (Some vb) (Some vo) (Some vu).
Proof.
  unfold simple_cmap.
  destruct (Nat.leb_spec (length colors) 1) as [|Hlen]; [discriminate|].
  destruct (to_rgb_all named_colors colors) as [[|[[r g] b] tl]|]; try discriminate.
  cbn [obind].
  destruct (to_rgb named_colors bad) as [vb|]; [|discriminate]. cbn [obind].
  destruct (to_rgb named_colors over) as [vo|]; [|discriminate]. cbn [obind].
  destruct (to_rgb named_colors under) as [vu|]; [|discriminate]. cbn [obind].
  intros [= <-]. exists r, g, b, tl, vb, vo, vu. repeat split; try reflexivity. lia.
Qed.

Lemma position_pred n i : (0 < i)%nat ->
  position (i - 1) n = (Z.of_nat i # Pos.of_nat (n - 1)).
Proof. intros Hi. unfold position. by replace (i - 1 + 1)%nat with i by lia. Qed.

Lemma simple_cmap_points colors under over bad name cm :
  simple_cmap named_colors colors under over bad name = Ok cm ->
  forall i c, nth_error colors i = Some c ->
    exists r g b x,
      to_rgb named_colors c = Ok (r, g, b) /\
      (x == Z.of_nat i # Pos.of_nat (length colors - 1))%Q /\
      nth_error (red (segmentdata cm)) i = Some (x, r, r) /\
      nth_error (green (segmentdata cm)) i = Some (x, g, g) /\
      nth_error (blue (segmentdata cm)) i = Some (x, b, b).
Proof.
  intros Hcm i c Hc.
  destruct (simple_cmap_inv _ _ _ _ _ _ Hcm)
    as (r0 & g0 & b0 & tl & vb & vo & vu & Hlen & Hall & _ & _ & _ & ->).
  destruct (to_rgb_all_nth _ _ Hall) as [_ Hnth].
  destruct (Hnth i c Hc) as ([[r g] b] & Hv & Hi).
  cbn [segmentdata]. set (cd0 := Cdict [(0%Q, r0, r0)] [(0%Q, g0, g0)] [(0%Q, b0, b0)]).
  destruct i as [|i].
  - injection Hi as <- <- <-. exists r0, g0, b0, 0%Q. split; [exact Hv|].
    split; [reflexivity|].
    destruct (cdict_loop_prefix (length colors) tl 0 cd0) as (Hr & Hg & Hb).
    rewrite Hr, Hg, Hb by (simpl; lia). done.
  - cbn [nth_error] in Hi.
    destruct (cdict_loop_nth (length colors) tl 0 cd0 i r g b Hi) as (Hr & Hg & Hb).
    exists r, g, b, (position i (length colors)). split; [exact Hv|].
    split; [|done].
    rewrite <- (position_pred (length colors) (S i)) by lia.
    by replace (S i - 1)%nat with i by lia.
Qed.

(** X17: the colormap [simple_cmap] returns passes through every colour it
    was given: in each channel the control point number [i] sits at
    [i / (n_colors - 1)] and carries the channel of colour [i] on both sides
    (no jump); the map has 256 levels, the given name, and the converted
    [bad], [over] and [under] colours. *)
Theorem simple_cmap_control_points :
  forall (colors : list color_spec) (under over bad : color_spec) (name : string)
         (cm : colormap),
    simple_cmap named_colors colors under over bad name = Ok cm ->
    (forall i c, nth_error colors i = Some c ->
       exists r g b x,
         to_rgb named_colors c = Ok (r, g, b) /\
         (x == Z.of_nat i # Pos.of_nat (length colors - 1))%Q /\
         nth_error (red (segmentdata cm)) i = Some (x, r, r) /\
         nth_error (green (segmentdata cm)) i = Some (x, g, g) /\
         nth_error (blue (segmentdata cm)) i = Some (x, b, b)) /\
    length (red (segmentdata cm)) = length colors /\
    length (green (segmentdata cm)) = length colors /\
    length (blue (segmentdata cm)) = length colors /\
    N cm = 256%nat /\ cmap_name cm = name /\
    Ok <$> rgba_bad cm = Some (to_rgb named_colors bad) /\
    Ok <$> rgba_over cm = Some (to_rgb named_colors over) /\
    Ok <$> rgba_under cm = Some (to_rgb named_colors under).
Proof.
  intros colors under over bad name cm Hcm.
  split; [exact (simple_cmap_points _ _ _ _ _ _ Hcm)|].
  destruct (simple_cmap_inv _ _ _ _ _ _ Hcm)
    as (r0 & g0 & b0 & tl & vb & vo & vu & Hlen & Hall & -> & -> & -> & ->).
  destruct (to_rgb_all_nth _ _ Hall) as [Hl _]. simpl in Hl.
  cbn [segmentdata N cmap_name rgba_bad rgba_over rgba_under].
  destruct (cdict_loop_positions (length colors) 0 tl
              (Cdict [(0%Q, r0, r0)] [(0%Q, g0, g0)] [(0%Q, b0, b0)])) as (Hr & Hg & Hb).
  apply (f_equal (@length Q)) in Hr, Hg, Hb.
  rewrite !length_map, length_app, !length_map, length_seq in Hr, Hg, Hb.
  simpl in Hr, Hg, Hb.
  repeat split; try done; lia.
Qed.

Lemma to_rgb_raises c e : to_rgb named_colors c = Raise e -> exn_cls e = ValueError.
Proof.
  destruct c as [r g b|nm]; simpl.
  - destruct (_ && _); [discriminate|]. by intros [= <-].
  - destruct (named_colors nm); [discriminate|]. by intros [= <-].
Qed.

Lemma to_rgb_all_raises colors e :
  to_rgb_all named_colors colors = Raise e -> exn_cls e = ValueError.
Proof.
  induction colors as [|c rest IH]; simpl; [discriminate|].
  destruct (to_rgb named_colors c) as [v|e'] eqn:Ec; simpl.
  - destruct (to_rgb_all named_colors rest) as [l|e'']; simpl; [discriminate|].
    intros [= <-]. by apply IH.
  - intros [= <-]. by eapply to_rgb_raises.
Qed.

Lemma to_rgb_all_valid colors l :
  to_rgb_all named_colors colors = Ok l -> Forall (valid_color named_colors) colors.
Proof.
  revert l. induction colors as [|c rest IH]; intros l; simpl; [constructor|].
  destruct (to_rgb named_colors c) as [v|] eqn:Ec; [|discriminate]. simpl.
  destruct (to_rgb_all named_colors rest) as [l'|]; [|discriminate]. simpl. intros _.
  constructor; [|by eapply IH]. unfold valid_color. by rewrite Ec.
Qed.

(** X18: [simple_cmap] returns a colormap exactly when it is given at least
    two colours and every colour, [bad], [over] and [under] included, is one
    the converter accepts; whenever it fails, the exception is a
    [ValueError]. *)
Theorem simple_cmap_succeeds_iff_valid :
  forall (colors : list color_spec) (under over bad : color_spec) (name : string),
    (is_ok (simple_cmap named_colors colors under over bad name) = true <->
     (2 <= length colors)%nat /\
     Forall (valid_color named_colors) colors /\
     valid_color named_colors bad /\
     valid_color named_colors over /\
     valid_color named_colors under) /\
    (forall e, simple_cmap named_colors colors under over bad name = Raise e ->
       exn_cls e = ValueError).
Proof.
  intros colors under over bad name. split; [split|].
  - destruct (simple_cmap named_colors colors under over bad name) as [cm|] eqn:Hcm;
      [intros _|discriminate].
    destruct (simple_cmap_inv _ _ _ _ _ _ Hcm)
      as (r0 & g0 & b0 & tl & vb & vo & vu & Hlen & Hall & Hb & Ho & Hu & _).
    split; [exact Hlen|]. split; [by eapply to_rgb_all_valid|].
    unfold valid_color. by rewrite Hb, Ho, Hu.
  - intros (Hlen & Hcolors & Hbad & Hover & Hunder). unfold simple_cmap.
    destruct (Nat.leb_spec (length colors) 1) as [H|_]; [lia|].
    destruct (to_rgb_all_ok named_colors colors Hcolors) as (l & -> & Hl).
    destruct (valid_color_ok _ _ Hunder) as (vu & ->).
    destruct (valid_color_ok _ _ Hover) as (vo & ->).
    destruct (valid_color_ok _ _ Hbad) as (vb & ->).
    destruct l as [|[[r g] b] tl]; [simpl in Hl; lia|]. reflexivity.
  - intros e. unfold simple_cmap.
    destruct (Nat.leb_spec (length colors) 1) as [|Hlen]; [by intros [= <-]|].
    destruct (to_rgb_all named_colors colors) as [l|e'] eqn:Hall; cbn [obind].
    2:{ intros [= <-]. by eapply to_rgb_all_raises. }
    destruct (to_rgb_all_nth _ _ Hall) as [Hl _].
    destruct l as [|[[r g] b] tl]; [simpl in Hl; lia|].
    destruct (to_rgb named_colors bad) as [vb|e'] eqn:Hb; cbn [obind].
    2:{ intros [= <-]. by eapply to_rgb_raises. }
    destruct (to_rgb named_colors over) as [vo|e'] eqn:Ho; cbn [obind].
    2:{ intros [= <-]. by eapply to_rgb_raises. }
    destruct (to_rgb named_colors under) as [vu|e'] eqn:Hu; cbn [obind].
    2:{ intros [= <-]. by eapply to_rgb_raises. }
    discriminate.
Qed.

Lemma sorted_increasing (x : list Q) : StronglySorted Qlt x -> increasing x = true.
Proof.
  induction 1 as [|a l Hs IH Ha]; [done|].
  destruct l as [|b l']; [done|].
  change (Qle_bool a b && increasing (b :: l') = true). rewrite IH, andb_true_r.
  apply Qle_bool_iff, Qlt_le_weak. by inversion Ha.
Qed.

Lemma last_nth_error {A} (l : list A) (a d : A) :
  nth_error l (length l - 1) = Some a -> List.last l d = a.
Proof.
  induction l as [|b l IH]; [done|].
  destruct l as [|c l']; [by intros [= <-]|].
  intros H. change (List.last (b :: c :: l') d) with (List.last (c :: l') d).
  apply IH. simpl in *. by rewrite Nat.sub_0_r in *.
Qed.

(** The two ends of the lookup table of a channel whose points run from 0
    to 1. *)
Lemma lookup_table_ends n m (data : list control_point) :
  (2 <= n)%nat -> (2 <= m)%nat -> well_positioned m data ->
  exists lut,
    create_lookup_table n data = Ok lut /\
    nthQ lut 0 = clip01 (nthQ (map cp_y1 data) 0) /\
    nthQ lut (n - 1) = clip01 (List.last (map cp_y0 data) 0%Q).
Proof.
  intros Hn Hm (Hlen & Hsorted & Hhd & Hlast). unfold create_lookup_table.
  assert (H0 : Qeq_bool (nthQ (map cp_x data) 0) 0 = true).
  { apply Qeq_bool_iff. destruct data; [simpl in Hlen; lia|exact Hhd]. }
  assert (H1 : Qeq_bool (List.last (map cp_x data) 0%Q) 1 = true)
    by by apply Qeq_bool_iff.
  rewrite H0, H1, (sorted_increasing _ Hsorted). cbn [andb negb].
  eexists. split; [reflexivity|]. split; [reflexivity|].
  rewrite nthQ_clip01. f_equal. unfold nthQ at 1.
  rewrite app_assoc, app_nth2; rewrite length_app, length_map, length_seq; simpl; [|lia].
  replace (n - 1 - S (n - 2))%nat with 0%nat by lia. reflexivity.
Qed.

Hypothesis named_colors_in_unit :
  forall s c, named_colors s = Some c -> rgb_in_unit c = true.

(** X19: the colormap [simple_cmap] returns maps 0 to the first colour
    given and 1 to the last; a value below 0 gets the [under] colour and a
    value above 1 the [over] colour. *)
Theorem simple_cmap_call_ends_and_outside :
  forall (colors : list color_spec) (under over bad : color_spec) (name : string)
         (cm : colormap) (c_first c_last : color_spec),
    simple_cmap named_colors colors under over bad name = Ok cm ->
    nth_error colors 0 = Some c_first ->
    nth_error colors (length colors - 1) = Some c_last ->
    colormap_call cm 0 = to_rgb named_colors c_first /\
    colormap_call cm 1 = to_rgb named_colors c_last /\
    (forall X : Q, (X < 0)%Q -> colormap_call cm X = to_rgb named_colors under) /\
    (forall X : Q, (1 < X)%Q -> colormap_call cm X = to_rgb named_colors over).
Proof.
  intros colors under over bad name cm c_first c_last Hcm Hfirst Hlast.
  destruct (simple_cmap_points _ _ _ _ _ _ Hcm 0%nat c_first Hfirst)
    as (r0 & g0 & b0 & x0 & E0 & _ & Hr0 & Hg0 & Hb0).
  destruct (simple_cmap_points _ _ _ _ _ _ Hcm _ c_last Hlast)
    as (r1 & g1 & b1 & x1 & E1 & _ & Hr1 & Hg1 & Hb1).
  pose proof (to_rgb_in_unit _ named_colors_in_unit _ _ E0) as U0.
  pose proof (to_rgb_in_unit _ named_colors_in_unit _ _ E1) as U1.
  simpl in U0, U1.
  apply andb_prop in U0 as [U0 Ub0]. apply andb_prop in U0 as [Ur0 Ug0].
  apply andb_prop in U1 as [U1 Ub1]. apply andb_prop in U1 as [Ur1 Ug1].
  destruct (simple_cmap_inv _ _ _ _ _ _ Hcm)
    as (r & g & b & tl & vb & vo & vu & Hlen & Hall & Ebad & Eover & Eunder & Ecm).
  assert (Hwp : well_positioned (length colors) (red (segmentdata cm)) /\
                well_positioned (length colors) (green (segmentdata cm)) /\
                well_positioned (length colors) (blue (segmentdata cm))).
  { rewrite Ecm. cbn [segmentdata].
    destruct (to_rgb_all_nth _ _ Hall) as [Hl _]. simpl in Hl.
    destruct (cdict_loop_positions (length colors) 0 tl
                (Cdict [(0%Q, r, r)] [(0%Q, g, g)] [(0%Q, b, b)])) as (Hr & Hg & Hb).
    simpl in Hr, Hg, Hb.
    assert (Hlens : forall ch : list control_point,
               map cp_x ch
                 = 0%Q :: map (fun j => position j (length colors)) (seq 0 (length tl)) ->
               length ch = length colors).
    { intros ch Hch. rewrite <- (length_map cp_x ch), Hch. simpl.
      rewrite length_map, length_seq. exact Hl. }
    assert (Htl : length tl = (length colors - 1)%nat).
    { rewrite <- Hl. simpl. by rewrite Nat.sub_0_r. }
    split; [|split];
      (eapply gradient_well_positioned; [lia | exact Htl | | eassumption]);
      by apply Hlens. }
  destruct Hwp as (Wr & Wg & Wb).
  assert (HN : N cm = 256%nat) by by rewrite Ecm.
  assert (Hover : rgba_over cm = Some vo) by by rewrite Ecm.
  assert (Hunder : rgba_under cm = Some vu) by by rewrite Ecm.
  destruct (lookup_table_ends 256 _ _ ltac:(lia) Hlen Wr) as (lr & Elr & Hlr0 & Hlr1).
  destruct (lookup_table_ends 256 _ _ ltac:(lia) Hlen Wg) as (lg & Elg & Hlg0 & Hlg1).
  destruct (lookup_table_ends 256 _ _ ltac:(lia) Hlen Wb) as (lb & Elb & Hlb0 & Hlb1).
  assert (Hends : forall (ch : list control_point) x0' y x1' z,
            length ch = length colors ->
            nth_error ch 0 = Some (x0', y, y) ->
            nth_error ch (length colors - 1) = Some (x1', z, z) ->
            nthQ (map cp_y1 ch) 0 = y /\ List.last (map cp_y0 ch) 0%Q = z).
  { intros ch x0' y x1' z Hl H0 H1. split.
    - destruct ch as [|p ch]; [discriminate|]. by injection H0 as ->.
    - apply last_nth_error. rewrite length_map, Hl, nth_error_map, H1. reflexivity. }
  destruct Wr as [Lr _], Wg as [Lg _], Wb as [Lb _].
  destruct (Hends _ _ _ _ _ Lr Hr0 Hr1) as [Er0 Er1].
  destruct (Hends _ _ _ _ _ Lg Hg0 Hg1) as [Eg0 Eg1].
  destruct (Hends _ _ _ _ _ Lb Hb0 Hb1) as [Eb0 Eb1].
  rewrite Er0, clip01_in_unit in Hlr0 by assumption.
  rewrite Er1, clip01_in_unit in Hlr1 by assumption.
  rewrite Eg0, clip01_in_unit in Hlg0 by assumption.
  rewrite Eg1, clip01_in_unit in Hlg1 by assumption.
  rewrite Eb0, clip01_in_unit in Hlb0 by assumption.
  rewrite Eb1, clip01_in_unit in Hlb1 by assumption.
  unfold colormap_call. rewrite HN, Hover, Hunder, Elr, Elg, Elb, E0, E1, Eover, Eunder.
  cbn [obind default]. change (256 - 1)%nat with 255%nat in *.
  split; [|split; [|split]].
  - change (Qeq_bool (0 * (Z.of_nat 256 # 1)) (Z.of_nat 256 # 1)) with false.
    change (Qlt_bool (0 * (Z.of_nat 256 # 1)) 0) with false.
    change (Qle_bool (Z.of_nat 256 # 1) (0 * (Z.of_nat 256 # 1))) with false.
    cbn iota.
    change (Z.to_nat (Qnum (0 * (Z.of_nat 256 # 1)) / Z.pos (Qden (0 * (Z.of_nat 256 # 1)))))
      with 0%nat.
    by rewrite Hlr0, Hlg0, Hlb0.
  - change (Qeq_bool (1 * (Z.of_nat 256 # 1)) (Z.of_nat 256 # 1)) with true.
    cbn iota. by rewrite Hlr1, Hlg1, Hlb1.
  - intros X HX.
    assert (Hxa : (X * (Z.of_nat 256 # 1) < 0)%Q).
    { unfold Qlt in *. simpl in *. lia. }
    assert (Hne : Qeq_bool (X * (Z.of_nat 256 # 1)) (Z.of_nat 256 # 1) = false).
    { apply not_true_is_false. intros H. apply Qeq_bool_iff in H. rewrite H in Hxa.
      by vm_compute in Hxa. }
    assert (Hlt : Qlt_bool (X * (Z.of_nat 256 # 1)) 0 = true).
    { unfold Qlt_bool. apply negb_true_iff, not_true_is_false. intros H.
      apply Qle_bool_iff in H. by apply Qlt_not_le in Hxa. }
    by rewrite Hne, Hlt.
  - intros X HX.
    assert (Hxa : (Z.of_nat 256 # 1 < X * (Z.of_nat 256 # 1))%Q).
    { unfold Qlt in *. simpl in *. lia. }
    assert (Hne : Qeq_bool (X * (Z.of_nat 256 # 1)) (Z.of_nat 256 # 1) = false).
    { apply not_true_is_false. intros H. apply Qeq_bool_iff in H. rewrite H in Hxa.
      by apply Qlt_irrefl in Hxa. }
    assert (Hlt : Qlt_bool (X * (Z.of_nat 256 # 1)) 0 = false).
    { unfold Qlt_bool. apply negb_false_iff, Qle_bool_iff.
      apply Qlt_le_weak. eapply Qlt_trans; [|exact Hxa]. reflexivity. }
    assert (Hle : Qle_bool (Z.of_nat 256 # 1) (X * (Z.of_nat 256 # 1)) = true)
      by by apply Qle_bool_iff, Qlt_le_weak.
    by rewrite Hne, Hlt, Hle.
Qed.

End CmapMore.

Lemma simple_cmap_control_points_witness :
  exists cm,
    simple_cmap base_colors [Named "w"; RGB (1 # 2) 0 0; Named "r"]
      default_under default_over default_bad default_name = Ok cm /\
    (forall i c, nth_error [Named "w"; RGB (1 # 2) 0 0; Named "r"] i = Some c ->
       exists r g b x,
         to_rgb base_colors c = Ok (r, g, b) /\
         (x == Z.of_nat i # Pos.of_nat (3 - 1))%Q /\
         nth_error (red (segmentdata cm)) i = Some (x, r, r) /\
         nth_error (green (segmentdata cm)) i = Some (x, g, g) /\
         nth_error (blue (segmentdata cm)) i = Some (x, b, b)) /\
    length (red (segmentdata cm)) = 3%nat /\
    length (green (segmentdata cm)) = 3%nat /\
    length (blue (segmentdata cm)) = 3%nat /\
    N cm = 256%nat /\ cmap_name cm = default_name /\
    Ok <$> rgba_bad cm = Some (to_rgb base_colors default_bad) /\
    Ok <$> rgba_over cm = Some (to_rgb base_colors default_over) /\
    Ok <$> rgba_under cm = Some (to_rgb base_colors default_under).
Proof.
  eexists. split; [reflexivity|].
  apply (simple_cmap_control_points base_colors [Named "w"; RGB (1 # 2) 0 0; Named "r"]
           default_under default_over default_bad default_name).
  reflexivity.
Defined.

Lemma simple_cmap_call_ends_and_outside_witness :
  exists cm,
    simple_cmap base_colors [Named "w"; RGB (1 # 2) 0 0; Named "r"]
      default_under default_over default_bad default_name = Ok cm /\
    colormap_call cm 0 = to_rgb base_colors (Named "w") /\
    colormap_call cm 1 = to_rgb base_colors (Named "r") /\
    (forall X : Q, (X < 0)%Q -> colormap_call cm X = to_rgb base_colors default_under) /\
    (forall X : Q, (1 < X)%Q -> colormap_call cm X = to_rgb base_colors default_over).
Proof.
  eexists. split; [reflexivity|].
  apply (simple_cmap_call_ends_and_outside base_colors base_colors_in_unit
           [Named "w"; RGB (1 # 2) 0 0; Named "r"]
           default_under default_over default_bad default_name _
           (Named "w") (Named "r")); reflexivity.
Defined.


(** ** Select_ROI *)

Section ROIMore.

Variable cv2_polylines : ndarray -> list (Z * Z) -> outcome ndarray.
Variable skimage_draw_polygon : list Q -> list Q -> list (Z * Z).

(** What the rasterising loop leaves behind, however it ends. *)
Lemma mask_frames_loop_outcome refs :
  forall self ms,
    mask_frames self = Some ms ->
    exists o ms',
      mask_frames_loop skimage_draw_polygon refs self =
        (o, set_mask_frames (Some (ms ++ ms')) self) /\
      match o with
      | Ok _ => length ms' = length refs
      | Raise e => exn_cls e = IndexError /\ (length ms' < length refs)%nat
      end.
Proof.
  induction refs as [|r0 refs IH]; intros self ms Hms.
  - exists (Ok tt), []. by rewrite (set_mask_frames_same _ _ Hms).
  - cbn [mask_frames_loop]. unfold bind at 1.
    unfold mask_frame_of at 1. unfold bind at 1, get at 1.
    destruct (shape (_img_input self)) as [|h [|w rest]] eqn:Hshape;
      try (exists (Raise (Exn IndexError "tuple index out of range")), [];
           rewrite (set_mask_frames_same _ _ Hms); simpl; repeat split; lia).
    destruct (deref self r0) as [|p pts] eqn:Hd0.
    { exists (Raise (Exn IndexError "too many indices for array")), [].
      rewrite (set_mask_frames_same _ _ Hms). simpl. repeat split; lia. }
    unfold bind at 1, lift_outcome at 1.
    destruct (fill_mask h w _) as [m|e] eqn:Hfill.
    2:{ exists (Raise e), []. rewrite (set_mask_frames_same _ _ Hms). simpl.
        split; [reflexivity|]. split; [|lia].
        revert Hfill. unfold fill_mask. destruct (normalize_indices h w _); [discriminate|].
        by intros [= <-]. }
    rewrite Hms. unfold modify at 1.
    destruct (IH (set_mask_frames (Some (ms ++ [m])) self) (ms ++ [m]) eq_refl)
      as (o & ms' & Hloop & Ho).
    exists o, (m :: ms'). rewrite Hloop. simpl. rewrite <- app_assoc. simpl.
    split; [reflexivity|]. destruct o; simpl; [lia|]. split; [tauto|lia].
Qed.

(** The attributes after the confirm action, however it ends. *)
Lemma disconnect_mpl_fields self :
  exists o self' ms,
    _disconnect_mpl skimage_draw_polygon self = (o, self') /\
    _img_input self' = _img_input self /\
    lists self' = lists self /\
    selected_points self' = selected_points self ++ [_selected_points_last_ROI self] /\
    _selected_points_last_ROI self' = _selected_points_last_ROI self /\
    _completed_status self' = true /\
    _buttonRelease self' = false /\
    _img_current self' = _img_current self /\
    canvas_draws self' = canvas_draws self /\
    mask_frames self' = Some ms /\
    match o with
    | Ok _ => length ms = S (length (selected_points self)) /\
              printed self' = printed self ++ ["mask_frames computed"]
    | Raise e => exn_cls e = IndexError /\
                 (length ms <= length (selected_points self))%nat /\
                 printed self' = printed self
    end.
Proof.
  unfold _disconnect_mpl.
  unfold bind at 1, modify at 1. unfold bind at 1, modify at 1.
  unfold bind at 1, modify at 1. unfold bind at 1, modify at 1.
  unfold bind at 1, get at 1.
  set (s1 := set_mask_frames (Some []) _).
  destruct (mask_frames_loop_outcome (selected_points s1) s1 [] eq_refl)
    as (o & ms & Hloop & Ho).
  unfold bind. rewrite Hloop. destruct o as [[]|e].
  - eexists (Ok tt), _, ms. split; [reflexivity|]. simpl. repeat split.
    rewrite Ho. simpl. rewrite length_app. simpl. lia.
  - eexists (Raise e), _, ms. split; [reflexivity|]. simpl. repeat split; [tauto|].
    destruct Ho as [_ Ho]. simpl in Ho. rewrite length_app in Ho. simpl in Ho. lia.
Qed.

(** The attributes after a click that carries coordinates, however the
    drawing ends. *)
Lemma onclick_fields x y self :
  exists o self',
    _onclick cv2_polylines {| xdata := Some x; ydata := Some y |} self = (o, self') /\
    lists self' = alter (fun l => l ++ [(x, y)]) (_selected_points_last_ROI self)
                    (lists self) /\
    _img_input self' = _img_input self /\
    selected_points self' = selected_points self /\
    _selected_points_last_ROI self' = _selected_points_last_ROI self /\
    _completed_status self' = _completed_status self /\
    _buttonRelease self' = _buttonRelease self /\
    mask_frames self' = mask_frames self /\
    printed self' = printed self /\
    match o with
    | Ok _ => canvas_draws self' = S (canvas_draws self)
    | Raise _ => canvas_draws self' = canvas_draws self /\
                 _img_current self' = _img_current self
    end.
Proof.
  unfold _onclick. cbn [xdata ydata].
  unfold bind at 1, modify at 1. unfold bind at 1, get at 1.
  set (s1 := set_lists _ self).
  destruct (1 <? length (in_progress s1))%nat.
  - unfold bind at 1. unfold bind at 1, lift_outcome at 1.
    destruct (draw_completed cv2_polylines s1 (selected_points s1) (_img_input s1))
      as [im|e].
    + unfold bind at 1, lift_outcome at 1.
      destruct (_poly_img cv2_polylines im (in_progress s1)) as [im'|e].
      * eexists (Ok tt), _. split; [reflexivity|]. simpl. by repeat split.
      * eexists (Raise e), _. split; [reflexivity|]. simpl. by repeat split.
    + eexists (Raise e), _. split; [reflexivity|]. simpl. by repeat split.
  - eexists (Ok tt), _. split; [reflexivity|]. simpl. by repeat split.
Qed.

Lemma run_snoc evs ev self :
  run cv2_polylines skimage_draw_polygon (evs ++ [ev]) self =
  snd (dispatch cv2_polylines skimage_draw_polygon ev
         (run cv2_polylines skimage_draw_polygon evs self)).
Proof. unfold run. by rewrite fold_left_app. Qed.

Lemma deref_alter_eq {A} (ls : list (list A)) (i : nat) (f : list A -> list A) :
  (i < length ls)%nat ->
  default [] (alter f i ls !! i) = f (default [] (ls !! i)).
Proof.
  intros Hi. rewrite list_lookup_alter_eq.
  destruct (lookup_lt_is_Some_2 ls i Hi) as [l Hl]. by rewrite Hl.
Qed.

(** A click does nothing once the callback is disconnected or when it
    carries no coordinates; otherwise it runs [_onclick]. *)
Lemma dispatch_click event self :
  dispatch cv2_polylines skimage_draw_polygon (Click event) self = (Ok tt, self) \/
  exists x y,
    _buttonRelease self = true /\
    event = {| xdata := Some x; ydata := Some y |} /\
    dispatch cv2_polylines skimage_draw_polygon (Click event) self =
      _onclick cv2_polylines {| xdata := Some x; ydata := Some y |} self.
Proof.
  cbn [dispatch]. unfold bind, get.
  destruct (_buttonRelease self) eqn:Hb; [|by left].
  destruct event as [[x|] [y|]]; try by left.
  right. by exists x, y.
Qed.

(** What holds of the object after any sequence of user actions. *)
Lemma run_inv image evs :
  let self := run cv2_polylines skimage_draw_polygon evs (__init__ image) in
  _img_input self = image /\
  (_selected_points_last_ROI self < length (lists self))%nat /\
  Forall (fun r => (r < length (lists self))%nat) (selected_points self) /\
  (_buttonRelease self = true ->
   ~ In (_selected_points_last_ROI self) (selected_points self)) /\
  _completed_status self = negb (_buttonRelease self) /\
  (_buttonRelease self = false <-> In ConfirmROI evs) /\
  (mask_frames self = None <-> _buttonRelease self = true) /\
  length (selected_points self) =
    length (List.filter (fun ev => match ev with Click _ => false | _ => true end) evs).
Proof.
  induction evs as [|ev evs IH] using rev_ind; intros self; subst self.
  - simpl. repeat split; try done; try lia.
  - rewrite run_snoc.
    set (s := run cv2_polylines skimage_draw_polygon evs (__init__ image)) in *.
    cbv zeta in IH. destruct IH as (Himg & Hlast & Hsp & Hna & Hcs & Hbr & Hmf & Hlen).
    rewrite List.filter_app, length_app. cbn [List.filter].
    assert (Hin : forall ev', ev' <> ConfirmROI ->
              (In ConfirmROI (evs ++ [ev']) <-> In ConfirmROI evs)).
    { intros ev' Hev. rewrite in_app_iff. simpl. split; [|auto].
      intros [H|[H|[]]]; [done|congruence]. }
    destruct ev as [event| |].
    + assert (Hsame : forall s', s' = s ->
                _img_input s' = image /\
                (_selected_points_last_ROI s' < length (lists s'))%nat /\
                Forall (fun r => (r < length (lists s'))%nat) (selected_points s') /\
                (_buttonRelease s' = true ->
                 ~ In (_selected_points_last_ROI s') (selected_points s')) /\
                _completed_status s' = negb (_buttonRelease s') /\
                (_buttonRelease s' = false <-> In ConfirmROI (evs ++ [Click event])) /\
                (mask_frames s' = None <-> _buttonRelease s' = true) /\
                length (selected_points s') =
                  (length (List.filter
                             (fun ev => match ev with Click _ => false | _ => true end)
                             evs) + length (@nil gui_event))%nat).
      { intros s' ->. rewrite Hin by done. simpl. rewrite Nat.add_0_r. done. }
      destruct (dispatch_click event s) as [Hd | (x & y & Hb & _ & Hd)]; rewrite Hd.
      { exact (Hsame s eq_refl). }
      destruct (onclick_fields x y s)
        as (o & s' & Hrun & Hl & Hi & Hs & Hla & Hc & Hbb & Hm & _).
      rewrite Hrun. cbn [snd]. rewrite Hi, Hl, Hs, Hla, Hc, Hbb, Hm, length_alter.
      rewrite Hin by done. simpl. rewrite Nat.add_0_r. rewrite Hb in *. done.
    + cbn [dispatch].
      destruct (disconnect_mpl_fields s)
        as (o & s' & ms & Hrun & Hi & Hl & Hs & Hla & Hc & Hbb & _ & _ & Hm & _).
      rewrite Hrun. cbn [snd]. rewrite Hi, Hl, Hs, Hla, Hc, Hbb, Hm.
      repeat split; try done.
      * apply Forall_app. split; [done|]. by constructor.
      * intros _. apply in_or_app. right. by left.
      * rewrite length_app. simpl. lia.
    + cbn [dispatch]. simpl. rewrite !length_app. simpl.
      rewrite Hin by done. repeat split; try done; try lia.
      * apply Forall_app. split.
        -- eapply Forall_impl; [exact Hsp|]. simpl. lia.
        -- constructor; [lia|constructor].
      * intros _ Hi. apply in_app_or in Hi as [Hi|[Hi|[]]]; [|lia].
        rewrite List.Forall_forall in Hsp. apply Hsp in Hi. lia.
      * apply Hbr.
      * apply Hbr.
      * apply Hmf.
      * apply Hmf.
Qed.

(** X20: the confirm button is final, whatever else the user does and
    whether or not a callback raised: after any sequence of actions the
    object is completed, its click callback disconnected and its
    [mask_frames] attribute present exactly when "Confirm ROI" was pressed at
    least once.  The input image is never changed, and [selected_points]
    holds one polygon per button press ("New ROI" or "Confirm ROI"). *)
Theorem select_roi_confirm_is_final :
  forall (image : ndarray) (evs : list gui_event),
    (_completed_status (run cv2_polylines skimage_draw_polygon evs (__init__ image)) = true
       <-> In ConfirmROI evs) /\
    (_buttonRelease (run cv2_polylines skimage_draw_polygon evs (__init__ image)) = false
       <-> In ConfirmROI evs) /\
    (mask_frames (run cv2_polylines skimage_draw_polygon evs (__init__ image)) <> None
       <-> In ConfirmROI evs) /\
    _img_input (run cv2_polylines skimage_draw_polygon evs (__init__ image)) = image /\
    length (selected_points (run cv2_polylines skimage_draw_polygon evs (__init__ image)))
      = length (List.filter (fun ev => match ev with Click _ => false | _ => true end) evs).
Proof.
  intros image evs.
  destruct (run_inv image evs) as (Himg & _ & _ & _ & Hcs & Hbr & Hmf & Hlen).
  set (s := run cv2_polylines skimage_draw_polygon evs (__init__ image)) in *.
  split; [|split; [exact Hbr|split; [|split; [exact Himg|exact Hlen]]]].
  - rewrite <- Hbr, Hcs. by destruct (_buttonRelease s).
  - rewrite <- Hbr, Hmf. by destruct (_buttonRelease s).
Qed.

(** X21: while "Confirm ROI" has not been pressed, a click inside the image
    appends its point to the polygon in progress and to nothing else: the
    completed polygons stay as they were.  This holds also when drawing the
    outlines raises. *)
Theorem select_roi_click_appends_point :
  forall (image : ndarray) (evs : list gui_event) (x y : Q),
    ~ In ConfirmROI evs ->
    in_progress (run cv2_polylines skimage_draw_polygon (evs ++ [click x y])
                   (__init__ image))
      = in_progress (run cv2_polylines skimage_draw_polygon evs (__init__ image))
          ++ [(x, y)] /\
    completed_polygons (run cv2_polylines skimage_draw_polygon (evs ++ [click x y])
                          (__init__ image))
      = completed_polygons (run cv2_polylines skimage_draw_polygon evs (__init__ image)).
Proof.
  intros image evs x y Hno.
  destruct (run_inv image evs) as (_ & Hlast & _ & Hna & _ & Hbr & _).
  rewrite run_snoc.
  set (s := run cv2_polylines skimage_draw_polygon evs (__init__ image)) in *.
  assert (Hb : _buttonRelease s = true).
  { destruct (_buttonRelease s); [done|]. exfalso. by apply Hno, Hbr. }
  assert (Hd : dispatch cv2_polylines skimage_draw_polygon (click x y) s
               = _onclick cv2_polylines {| xdata := Some x; ydata := Some y |} s).
  { unfold click. cbn [dispatch]. unfold bind, get. by rewrite Hb. }
  destruct (onclick_fields x y s) as (o & s' & Hrun & Hl & _ & Hs & Hla & _).
  rewrite Hd, Hrun. cbn [snd]. unfold in_progress, completed_polygons, deref.
  rewrite Hl, Hs, Hla. split.
  - exact (deref_alter_eq (lists s) _ (fun l => l ++ [(x, y)]) Hlast).
  - apply map_ext_in. intros r Hr. rewrite list_lookup_alter_ne; [done|].
    intros <-. by apply (Hna Hb).
Qed.

(** X22: once "Confirm ROI" has been pressed (even if it raised), clicks on
    the figure no longer reach the object: it stays exactly as it was. *)
Theorem select_roi_click_after_confirm_ignored :
  forall (image : ndarray) (evs : list gui_event) (event : MouseEvent),
    In ConfirmROI evs ->
    run cv2_polylines skimage_draw_polygon (evs ++ [Click event]) (__init__ image)
      = run cv2_polylines skimage_draw_polygon evs (__init__ image).
Proof.
  intros image evs event Hin.
  destruct (run_inv image evs) as (_ & _ & _ & _ & _ & Hbr & _).
  rewrite run_snoc. apply Hbr in Hin.
  set (s := run cv2_polylines skimage_draw_polygon evs (__init__ image)) in *.
  cbn [dispatch]. unfold bind, get. by rewrite Hin.
Qed.

(** X23: the confirm action always marks the object completed, disconnects
    the click callback, appends the polygon in progress to
    [selected_points] and leaves a list in [mask_frames].  If it returns
    normally, that list has one mask per polygon and the message
    "mask_frames computed" has been printed; if it raises, the list is
    shorter than [selected_points] and nothing has been printed. *)
Theorem disconnect_mpl_all_or_fewer_masks :
  forall self : Select_ROI,
    exists o self' ms,
      _disconnect_mpl skimage_draw_polygon self = (o, self') /\
      _completed_status self' = true /\
      _buttonRelease self' = false /\
      selected_points self' = selected_points self ++ [_selected_points_last_ROI self] /\
      mask_frames self' = Some ms /\
      match o with
      | Ok _ => length ms = length (selected_points self') /\
                printed self' = printed self ++ ["mask_frames computed"]
      | Raise _ => (length ms < length (selected_points self'))%nat /\
                   printed self' = printed self
      end.
Proof.
  intros self.
  destruct (disconnect_mpl_fields self)
    as (o & s' & ms & Hrun & _ & _ & Hs & _ & Hc & Hb & _ & _ & Hm & Ho).
  exists o, s', ms. rewrite Hs, length_app. simpl.
  repeat split; try done.
  destruct o as [[]|e].
  - destruct Ho as [-> ->]. split; [lia|done].
  - destruct Ho as (_ & Hlen & ->). split; [lia|done].
Qed.

(** *** The masks *)

Lemma normalize_indices_spec h w px px' :
  normalize_indices h w px = Some px' ->
  forall r c,
    In (r, c) px' <->
    exists y x, In (y, x) px /\
                normalize_index h y = Some r /\ normalize_index w x = Some c.
Proof.
  revert px'. induction px as [|[y0 x0] px IH]; intros px' H r c.
  - injection H as <-. split; [intros []|]. by intros (y & x & [] & _).
  - cbn [normalize_indices] in H.
    destruct (normalize_index h y0) as [r0|] eqn:Er; [|discriminate].
    destruct (normalize_index w x0) as [c0|] eqn:Ec; [|discriminate].
    destruct (normalize_indices h w px) as [rest|]; [|discriminate].
    injection H as <-. specialize (IH rest eq_refl r c). split.
    + intros [Heq|Hin].
      * injection Heq as <- <-. exists y0, x0. split; [by left|done].
      * apply IH in Hin as (y & x & Hin & Hy & Hx). exists y, x. split; [by right|done].
    + intros (y & x & [Heq|Hin] & Hy & Hx).
      * injection Heq as <- <-. left. congruence.
      * right. apply IH. by exists y, x.
Qed.

Lemma normalize_indices_None h w px :
  normalize_indices h w px = None <->
  exists y x, In (y, x) px /\
              (normalize_index h y = None \/ normalize_index w x = None).
Proof.
  induction px as [|[y0 x0] px IH].
  - split; [discriminate|]. by intros (y & x & [] & _).
  - cbn [normalize_indices].
    destruct (normalize_index h y0) as [r0|] eqn:Er.
    2:{ split; [intros _|done]. exists y0, x0. split; [by left|by left]. }
    destruct (normalize_index w x0) as [c0|] eqn:Ec.
    2:{ split; [intros _|done]. exists y0, x0. split; [by left|by right]. }
    destruct (normalize_indices h w px) as [rest|].
    + split; [discriminate|]. intros (y & x & [Heq|Hin] & Hn).
      * injection Heq as <- <-. destruct Hn; congruence.
      * assert (H : Some rest = None); [|discriminate].
        apply IH. by exists y, x.
    + split; [intros _|done]. destruct IH as [IH _].
      destruct (IH eq_refl) as (y & x & Hin & Hn). exists y, x. split; [by right|done].
Qed.

Lemma normalize_index_None n i :
  normalize_index n i = None <-> (i < - Z.of_nat n \/ Z.of_nat n <= i)%Z.
Proof.
  unfold normalize_index.
  destruct (Z.leb_spec 0 i), (Z.ltb_spec i (Z.of_nat n)),
    (Z.leb_spec (- Z.of_nat n) i), (Z.ltb_spec i 0); simpl;
    split; try discriminate; try done; lia.
Qed.

Lemma pixel_in_spec px r c : pixel_in px r c = true <-> In (r, c) px.
Proof.
  unfold pixel_in. rewrite existsb_exists. split.
  - intros ([r' c'] & Hin & H). apply andb_prop in H as [Hr Hc]. simpl in *.
    apply Nat.eqb_eq in Hr, Hc. by subst.
  - intros Hin. exists (r, c). split; [done|]. simpl. by rewrite !Nat.eqb_refl.
Qed.

(** X24: the mask [_disconnect_mpl] builds from the pixels of a polygon is
    true exactly at these pixels, an index below zero counting from the end
    as numpy has it; the assignment raises [IndexError], and no mask is
    made, exactly when some pixel lies outside the image (row not in
    [-h, h) or column not in [-w, w)). *)
Theorem fill_mask_marks_polygon_pixels :
  forall (h w : nat) (px : list (Z * Z)),
    (forall m, fill_mask h w px = Ok m ->
       has_dims h w m /\
       forall r c, (r < h)%nat -> (c < w)%nat ->
         (nth c (nth r m []) false = true <->
          exists y x, In (y, x) px /\
                      normalize_index h y = Some r /\ normalize_index w x = Some c)) /\
    ((exists e, fill_mask h w px = Raise e) <->
     exists y x, In (y, x) px /\
       ((y < - Z.of_nat h \/ Z.of_nat h <= y)%Z \/ (x < - Z.of_nat w \/ Z.of_nat w <= x)%Z)) /\
    (forall e, fill_mask h w px = Raise e -> exn_cls e = IndexError).
Proof.
  intros h w px. split; [|split].
  - intros m Hm. split; [by eapply fill_mask_dims|].
    unfold fill_mask in Hm.
    destruct (normalize_indices h w px) as [px'|] eqn:Hpx; [|discriminate].
    injection Hm as <-. intros r c Hr Hc.
    rewrite <- (normalize_indices_spec _ _ _ _ Hpx), <- pixel_in_spec.
    assert (Hrow : nth r (map (fun r => map (fun c => pixel_in px' r c) (seq 0 w)) (seq 0 h)) []
                   = map (fun c => pixel_in px' r c) (seq 0 w)).
    { apply nth_error_nth. rewrite nth_error_map, nth_error_seq.
      apply Nat.ltb_lt in Hr. by rewrite Hr. }
    rewrite Hrow.
    assert (Hcol : nth c (map (fun c => pixel_in px' r c) (seq 0 w)) false = pixel_in px' r c).
    { apply nth_error_nth. rewrite nth_error_map, nth_error_seq.
      apply Nat.ltb_lt in Hc. by rewrite Hc. }
    by rewrite Hcol.
  - unfold fill_mask.
    destruct (normalize_indices h w px) as [px'|] eqn:Hpx.
    + split; [by intros [e He]|]. intros (y & x & Hin & Hout). exfalso.
      assert (Hn : normalize_indices h w px = None); [|congruence].
      apply normalize_indices_None. exists y, x. split; [done|].
      by rewrite !normalize_index_None.
    + split; [intros _|by eauto].
      apply normalize_indices_None in Hpx as (y & x & Hin & Hn).
      exists y, x. split; [done|]. by rewrite !normalize_index_None in Hn.
  - intros e. unfold fill_mask. destruct (normalize_indices h w px); [discriminate|].
    by intros [= <-].
Qed.

(** The loop makes the masks in the order of the polygons. *)
Lemma mask_frames_loop_masks refs self ms h w rest :
  shape (_img_input self) = h :: w :: rest ->
  mask_frames self = Some ms ->
  Forall (fun r => rasterizable skimage_draw_polygon h w (deref self r)) refs ->
  exists ms',
    mask_frames_loop skimage_draw_polygon refs self =
      (Ok tt, set_mask_frames (Some (ms ++ ms')) self) /\
    Forall2 (fun r m =>
               fill_mask h w (skimage_draw_polygon (map snd (deref self r))
                                                   (map fst (deref self r))) = Ok m)
            refs ms'.
Proof.
  intros Hshape. revert self ms Hshape.
  induction refs as [|r0 refs IH]; intros self ms Hshape Hms Hall.
  - exists []. rewrite (set_mask_frames_same _ _ Hms). by split.
  - apply Forall_cons in Hall as [[Hne Hok] Hall].
    cbn [mask_frames_loop]. unfold bind at 1.
    unfold mask_frame_of at 1. unfold bind at 1, get at 1. rewrite Hshape.
    destruct (deref self r0) as [|p pts] eqn:Hd0; [done|].
    unfold bind at 1, lift_outcome at 1.
    destruct (fill_mask h w _) as [m|e] eqn:Hfill; [|discriminate].
    rewrite Hms. unfold modify at 1.
    destruct (IH (set_mask_frames (Some (ms ++ [m])) self) (ms ++ [m]) Hshape eq_refl Hall)
      as (ms' & Hloop & Hmasks).
    exists (m :: ms'). rewrite Hloop. simpl. rewrite <- app_assoc. simpl.
    split; [reflexivity|]. constructor; [by rewrite Hd0|exact Hmasks].
Qed.

(** X25: when the confirm action succeeds, the masks come in the order of
    the polygons, the polygon in progress last: mask number [i] is the
    rasterisation of polygon number [i], the rows taken from the [ydata] of
    its points and the columns from their [xdata]. *)
Theorem disconnect_mpl_masks_in_polygon_order :
  forall (self : Select_ROI) (h w : nat) (rest : list nat),
    shape (_img_input self) = h :: w :: rest ->
    Forall (rasterizable skimage_draw_polygon h w)
      (completed_polygons self ++ [in_progress self]) ->
    exists self' ms,
      _disconnect_mpl skimage_draw_polygon self = (Ok tt, self') /\
      mask_frames self' = Some ms /\
      completed_polygons self' = completed_polygons self ++ [in_progress self] /\
      Forall2 (fun pts m =>
                 fill_mask h w (skimage_draw_polygon (map snd pts) (map fst pts)) = Ok m)
              (completed_polygons self') ms.
Proof.
  intros self h w rest Hshape Hall. unfold _disconnect_mpl.
  unfold bind at 1, modify at 1. unfold bind at 1, modify at 1.
  unfold bind at 1, modify at 1. unfold bind at 1, modify at 1.
  unfold bind at 1, get at 1.
  set (s1 := set_mask_frames (Some []) _).
  destruct (mask_frames_loop_masks (selected_points s1) s1 [] h w rest Hshape eq_refl)
    as (ms & Hloop & Hmasks).
  { unfold completed_polygons, in_progress in Hall.
    change (selected_points s1)
      with (selected_points self ++ [_selected_points_last_ROI self]).
    change [deref self (_selected_points_last_ROI self)]
      with (map (deref self) [_selected_points_last_ROI self]) in Hall.
    rewrite <- map_app in Hall. rewrite List.Forall_map in Hall. exact Hall. }
  unfold bind. rewrite Hloop. unfold modify.
  eexists _, ms. split; [reflexivity|]. split; [reflexivity|]. split.
  - unfold completed_polygons, in_progress. simpl. by rewrite map_app.
  - unfold completed_polygons. simpl.
    apply Forall2_fmap_l. exact Hmasks.
Qed.

End ROIMore.

Lemma select_roi_click_appends_point_witness :
  in_progress (run outline_unseen even_odd_polygon
                 ([click 0 0; NewROI; click 1 1] ++ [click 3 0]) (__init__ image_4x5))
    = in_progress (run outline_unseen even_odd_polygon [click 0 0; NewROI; click 1 1]
                     (__init__ image_4x5)) ++ [(3%Q, 0%Q)] /\
  completed_polygons (run outline_unseen even_odd_polygon
                        ([click 0 0; NewROI; click 1 1] ++ [click 3 0])
                        (__init__ image_4x5))
    = completed_polygons (run outline_unseen even_odd_polygon
                            [click 0 0; NewROI; click 1 1] (__init__ image_4x5)).
Proof.
  apply (select_roi_click_appends_point outline_unseen even_odd_polygon image_4x5
           [click 0 0; NewROI; click 1 1] 3 0).
  simpl. intros [H|[H|[H|[]]]]; discriminate.
Defined.

Lemma select_roi_click_after_confirm_ignored_witness :
  run outline_unseen even_odd_polygon
    ([click 0 0; click 3 0; click 0 3; ConfirmROI] ++ [click 1 1]) (__init__ image_4x5)
  = run outline_unseen even_odd_polygon
      [click 0 0; click 3 0; click 0 3; ConfirmROI] (__init__ image_4x5).
Proof.
  apply (select_roi_click_after_confirm_ignored outline_unseen even_odd_polygon image_4x5
           [click 0 0; click 3 0; click 0 3; ConfirmROI]
           {| xdata := Some 1%Q; ydata := Some 1%Q |}).
  simpl. tauto.
Defined.

Lemma disconnect_mpl_masks_in_polygon_order_witness :
  let self := run outline_unseen even_odd_polygon [click 0 0; click 3 0; click 0 3]
                (__init__ image_4x5) in
  exists self' ms,
    _disconnect_mpl even_odd_polygon self = (Ok tt, self') /\
    mask_frames self' = Some ms /\
    completed_polygons self' = completed_polygons self ++ [in_progress self] /\
    Forall2 (fun pts m =>
               fill_mask 4 5 (even_odd_polygon (map snd pts) (map fst pts)) = Ok m)
            (completed_polygons self') ms.
Proof.
  intros self.
  apply (disconnect_mpl_masks_in_polygon_order even_odd_polygon self 4 5 []).
  - reflexivity.
  - repeat constructor; try discriminate; vm_compute; reflexivity.
Defined.

(** ** plot_to_image *)

Lemma nth_firstn_skipn {A} (l : list A) (m n j : nat) (d : A) :
  (j < n)%nat -> nth j (firstn n (skipn m l)) d = nth (m + j) l d.
Proof.
  intros Hj. revert l. induction m as [|m IH]; intros l.
  - simpl. revert j n Hj. induction l as [|a l IHl]; intros j n Hj.
    + rewrite firstn_nil. by destruct j.
    + destruct n as [|n]; [lia|]. destruct j as [|j]; [done|]. simpl. apply IHl. lia.
  - destruct l as [|a l]; [|apply IH].
    simpl. rewrite firstn_nil. by destruct j.
Qed.

Lemma skipn_skipn_add {A} (l : list A) (m n : nat) :
  skipn n (skipn m l) = skipn (m + n) l.
Proof.
  revert l. induction m as [|m IH]; intros l; [done|].
  destruct l as [|a l]; [by rewrite !skipn_nil|]. apply IH.
Qed.

Lemma chunks_length {A} (k n : nat) (l : list A) : length (chunks k n l) = k.
Proof. revert l. induction k as [|k IH]; intros l; [done|]. simpl. by rewrite IH. Qed.

Lemma chunks_nth {A} (k n : nat) (l : list A) (i : nat) :
  (i < k)%nat -> nth i (chunks k n l) [] = firstn n (skipn (i * n) l).
Proof.
  revert l i. induction k as [|k IH]; intros l i Hi; [lia|].
  cbn [chunks]. destruct i as [|i]; [done|].
  cbn [nth]. rewrite IH, skipn_skipn_add by lia. reflexivity.
Qed.

Lemma reshape3_pixel {A} (h w c : nat) (a : list A) (d : A) :
  length a = (h * w * c)%nat ->
  exists image,
    reshape3 h w c a = Ok image /\
    length image = h /\
    forall r col, (r < h)%nat -> (col < w)%nat ->
      length (nth r image []) = w /\
      length (nth col (nth r image []) []) = c /\
      forall k, (k < c)%nat ->
        nth k (nth col (nth r image []) []) d = nth (c * (w * r + col) + k) a d.
Proof.
  intros Hlen. unfold reshape3. rewrite Hlen, Nat.eqb_refl.
  eexists. split; [reflexivity|]. split.
  { by rewrite length_map, chunks_length. }
  intros r col Hr Hcol.
  assert (Hrow : nth r (map (chunks w c) (chunks h (w * c) a)) []
                 = chunks w c (firstn (w * c) (skipn (r * (w * c)) a))).
  { rewrite (nth_indep _ [] (chunks w c []))
      by (rewrite length_map, chunks_length; lia).
    by rewrite map_nth, chunks_nth. }
  rewrite Hrow.
  split; [apply chunks_length|]. rewrite chunks_nth by done.
  assert (Hin : forall k, (k < c)%nat ->
            nth k (firstn c (skipn (col * c) (firstn (w * c) (skipn (r * (w * c)) a)))) d
            = nth (c * (w * r + col) + k) a d).
  { intros k Hk. rewrite nth_firstn_skipn by done.
    rewrite nth_firstn_skipn by nia. f_equal. lia. }
  split; [|exact Hin].
  rewrite length_firstn, length_skipn, length_firstn, length_skipn, Hlen. nia.
Qed.

(** X26: the array [plot_to_image] returns has the canvas height as its
    first dimension and the width as its second.  With [keep_alpha], the
    entry at row [r], column [c] is the pixel [w * r + c] of the canvas
    buffer with its four bytes reordered from A,R,G,B to R,G,B,A; without,
    it is the three bytes R,G,B of that pixel.  A buffer whose length is not
    height x width x channels makes the call raise [ValueError]. *)
Theorem plot_to_image_pixels :
  forall fig : canvas,
    let h := get_height fig in
    let w := get_width fig in
    (length (tostring_argb fig) = (h * w * 4)%nat ->
     exists image,
       plot_to_image fig true = Ok image /\
       length image = h /\
       forall r c, (r < h)%nat -> (c < w)%nat ->
         length (nth r image []) = w /\
         nth c (nth r image []) [] =
           [ nth (4 * (w * r + c) + 1) (tostring_argb fig) 0%Z;
             nth (4 * (w * r + c) + 2) (tostring_argb fig) 0%Z;
             nth (4 * (w * r + c) + 3) (tostring_argb fig) 0%Z;
             nth (4 * (w * r + c) + 0) (tostring_argb fig) 0%Z ]) /\
    (length (tostring_rgb fig) = (h * w * 3)%nat ->
     exists image,
       plot_to_image fig false = Ok image /\
       length image = h /\
       forall r c, (r < h)%nat -> (c < w)%nat ->
         length (nth r image []) = w /\
         nth c (nth r image []) [] =
           [ nth (3 * (w * r + c) + 0) (tostring_rgb fig) 0%Z;
             nth (3 * (w * r + c) + 1) (tostring_rgb fig) 0%Z;
             nth (3 * (w * r + c) + 2) (tostring_rgb fig) 0%Z ]) /\
    (length (tostring_argb fig) <> (h * w * 4)%nat ->
     exists e, plot_to_image fig true = Raise e /\ exn_cls e = ValueError) /\
    (length (tostring_rgb fig) <> (h * w * 3)%nat ->
     exists e, plot_to_image fig false = Raise e /\ exn_cls e = ValueError).
Proof.
  intros fig h w. split; [|split; [|split]].
  - intros Hlen.
    destruct (reshape3_pixel h w 4 (tostring_argb fig) 0%Z Hlen)
      as (image & Himg & Hh & Hpx).
    unfold plot_to_image. fold h w. rewrite Himg. cbn [obind].
    eexists. split; [reflexivity|]. unfold take_last_axis.
    split; [by rewrite length_map|].
    intros r c Hr Hc. destruct (Hpx r c Hr Hc) as (Hw & _ & Hk).
    set (g := fun px : list Z => map (fun i => nth i px 0%Z) [1; 2; 3; 0]%nat).
    assert (Hrow : nth r (map (map g) image) [] = map g (nth r image []))
      by exact (map_nth (map g) image [] r).
    rewrite Hrow. split; [by rewrite length_map|].
    rewrite (nth_indep _ [] (g [])) by (rewrite length_map; lia).
    rewrite map_nth. unfold g. cbn [map].
    by rewrite !Hk by lia.
  - intros Hlen.
    destruct (reshape3_pixel h w 3 (tostring_rgb fig) 0%Z Hlen)
      as (image & Himg & Hh & Hpx).
    unfold plot_to_image. fold h w. rewrite Himg.
    exists image. split; [reflexivity|]. split; [exact Hh|].
    intros r c Hr Hc. destruct (Hpx r c Hr Hc) as (Hw & Hc3 & Hk).
    split; [exact Hw|].
    destruct (nth c (nth r image []) []) as [|p0 [|p1 [|p2 [|p3 px]]]];
      try discriminate.
    pose proof (Hk 0%nat ltac:(lia)) as H0.
    pose proof (Hk 1%nat ltac:(lia)) as H1.
    pose proof (Hk 2%nat ltac:(lia)) as H2.
    cbn [nth] in H0, H1, H2. by rewrite H0, H1, H2.
  - intros Hlen. unfold plot_to_image, reshape3. fold h w.
    apply Nat.eqb_neq in Hlen. rewrite Hlen. by eexists.
  - intros Hlen. unfold plot_to_image, reshape3. fold h w.
    apply Nat.eqb_neq in Hlen. rewrite Hlen. by eexists.
Qed.

Lemma plot_to_image_pixels_witness :
  exists image,
    plot_to_image canvas_2x2 true = Ok image /\
    length image = 2%nat /\
    forall r c, (r < 2)%nat -> (c < 2)%nat ->
      length (nth r image []) = 2%nat /\
      nth c (nth r image []) [] =
        [ nth (4 * (2 * r + c) + 1) (tostring_argb canvas_2x2) 0%Z;
          nth (4 * (2 * r + c) + 2) (tostring_argb canvas_2x2) 0%Z;
          nth (4 * (2 * r + c) + 3) (tostring_argb canvas_2x2) 0%Z;
          nth (4 * (2 * r + c) + 0) (tostring_argb canvas_2x2) 0%Z ].
Proof. apply (plot_to_image_pixels canvas_2x2). reflexivity. Defined.

End plotting_helpers_more.
